(** * Hull resistance calculator (resistance_calculator_v2.1.py)

    A shallow embedding of [HullParameters] and [ResistanceCalculator].

    Numbers.  Python floats and NumPy float64 values are idealised: a finite
    value is a real number, and the IEEE values [+inf], [-inf], [nan] and
    [-0.0] are kept, because a caller can pass them and because the NumPy
    part of the program reaches the first three at its singular points (a
    zero speed, a Reynolds number of 100).  What is left out: rounding;
    underflow (the exponential of a finite number is never 0, where
    binary64 gives 0.0 below about -745); overflow of [+], [-], [*] and
    [/] to an infinity; and the sign of a zero computed from finite
    operands (it is +0.0).  The one overflow that raises, Python's [**]
    on floats, is modelled where a caller's value reaches it.

    Inputs.  Speeds are given to the methods as a NumPy value
    ([calculate_holtrop_array], [calculate_simple_array]): a list of any
    floats or a single float; [calculate_holtrop] and [calculate_simple]
    are the same methods on a list of finite floats, where 0 is +0.0.
    The hull is embedded twice: [HullParameters], with finite real
    fields, which the calculator reads, and [HullParametersIEEE], the
    same class with fields that hold any float, on which construction is
    studied; the two agree on finite fields ([init_on_finite]).

    Effects.  NumPy does not raise on a division by zero or an invalid
    operation: it returns the IEEE value and issues a RuntimeWarning that
    names the operation.  A computation carries the warnings issued so far,
    in order.  Plain Python floats behave differently ([/] raises
    ZeroDivisionError), and the model keeps the two kinds of arithmetic
    apart as the source does. *)

From Stdlib Require Import Reals Lra List String Ascii Bool Arith Lia.
From Corelib Require PrimFloat.
Import ListNotations.

Local Open Scope R_scope.

(* ================================================================== *)
(** * Python exceptions and results *)

Inductive exn : Type :=
| ValueError (msg : string)
| ZeroDivisionError (msg : string)
| TypeError (msg : string)
| KeyError (key : string)
| IndexError (msg : string)
| OverflowError (msg : string)
| ComplexResult.
(* [ComplexResult] is not a Python exception: it marks the point where [**]
   leaves the floats (negative base, fractional exponent: Python 3 returns a
   complex number there) and the model stops following the evaluation. *)

Inductive result (A : Type) : Type :=
| Ok (a : A)
| Raise (e : exn).
Arguments Ok {A} a.
Arguments Raise {A} e.

Definition is_ok {A} (r : result A) : bool :=
  match r with Ok _ => true | Raise _ => false end.

(* ================================================================== *)
(** * Text helpers *)

Definition nl : string := String (ascii_of_nat 10) EmptyString.

(* sep.join(items) *)
Fixpoint join (sep : string) (items : list string) : string :=
  match items with
  | [] => EmptyString
  | [s] => s
  | s :: rest => (s ++ sep ++ join sep rest)%string
  end.

(* ================================================================== *)
(** * Floating-point values *)

Inductive npfloat : Type :=
| Fin (r : R)
| NZero
| PInf
| NInf
| NaN.
(* [NZero] is -0.0, which a caller can pass (it equals 0 and is no real
   number); [Fin 0] is +0.0. *)

(* format(x, spec), str(x): Python's float formatting is a library service. *)
Class PyFormat : Type := { py_format : npfloat -> string -> string }.

Definition Rsign (r : R) : comparison :=
  match total_order_T r 0 with
  | inleft (left _) => Lt
  | inleft (right _) => Eq
  | inright _ => Gt
  end.

Definition Rleb (x y : R) : bool := if Rle_dec x y then true else false.

Definition log10 (x : R) : R := ln x / ln 10.

(** The floating-point errors an operation can signal (the classes
    [divide] and [invalid] of [np.seterr]). *)
Record fpflags : Type := { fe_divide : bool; fe_invalid : bool }.

Definition quiet : fpflags := {| fe_divide := false; fe_invalid := false |}.
Definition divide_by_zero : fpflags := {| fe_divide := true; fe_invalid := false |}.
Definition invalid_value : fpflags := {| fe_divide := false; fe_invalid := true |}.

Definition flags_or (a b : fpflags) : fpflags :=
  {| fe_divide := fe_divide a || fe_divide b;
     fe_invalid := fe_invalid a || fe_invalid b |}.

Module Np.

Definition negative (x : npfloat) : npfloat :=
  match x with
  | Fin r => Fin (- r)
  | NZero => Fin 0
  | PInf => NInf
  | NInf => PInf
  | NaN => NaN
  end.

Definition add (x y : npfloat) : npfloat * fpflags :=
  match x, y with
  | NaN, _ | _, NaN => (NaN, quiet)
  | Fin a, Fin b => (Fin (a + b), quiet)
  | NZero, NZero => (NZero, quiet)
  | Fin a, NZero | NZero, Fin a => (Fin a, quiet)
  | PInf, NInf | NInf, PInf => (NaN, invalid_value)
  | PInf, _ | _, PInf => (PInf, quiet)
  | NInf, _ | _, NInf => (NInf, quiet)
  end.

Definition subtract (x y : npfloat) : npfloat * fpflags :=
  add x (negative y).

(* an infinity times a finite factor *)
Definition scale_inf (inf : npfloat) (a : R) : npfloat * fpflags :=
  match Rsign a with
  | Gt => (inf, quiet)
  | Lt => (negative inf, quiet)
  | Eq => (NaN, invalid_value)
  end.

Definition multiply (x y : npfloat) : npfloat * fpflags :=
  match x, y with
  | NaN, _ | _, NaN => (NaN, quiet)
  | Fin a, Fin b => (Fin (a * b), quiet)
  | NZero, NZero => (Fin 0, quiet)
  | Fin a, NZero | NZero, Fin a =>
      (match Rsign a with Lt => Fin 0 | _ => NZero end, quiet)
  | NZero, (PInf | NInf) | (PInf | NInf), NZero => (NaN, invalid_value)
  | Fin a, PInf | PInf, Fin a => scale_inf PInf a
  | Fin a, NInf | NInf, Fin a => scale_inf NInf a
  | PInf, PInf | NInf, NInf => (PInf, quiet)
  | PInf, NInf | NInf, PInf => (NInf, quiet)
  end.

Definition divide (x y : npfloat) : npfloat * fpflags :=
  match x, y with
  | NaN, _ | _, NaN => (NaN, quiet)
  | Fin a, Fin b =>
      match Rsign b with
      | Eq =>
          match Rsign a with
          | Gt => (PInf, divide_by_zero)
          | Lt => (NInf, divide_by_zero)
          | Eq => (NaN, invalid_value)
          end
      | _ => (Fin (a / b), quiet)
      end
  | Fin a, NZero =>
      match Rsign a with
      | Gt => (NInf, divide_by_zero)
      | Lt => (PInf, divide_by_zero)
      | Eq => (NaN, invalid_value)
      end
  | NZero, Fin b =>
      match Rsign b with
      | Gt => (NZero, quiet)
      | Lt => (Fin 0, quiet)
      | Eq => (NaN, invalid_value)
      end
  | NZero, NZero => (NaN, invalid_value)
  | NZero, PInf => (NZero, quiet)
  | NZero, NInf => (Fin 0, quiet)
  | PInf, NZero => (NInf, quiet)
  | NInf, NZero => (PInf, quiet)
  | Fin _, (PInf | NInf) => (Fin 0, quiet)
  | PInf, Fin b => (match Rsign b with Lt => NInf | _ => PInf end, quiet)
  | NInf, Fin b => (match Rsign b with Lt => PInf | _ => NInf end, quiet)
  | (PInf | NInf), (PInf | NInf) => (NaN, invalid_value)
  end.

Definition sqrt (x : npfloat) : npfloat * fpflags :=
  match x with
  | Fin a =>
      match Rsign a with
      | Lt => (NaN, invalid_value)
      | _ => (Fin (R_sqrt.sqrt a), quiet)
      end
  | NZero => (NZero, quiet)
  | PInf => (PInf, quiet)
  | NInf => (NaN, invalid_value)
  | NaN => (NaN, quiet)
  end.

Definition log10 (x : npfloat) : npfloat * fpflags :=
  match x with
  | Fin a =>
      match Rsign a with
      | Gt => (Fin (log10 a), quiet)
      | Eq => (NInf, divide_by_zero)
      | Lt => (NaN, invalid_value)
      end
  | NZero => (NInf, divide_by_zero)
  | PInf => (PInf, quiet)
  | NInf => (NaN, invalid_value)
  | NaN => (NaN, quiet)
  end.

Definition exp (x : npfloat) : npfloat * fpflags :=
  match x with
  | Fin a => (Fin (Rtrigo_def.exp a), quiet)
  | NZero => (Fin 1, quiet)
  | PInf => (PInf, quiet)
  | NInf => (Fin 0, quiet)
  | NaN => (NaN, quiet)
  end.

(* x ** 2 on an array or a NumPy scalar *)
Definition square (x : npfloat) : npfloat * fpflags :=
  match x with
  | Fin a => (Fin (a ^ 2), quiet)
  | NZero => (Fin 0, quiet)
  | PInf | NInf => (PInf, quiet)
  | NaN => (NaN, quiet)
  end.

End Np.

(** The values alone, for statements. *)
Definition xadd (x y : npfloat) : npfloat := fst (Np.add x y).
Definition xsub (x y : npfloat) : npfloat := fst (Np.subtract x y).
Definition xmul (x y : npfloat) : npfloat := fst (Np.multiply x y).
Definition xdiv (x y : npfloat) : npfloat := fst (Np.divide x y).
Definition xsqrt (x : npfloat) : npfloat := fst (Np.sqrt x).
Definition xlog10 (x : npfloat) : npfloat := fst (Np.log10 x).
Definition xexp (x : npfloat) : npfloat := fst (Np.exp x).
Definition xsquare (x : npfloat) : npfloat := fst (Np.square x).

(** IEEE comparison: [nan] compares false with everything. *)
Definition xle (x y : npfloat) : Prop :=
  match x, y with
  | NaN, _ | _, NaN => False
  | NInf, _ | _, PInf => True
  | Fin a, Fin b => a <= b
  | Fin a, NZero => a <= 0
  | NZero, Fin b => 0 <= b
  | NZero, NZero => True
  | _, _ => False
  end.

(* x <= y as Python evaluates it on two floats *)
Definition fle (x y : npfloat) : bool :=
  match x, y with
  | NaN, _ | _, NaN => false
  | NInf, _ | _, PInf => true
  | Fin a, Fin b => Rleb a b
  | Fin a, NZero => Rleb a 0
  | NZero, Fin b => Rleb 0 b
  | NZero, NZero => true
  | _, _ => false
  end.

(** [x < y]: false as soon as one side is [nan]. *)
Definition xlt (x y : npfloat) : Prop := xle x y /\ ~ xle y x.

(* ================================================================== *)
(** * Computations: a result or an exception, and the warnings issued *)

Inductive fpe : Type := DivideByZero | InvalidValue.

(* "RuntimeWarning: divide by zero encountered in log10" and the like *)
Inductive warning : Type :=
| RuntimeWarning (kind : fpe) (ufunc : string).

(* one call of a ufunc reports each class it met once *)
Definition report (ufunc : string) (fl : fpflags) : list warning :=
  (if fe_divide fl then [RuntimeWarning DivideByZero ufunc] else [])
  ++ (if fe_invalid fl then [RuntimeWarning InvalidValue ufunc] else []).

Definition flag_of (kind : fpe) (fl : fpflags) : bool :=
  match kind with
  | DivideByZero => fe_divide fl
  | InvalidValue => fe_invalid fl
  end.

Definition M (A : Type) : Type := (result A * list warning)%type.

Definition ret {A} (a : A) : M A := (Ok a, []).
Definition throw {A} (e : exn) : M A := (Raise e, []).

Definition bind {A B} (m : M A) (k : A -> M B) : M B :=
  match m with
  | (Ok a, ws) => let (r, ws') := k a in (r, ws ++ ws')
  | (Raise e, ws) => (Raise e, ws)
  end.

Notation "x <- m ;; k" := (bind m (fun x => k))
  (at level 61, m at next level, right associativity).

Definition value_of {A} (m : M A) : result A := fst m.
Definition warnings_of {A} (m : M A) : list warning := snd m.

(** ** Python float arithmetic that can leave the floats *)

Module Py.

(* x / y on two Python floats *)
Definition truediv (x y : R) : M R :=
  match Rsign y with
  | Eq => throw (ZeroDivisionError "float division by zero")
  | _ => ret (x / y)
  end.

(* x ** y on two Python floats, y not an integer *)
Definition pow (x y : R) : M R :=
  match Rsign x with
  | Gt => ret (Rpower x y)
  | Eq =>
      match Rsign y with
      | Gt => ret 0
      | Eq => ret 1
      | Lt => throw (ZeroDivisionError "0.0 cannot be raised to a negative power")
      end
  | Lt => throw ComplexResult
  end.

(* reading an attribute that may still be None into arithmetic *)
Definition number (o : option R) : M R :=
  match o with
  | Some x => ret x
  | None => throw (TypeError "unsupported operand type(s): 'NoneType'")
  end.

(** Python floats that may be infinite, nan or -0.0.  [+], [-] and [*]
    return the IEEE value ([xadd], [xsub], [xmul]) and never raise; [/]
    raises on a zero divisor of either sign; [** 2] raises OverflowError
    when a finite operand gives a result beyond the largest float. *)

(* sys.float_info.max = (2 - 2^-52) * 2^1023 *)
Definition float_max : R := (2 - / 2 ^ 52) * 2 ^ 1023.

Definition is_zero (x : npfloat) : bool :=
  match x with
  | Fin r => match Rsign r with Eq => true | _ => false end
  | NZero => true
  | _ => false
  end.

(* x / y *)
Definition fdiv (x y : npfloat) : M npfloat :=
  if is_zero y then throw (ZeroDivisionError "float division by zero")
  else ret (xdiv x y).

Definition overflow_error : exn :=
  OverflowError "(34, 'Numerical result out of range')".

(* x ** 2 *)
Definition square (x : npfloat) : M npfloat :=
  match x with
  | Fin r =>
      if Rleb (r ^ 2) float_max then ret (Fin (r ^ 2))
      else throw overflow_error
  | NZero => ret (Fin 0)
  | PInf | NInf => ret PInf
  | NaN => ret NaN
  end.

End Py.

(** ** NumPy values: a float64 scalar or a one-dimensional array *)

Inductive value : Type :=
| Scalar (x : npfloat)
| Array (xs : list npfloat).

Definition collect (l : list (npfloat * fpflags)) : list npfloat * fpflags :=
  (map fst l, fold_right (fun p acc => flags_or (snd p) acc) quiet l).

Definition broadcast_error : exn :=
  ValueError "operands could not be broadcast together".

Definition ufunc1 (name : string) (f : npfloat -> npfloat * fpflags)
    (a : value) : M value :=
  match a with
  | Scalar x => (Ok (Scalar (fst (f x))), report name (snd (f x)))
  | Array xs =>
      let (ys, fl) := collect (map f xs) in (Ok (Array ys), report name fl)
  end.

(* All arrays of this program have the length of [speeds]; arrays of
   different lengths are reported as NumPy reports them. *)
Definition ufunc2 (name : string) (f : npfloat -> npfloat -> npfloat * fpflags)
    (a b : value) : M value :=
  match a, b with
  | Scalar x, Scalar y => (Ok (Scalar (fst (f x y))), report name (snd (f x y)))
  | Scalar x, Array ys =>
      let (zs, fl) := collect (map (f x) ys) in (Ok (Array zs), report name fl)
  | Array xs, Scalar y =>
      let (zs, fl) := collect (map (fun x => f x y) xs) in
      (Ok (Array zs), report name fl)
  | Array xs, Array ys =>
      if Nat.eqb (List.length xs) (List.length ys)
      then let (zs, fl) := collect (map (fun p => f (fst p) (snd p)) (combine xs ys))
           in (Ok (Array zs), report name fl)
      else throw broadcast_error
  end.

(* a ufunc called on scalars: one NumPy scalar comes back *)
Definition scalar1 (name : string) (f : npfloat -> npfloat * fpflags)
    (x : npfloat) : M npfloat :=
  (Ok (fst (f x)), report name (snd (f x))).

Definition scalar2 (name : string) (f : npfloat -> npfloat -> npfloat * fpflags)
    (x y : npfloat) : M npfloat :=
  (Ok (fst (f x y)), report name (snd (f x y))).

(* the operands are evaluated left to right, then the ufunc is called *)
Definition lift1 (name : string) (f : npfloat -> npfloat * fpflags)
    (ma : M value) : M value :=
  a <- ma ;; ufunc1 name f a.

Definition lift2 (name : string) (f : npfloat -> npfloat -> npfloat * fpflags)
    (ma mb : M value) : M value :=
  a <- ma ;; b <- mb ;; ufunc2 name f a b.

(* a Python float entering a NumPy expression *)
Definition py (r : R) : M value := ret (Scalar (Fin r)).
Definition np (v : value) : M value := ret v.

Declare Scope np_scope.
Delimit Scope np_scope with np.
Notation "a + b" := (lift2 "add" Np.add a b) : np_scope.
Notation "a - b" := (lift2 "subtract" Np.subtract a b) : np_scope.
Notation "a * b" := (lift2 "multiply" Np.multiply a b) : np_scope.
Notation "a / b" := (lift2 "divide" Np.divide a b) : np_scope.
(* a ** 2 *)
Definition sq (a : M value) : M value := lift1 "square" Np.square a.
Definition np_sqrt (a : M value) : M value := lift1 "sqrt" Np.sqrt a.
Definition np_log10 (a : M value) : M value := lift1 "log10" Np.log10 a.
Definition np_exp (a : M value) : M value := lift1 "exp" Np.exp a.

(* np.asarray(speeds) *)
Definition asarray (speeds : list R) : value := Array (map Fin speeds).

(** ** The value of a computation, without its flags *)

Definition rbind {A B} (r : result A) (k : A -> result B) : result B :=
  match r with
  | Ok a => k a
  | Raise e => Raise e
  end.

Definition vmap1 (f : npfloat -> npfloat) (a : value) : value :=
  match a with
  | Scalar x => Scalar (f x)
  | Array xs => Array (map f xs)
  end.

Definition vmap2 (f : npfloat -> npfloat -> npfloat) (a b : value) : result value :=
  match a, b with
  | Scalar x, Scalar y => Ok (Scalar (f x y))
  | Scalar x, Array ys => Ok (Array (map (f x) ys))
  | Array xs, Scalar y => Ok (Array (map (fun x => f x y) xs))
  | Array xs, Array ys =>
      if Nat.eqb (List.length xs) (List.length ys)
      then Ok (Array (map (fun p => f (fst p) (snd p)) (combine xs ys)))
      else Raise broadcast_error
  end.

(** ** The operands a ufunc call visits *)

Definition samples (a : value) : list npfloat :=
  match a with
  | Scalar x => [x]
  | Array xs => xs
  end.

Definition pairs (a b : value) : list (npfloat * npfloat) :=
  match a, b with
  | Scalar x, Scalar y => [(x, y)]
  | Scalar x, Array ys => map (fun y => (x, y)) ys
  | Array xs, Scalar y => map (fun x => (x, y)) xs
  | Array xs, Array ys => combine xs ys
  end.

(* ================================================================== *)
(** * Global configuration *)

Module Config.
Definition WATER_DENSITY : R := 1025.
Definition KINEMATIC_VISCOSITY : R := 1.1892e-6.
Definition GRAVITY : R := 9.81.

(* the class attribute that the program rebinds at run time *)
Record t : Type := { LANGUAGE : string }.
Definition initial : t := {| LANGUAGE := "english"%string |}.
End Config.

(* language or Config.LANGUAGE: None and the empty string are falsy *)
Definition language_or (language : option string) (cfg : Config.t) : string :=
  match language with
  | Some (String c s) => String c s
  | Some EmptyString | None => Config.LANGUAGE cfg
  end.

(* ================================================================== *)
(** * HullParameters *)

Module HullParameters.

(* the dataclass; a field that is None is [None] *)
Record t : Type := {
  L : R;
  B : R;
  T : R;
  CB : R;
  CM : option R;
  LCB : option R;
  S : option R;
  V : option R;
  APP : option R
}.

Section Methods.
Context {fmt : PyFormat}.
Local Open Scope string_scope.

Definition cb_error (self : t) : string :=
  "Coeficiente de bloco (CB=" ++ py_format (Fin (CB self)) ""
    ++ ") deve estar entre 0.3 e 1.0".

Definition cb_hint : string :=
  "Dica: Para barcos rápidos, use CB entre 0.35-0.45".

(* the list [errors] when the four tests are done *)
Definition validation_errors (self : t) : list string :=
  let errors := [] in
  let errors :=
    if Rleb (L self) 0 then (errors ++ ["Comprimento deve ser positivo"])%list
    else errors in
  let errors :=
    if Rleb (B self) 0 then (errors ++ ["Boca deve ser positiva"])%list
    else errors in
  let errors :=
    if Rleb (T self) 0 then (errors ++ ["Calado deve ser positivo"])%list
    else errors in
  let errors :=
    if negb (Rleb 0.3 (CB self) && Rleb (CB self) 1.0)
    then ((errors ++ [cb_error self]) ++ [cb_hint])%list
    else errors in
  errors.

Definition error_msg (errors : list string) : string :=
  "Erros de validação:" ++ nl ++ "- " ++ join (nl ++ "- ") errors.

Definition _validate_parameters (self : t) : result unit :=
  match validation_errors self with
  | [] => Ok tt
  | errors => Raise (ValueError (error_msg errors))
  end.

(* Runs after [_validate_parameters] succeeded, so that T, CB and L are
   not zero and CB is not negative.  The fields are assigned in the
   order of the source: the formula of S reads the V just resolved. *)
Definition _calculate_missing_parameters (self : t) : t :=
  let v :=
    match V self with
    | None => L self * B self * T self * CB self
    | Some v => v
    end in
  let s :=
    match S self with
    | None =>
        L self * (2 * T self + B self) * sqrt (CB self) * (
          0.453 + 0.4425 * CB self - 0.2862 * CB self ^ 2 -
          0.003467 * B self / T self + 0.3696 * CB self * B self / T self
        ) + 2.38 * v / CB self / L self
    | Some s => s
    end in
  let cm := match CM self with None => 0.98 | Some cm => cm end in
  let lcb := match LCB self with None => 0.5 | Some lcb => lcb end in
  let app :=
    match APP self with
    | None => 0.5 * PI * (0.7 * T self) ^ 2
    | Some app => app
    end in
  {| L := L self; B := B self; T := T self; CB := CB self;
     CM := Some cm; LCB := Some lcb; S := Some s; V := Some v;
     APP := Some app |}.

Definition __post_init__ (self : t) : result t :=
  match _validate_parameters self with
  | Raise e => Raise e
  | Ok _ => Ok (_calculate_missing_parameters self)
  end.

(* HullParameters(L, B, T, CB, CM=None, LCB=None, S=None, V=None, APP=None) *)
Definition __init__ (L B T CB : R) (CM LCB S V APP : option R) : result t :=
  __post_init__
    {| L := L; B := B; T := T; CB := CB;
       CM := CM; LCB := LCB; S := S; V := V; APP := APP |}.

Definition indent : string := "            ".

Definition line (text : string) : string := indent ++ text ++ nl.

(* f"{x:spec}" on an attribute; formatting None raises TypeError *)
Definition field (o : option R) (spec : string) : result string :=
  match o with
  | Some x => Ok (py_format (Fin x) spec)
  | None => Raise (TypeError "unsupported format string passed to NoneType.__format__")
  end.

Definition report (self : t) (labels : list string) : result string :=
  match field (CM self) ".3f", field (LCB self) ".1f", field (V self) ",.0f",
        field (S self) ",.0f", field (APP self) ".1f" with
  | Ok cm, Ok lcb, Ok v, Ok s, Ok app =>
      Ok (nl
          ++ line (nth 0 labels "")
          ++ line "--------------------"
          ++ line (nth 1 labels "" ++ py_format (Fin (L self)) ".2f" ++ " m")
          ++ line (nth 2 labels "" ++ py_format (Fin (B self)) ".2f" ++ " m")
          ++ line (nth 3 labels "" ++ py_format (Fin (T self)) ".2f" ++ " m")
          ++ line (nth 4 labels "" ++ py_format (Fin (CB self)) ".3f")
          ++ line (nth 5 labels "" ++ cm)
          ++ line (nth 6 labels "" ++ lcb ++ "% L")
          ++ line (nth 7 labels "" ++ v ++ " m³")
          ++ line (nth 8 labels "" ++ s ++ " m²")
          ++ line (nth 9 labels "" ++ app ++ " m²")
          ++ indent)
  | Raise e, _, _, _, _ | _, Raise e, _, _, _ | _, _, Raise e, _, _
  | _, _, _, Raise e, _ | _, _, _, _, Raise e => Raise e
  end.

Definition labels_pt : list string :=
  [ "PARÂMETROS DO CASCO:"; "Comprimento (LWL): "; "Boca (B): ";
    "Calado (T): "; "Coef. Bloco (CB): "; "Coef. Seção Mestra (CM): ";
    "Centro de Carena (LCB): "; "Volume Deslocamento: ";
    "Área Molhada: "; "Área do Hélice: " ].

Definition labels_en : list string :=
  [ "HULL PARAMETERS:"; "Length (LWL): "; "Beam (B): ";
    "Draft (T): "; "Block Coefficient (CB): "; "Midship Coefficient (CM): ";
    "Longitudinal Center (LCB): "; "Displacement Volume: ";
    "Wetted Surface Area: "; "Propeller Area: " ].

(* summary(self, language=None); reads the global Config.LANGUAGE *)
Definition summary (cfg : Config.t) (self : t) (language : option string)
  : result string :=
  let lang := language_or language cfg in
  if String.eqb lang "portuguese"
  then report self labels_pt
  else report self labels_en.

End Methods.

End HullParameters.

(* ================================================================== *)
(** * HullParameters on any float

    The same dataclass with fields that hold any float a caller can pass:
    nan, the infinities and -0.0 besides the finite values.  The tests of
    [_validate_parameters] are Python's comparisons, which are false on
    nan; [_calculate_missing_parameters] is Python float arithmetic, but
    for the NumPy scalar that np.sqrt returns and what is computed from
    it.  On finite fields the two embeddings agree (theorems below). *)

Module HullParametersIEEE.

Record t : Type := {
  L : npfloat;
  B : npfloat;
  T : npfloat;
  CB : npfloat;
  CM : option npfloat;
  LCB : option npfloat;
  S : option npfloat;
  V : option npfloat;
  APP : option npfloat
}.

(* the finite hull as fields of floats *)
Definition of_finite (h : HullParameters.t) : t :=
  {| L := Fin (HullParameters.L h); B := Fin (HullParameters.B h);
     T := Fin (HullParameters.T h); CB := Fin (HullParameters.CB h);
     CM := option_map Fin (HullParameters.CM h);
     LCB := option_map Fin (HullParameters.LCB h);
     S := option_map Fin (HullParameters.S h);
     V := option_map Fin (HullParameters.V h);
     APP := option_map Fin (HullParameters.APP h) |}.

Section Methods.
Context {fmt : PyFormat}.
Local Open Scope string_scope.

Definition cb_error (self : t) : string :=
  "Coeficiente de bloco (CB=" ++ py_format (CB self) ""
    ++ ") deve estar entre 0.3 e 1.0".

(* the list [errors] when the four tests are done *)
Definition validation_errors (self : t) : list string :=
  let errors := [] in
  let errors :=
    if fle (L self) (Fin 0) then (errors ++ ["Comprimento deve ser positivo"])%list
    else errors in
  let errors :=
    if fle (B self) (Fin 0) then (errors ++ ["Boca deve ser positiva"])%list
    else errors in
  let errors :=
    if fle (T self) (Fin 0) then (errors ++ ["Calado deve ser positivo"])%list
    else errors in
  let errors :=
    if negb (fle (Fin 0.3) (CB self) && fle (CB self) (Fin 1.0))
    then ((errors ++ [cb_error self]) ++ [HullParameters.cb_hint])%list
    else errors in
  errors.

Definition _validate_parameters (self : t) : result unit :=
  match validation_errors self with
  | [] => Ok tt
  | errors => Raise (ValueError (HullParameters.error_msg errors))
  end.

(* self.L * self.B * self.T * self.CB *)
Definition derived_V (self : t) : npfloat :=
  xmul (xmul (xmul (L self) (B self)) (T self)) (CB self).

(* the regression of the wetted surface with the volume [v] just
   resolved; np.sqrt returns a NumPy scalar, so that the products with it
   and the final sum are NumPy's *)
Definition derived_S (self : t) (v : npfloat) : M npfloat :=
  let a := xmul (L self) (xadd (xmul (Fin 2) (T self)) (B self)) in
  root <- scalar1 "sqrt" Np.sqrt (CB self) ;;
  ab <- scalar2 "multiply" Np.multiply a root ;;
  cb2 <- Py.square (CB self) ;;
  q1 <- Py.fdiv (xmul (Fin 0.003467) (B self)) (T self) ;;
  q2 <- Py.fdiv (xmul (xmul (Fin 0.3696) (CB self)) (B self)) (T self) ;;
  let bracket :=
    xadd (xsub (xsub (xadd (Fin 0.453) (xmul (Fin 0.4425) (CB self)))
                     (xmul (Fin 0.2862) cb2))
               q1)
         q2 in
  abc <- scalar2 "multiply" Np.multiply ab bracket ;;
  t1 <- Py.fdiv (xmul (Fin 2.38) v) (CB self) ;;
  t2 <- Py.fdiv t1 (L self) ;;
  scalar2 "add" Np.add abc t2.

(* 0.5 * np.pi * (0.7 * self.T)**2 *)
Definition derived_APP (self : t) : M npfloat :=
  p <- Py.square (xmul (Fin 0.7) (T self)) ;;
  ret (xmul (Fin (0.5 * PI)) p).

Definition _calculate_missing_parameters (self : t) : M t :=
  let v := match V self with None => derived_V self | Some v => v end in
  s <- match S self with None => derived_S self v | Some s => ret s end ;;
  let cm := match CM self with None => Fin 0.98 | Some cm => cm end in
  let lcb := match LCB self with None => Fin 0.5 | Some lcb => lcb end in
  app <- match APP self with None => derived_APP self | Some app => ret app end ;;
  ret {| L := L self; B := B self; T := T self; CB := CB self;
         CM := Some cm; LCB := Some lcb; S := Some s; V := Some v;
         APP := Some app |}.

Definition __post_init__ (self : t) : M t :=
  match _validate_parameters self with
  | Raise e => throw e
  | Ok _ => _calculate_missing_parameters self
  end.

(* HullParameters(L, B, T, CB, CM=None, LCB=None, S=None, V=None, APP=None) *)
Definition __init__ (L B T CB : npfloat) (CM LCB S V APP : option npfloat) : M t :=
  __post_init__
    {| L := L; B := B; T := T; CB := CB;
       CM := CM; LCB := LCB; S := S; V := V; APP := APP |}.

(* the propeller area is derived and its square leaves the floats *)
Definition propeller_overflows (self : t) : bool :=
  match APP self, T self with
  | None, Fin t => negb (Rleb ((0.7 * t) ^ 2) Py.float_max)
  | _, _ => false
  end.

End Methods.

End HullParametersIEEE.

(* a text occurs in another *)
Definition occurs_in (m text : string) : Prop :=
  exists pre post, text = (pre ++ m ++ post)%string.

(* the four tests of [_validate_parameters], as Python evaluates them *)
Definition tests_fire (L B T CB : npfloat) : Prop :=
  xle L (Fin 0) \/ xle B (Fin 0) \/ xle T (Fin 0)
  \/ ~ (xle (Fin 0.3) CB /\ xle CB (Fin 1.0)).

(* the four rules L > 0, B > 0, T > 0 and 0.3 <= CB <= 1.0 *)
Definition rules_hold (L B T CB : npfloat) : Prop :=
  xlt (Fin 0) L /\ xlt (Fin 0) B /\ xlt (Fin 0) T
  /\ xle (Fin 0.3) CB /\ xle CB (Fin 1.0).

(* ================================================================== *)
(** * ResistanceCalculator *)

(** What the program hands to its collaborators (pandas, matplotlib, the
    terminal) is recorded, not rendered. *)
Inductive io : Type :=
| Stdout (text : string)
| ToCsv (filename : string) (frame : list (string * value)) (float_format : string)
| PltSavefig (path : string)
| PltShow.

Record line2d : Type := {
  xdata : value;
  ydata : value;
  style : string;
  label : option string
}.

Record axes : Type := {
  lines : list line2d;
  xlabel : string;
  ylabel : string;
  title : string
}.

Module ResistanceCalculator.

Import Config.

(* the dict stored in self.results: keys in insertion order *)
Definition results_dict : Type := list (string * value).

Record t : Type := {
  hull : HullParameters.t;
  results : option results_dict
}.

Definition __init__ (hull_params : HullParameters.t) : t :=
  {| hull := hull_params; results := None |}.

(* self.results = r *)
Definition store (self : t) (r : results_dict) : t :=
  {| hull := hull self; results := Some r |}.

Fixpoint lookup (key : string) (d : results_dict) : option value :=
  match d with
  | [] => None
  | (k, v) :: rest => if String.eqb k key then Some v else lookup key rest
  end.

(* d[key] *)
Definition getitem (d : results_dict) (key : string) : M value :=
  match lookup key d with
  | Some v => ret v
  | None => throw (KeyError key)
  end.

(* key in d *)
Definition contains (d : results_dict) (key : string) : bool :=
  match lookup key d with Some _ => true | None => false end.

Section Compute.
Variable self : t.
(* what np.asarray(speeds) returns: [Scalar] (a 0-d array) for a float,
   [Array] for a list or an array, whose entries may be -0.0, inf or nan *)
Variable speeds : value.

Let L := HullParameters.L (hull self).
Let B := HullParameters.B (hull self).
Let T := HullParameters.T (hull self).

Definition holtrop_array : M results_dict :=
  (* Froude number *)
  Fn <- (np speeds / np_sqrt (py (GRAVITY * L)))%np ;;
  (* 1. frictional resistance (ITTC-1957) *)
  Rn <- (np speeds * py L / py KINEMATIC_VISCOSITY)%np ;;
  CF <- (py 0.075 / sq (np_log10 (np Rn) - py 2))%np ;;
  RF <- (py (0.5 * WATER_DENSITY) * sq (np speeds)
         * (S <- Py.number (HullParameters.S (hull self)) ;; py S)
         * np CF)%np ;;
  (* 2. residual resistance *)
  q <- Py.truediv B L ;;
  p1 <- Py.pow q 1.07961 ;;
  p2 <- Py.pow (90 - 0.3) (-1.37565) ;;
  let c1 := 2223105 * p1 * p2 in
  c2 <- np_exp (py (-1.89) * np_sqrt (py c1))%np ;;
  p3 <- Py.pow (B * T) 1.5 ;;
  c3 <- (py (0.56 * p3) /
         ((V <- Py.number (HullParameters.V (hull self)) ;; py V)
          * (py 0.31 * np_sqrt (py (B * T)) + py T)))%np ;;
  V <- Py.number (HullParameters.V (hull self)) ;;
  c12 <- Py.truediv (L ^ 3) V ;;
  LCB <- Py.number (HullParameters.LCB (hull self)) ;;
  let c13 := 1 + 0.003 * LCB in
  RR <- (py (V * WATER_DENSITY * GRAVITY) * np c2 * np c3
         * (p <- Py.pow c12 0.004 ;; py p)
         * np_exp (py (-0.9) / np Fn) * py c13)%np ;;
  (* 3. total resistance *)
  RTotal <- (np RF + np RR)%np ;;
  speed_knots <- (np speeds * py 1.944)%np ;;
  RTotal_kN <- (np RTotal / py 1000)%np ;;
  power <- (np RTotal * np speeds / py 1000)%np ;;
  ret [ ("speed_mps", speeds);
        ("speed_knots", speed_knots);
        ("froude", Fn);
        ("reynolds", Rn);
        ("resistance_total_N", RTotal);
        ("resistance_total_kN", RTotal_kN);
        ("resistance_friction_N", RF);
        ("residual_resistance_N", RR);
        ("cf_coefficient", CF);
        ("effective_power_kW", power) ]%string.

Definition simple_array : M results_dict :=
  Fn <- (np speeds / np_sqrt (py (GRAVITY * L)))%np ;;
  RTotal <- (py (0.5 * WATER_DENSITY) * sq (np speeds)
             * (S <- Py.number (HullParameters.S (hull self)) ;; py S)
             * (py 0.001 + py 0.002 * sq (np Fn)))%np ;;
  speed_knots <- (np speeds * py 1.944)%np ;;
  RTotal_kN <- (np RTotal / py 1000)%np ;;
  power <- (np RTotal * np speeds / py 1000)%np ;;
  ret [ ("speed_mps", speeds);
        ("speed_knots", speed_knots);
        ("froude", Fn);
        ("resistance_total_N", RTotal);
        ("resistance_total_kN", RTotal_kN);
        ("effective_power_kW", power) ]%string.

(* The methods assign self.results and return it; when an exception
   is raised the assignment is not reached. *)
Definition calculate_holtrop_array : M (t * results_dict) :=
  r <- holtrop_array ;; ret (store self r, r).

Definition calculate_simple_array : M (t * results_dict) :=
  r <- simple_array ;; ret (store self r, r).

End Compute.

(** The methods called with a list of finite floats none of which is
    -0.0: [asarray] makes the one-dimensional array of its entries. *)
Definition holtrop (self : t) (speeds0 : list R) : M results_dict :=
  holtrop_array self (asarray speeds0).

Definition simple (self : t) (speeds0 : list R) : M results_dict :=
  simple_array self (asarray speeds0).

Definition calculate_holtrop (self : t) (speeds0 : list R)
  : M (t * results_dict) :=
  r <- holtrop self speeds0 ;; ret (store self r, r).

Definition calculate_simple (self : t) (speeds0 : list R)
  : M (t * results_dict) :=
  r <- simple self speeds0 ;; ret (store self r, r).

(* the object a caller holds after a method call *)
Definition after {A} (self : t) (m : M (t * A)) : t :=
  match value_of m with
  | Ok (self', _) => self'
  | Raise _ => self
  end.

Definition no_result {A} : M A := throw (ValueError "Execute o cálculo primeiro").

(* export_results(self, filename=None); [timestamp] is what
   datetime.now().strftime("%Y%m%d_%H%M%S") returns *)
Definition export_results (self : t) (filename : option string)
    (timestamp : string) : M (string * list io) :=
  match results self with
  | None => no_result
  | Some r =>
      let filename :=
        match filename with
        | None => ("resistance_results_" ++ timestamp ++ ".csv")%string
        | Some f => f
        end in
      ret (filename, [ToCsv filename r "%.4f"])
  end.

Section Presentation.
Context {fmt : PyFormat}.
Local Open Scope string_scope.

Record labels : Type := {
  lbl_title : string;
  lbl_xlabel : string;
  lbl_ylabel : string;
  lbl_total : string;
  lbl_friction : string;
  lbl_residual : string;
  lbl_power : string
}.

Definition labels_english : labels :=
  {| lbl_title := "Hull Resistance Analysis";
     lbl_xlabel := "Speed (knots)";
     lbl_ylabel := "Resistance (kN)";
     lbl_total := "Total Resistance";
     lbl_friction := "Frictional Resistance";
     lbl_residual := "Residual Resistance";
     lbl_power := "Effective Power (kW)" |}.

Definition labels_portuguese : labels :=
  {| lbl_title := "Análise de Resistência do Casco";
     lbl_xlabel := "Velocidade (nós)";
     lbl_ylabel := "Resistência (kN)";
     lbl_total := "Resistência Total";
     lbl_friction := "Resistência de Atrito";
     lbl_residual := "Resistência Residual";
     lbl_power := "Potência Efetiva (kW)" |}.

(* labels[lang] *)
Definition labels_getitem (lang : string) : M labels :=
  if String.eqb lang "english" then ret labels_english
  else if String.eqb lang "portuguese" then ret labels_portuguese
  else throw (KeyError lang).

Definition empty_axes : axes :=
  {| lines := []; xlabel := ""; ylabel := ""; title := "" |}.

Definition plot (x y : value) (style : string) (label : option string) : line2d :=
  {| xdata := x; ydata := y; style := style; label := label |}.

(* plot_results(self, save_path=None, language=None) *)
Definition plot_results (cfg : Config.t) (self : t)
    (save_path language : option string) : M (list axes * list io) :=
  match results self with
  | None => no_result
  | Some r =>
      let lang := language_or language cfg in
      lang_config <- labels_getitem lang ;;
      let english := String.eqb lang "english" in
      (* 1: the components of the resistance *)
      knots <- getitem r "speed_knots" ;;
      total_kN <- getitem r "resistance_total_kN" ;;
      let total := plot knots total_kN "b-" (Some (lbl_total lang_config)) in
      parts <-
        (if contains r "resistance_friction_N" then
           knots1 <- getitem r "speed_knots" ;;
           friction <- (getitem r "resistance_friction_N" / py 1000)%np ;;
           knots2 <- getitem r "speed_knots" ;;
           residual <- (getitem r "residual_resistance_N" / py 1000)%np ;;
           ret [ plot knots1 friction "r--" (Some (lbl_friction lang_config));
                 plot knots2 residual "g--" (Some (lbl_residual lang_config)) ]
         else ret []) ;;
      let ax1 :=
        {| lines := total :: parts;
           xlabel := lbl_xlabel lang_config;
           ylabel := lbl_ylabel lang_config;
           title := lbl_title lang_config |} in
      (* 2: total resistance against the Froude number *)
      ax2 <-
        (if contains r "froude" then
           froude <- getitem r "froude" ;;
           total_kN <- getitem r "resistance_total_kN" ;;
           ret {| lines := [plot froude total_kN "purple" None];
                  xlabel := if english then "Froude Number" else "Número de Froude";
                  ylabel := lbl_ylabel lang_config;
                  title := if english then "Resistance vs Froude Number"
                           else "Resistência vs Número de Froude" |}
         else ret empty_axes) ;;
      (* 3: effective power *)
      ax3 <-
        (if contains r "effective_power_kW" then
           knots <- getitem r "speed_knots" ;;
           power <- getitem r "effective_power_kW" ;;
           ret {| lines := [plot knots power "orange" None];
                  xlabel := lbl_xlabel lang_config;
                  ylabel := lbl_power lang_config;
                  title := if english then "Effective Power" else "Potência Efetiva" |}
         else ret empty_axes) ;;
      let saved :=
        match save_path with
        | Some (String c p) =>
            [PltSavefig (String c p); Stdout ("Gráfico salvo como: " ++ String c p)]
        | Some EmptyString | None => []
        end in
      ret ([ax1; ax2; ax3], (saved ++ [PltShow])%list)
  end.

(* len(a) *)
Definition len (a : value) : M nat :=
  match a with
  | Array xs => ret (List.length xs)
  | Scalar _ => throw (TypeError "len() of unsized object")
  end.

(* a[i] *)
Definition index (a : value) (i : nat) : M npfloat :=
  match a with
  | Array xs =>
      match nth_error xs i with
      | Some x => ret x
      | None => throw (IndexError "index out of bounds")
      end
  | Scalar _ => throw (IndexError "too many indices for array")
  end.

Definition table_row (r : results_dict) (i : nat) : M string :=
  knots <- (a <- getitem r "speed_knots" ;; index a i) ;;
  mps <- (a <- getitem r "speed_mps" ;; index a i) ;;
  froude <- (a <- getitem r "froude" ;; index a i) ;;
  total_kN <- (a <- getitem r "resistance_total_kN" ;; index a i) ;;
  power <-
    (n <- (a <- getitem r "speed_mps" ;; len a) ;;
     let default := Array (repeat (Fin 0) n) in
     index (match lookup "effective_power_kW" r with
            | Some a => a
            | None => default
            end) i) ;;
  ret (py_format knots ">10.1f" ++ " "
       ++ py_format mps ">10.2f" ++ " "
       ++ py_format froude ">8.3f" ++ " "
       ++ py_format total_kN ">12.1f" ++ " "
       ++ py_format power ">15.1f").

Fixpoint table_rows (r : results_dict) (rows : list nat) : M (list io) :=
  match rows with
  | [] => ret []
  | i :: rest =>
      row <- table_row r i ;;
      more <- table_rows r rest ;;
      ret (Stdout row :: more)
  end.

Definition dashes : string :=
  "--------------------------------------------------------------------------------".

(* print_summary(self, language=None); the lines already printed when a
   row raises are not kept *)
Definition print_summary (cfg : Config.t) (self : t)
    (language : option string) : M (list io) :=
  match results self with
  | None => no_result
  | Some r =>
      let lang := language_or language cfg in
      let header :=
        if String.eqb lang "portuguese" then
          [ Stdout (nl ++ "============================ RESULTADOS DA ANÁLISE =============================");
            Stdout "Veloc (nós) Veloc (m/s)   Froude  Resist (kN)   Potência (kW)";
            Stdout dashes ]
        else
          [ Stdout (nl ++ "=============================== ANALYSIS RESULTS ===============================");
            Stdout "Speed (kts) Speed (m/s)   Froude Resistance (kN)      Power (kW)";
            Stdout dashes ] in
      n <- (a <- getitem r "speed_mps" ;; len a) ;;
      rows <- table_rows r (seq 0 (Nat.min 10 n)) ;;
      ret (header ++ rows)%list
  end.

End Presentation.

End ResistanceCalculator.

(* ================================================================== *)
(** * Interface functions *)

(** The terminal: what the program writes, in order.  The lines that
    input() will return are given as a list; when none is left input()
    raises EOFError. *)
Inductive console : Type :=
| Prompted (text : string)
| Printed (text : string).

(* str.strip() and float(str) are library services; [py_float] is None
   where float() raises ValueError, and "inf" or "nan" give IEEE values *)
Class PyStr : Type := {
  py_strip : string -> string;
  py_float : string -> option npfloat
}.

Definition Rltb (x y : R) : bool := if Rlt_dec x y then true else false.

Section Interface.
Context {fmt : PyFormat} {str : PyStr}.
Local Open Scope string_scope.

(* f"{prompt} [{default}]: " *)
Definition float_prompt (prompt : string) (default : npfloat) : string :=
  prompt ++ " [" ++ py_format default "" ++ "]: ".

Definition invalid_number : string := "Por favor, digite um número válido.".

(* a line that makes float() raise ValueError: it is not blank after
   strip() and does not parse *)
Definition refused (line : string) : Prop :=
  py_strip line <> "" /\ py_float (py_strip line) = None.

(* get_float_input(prompt, default), reading from [stdin].  Each turn of
   the loop reads one line; only ValueError is caught, so that the
   EOFError of an exhausted input leaves the function: the result is then
   None.  Returns the value, what was written and the lines not read. *)
Fixpoint get_float_input (prompt : string) (default : npfloat)
    (stdin : list string) : option npfloat * list console * list string :=
  match stdin with
  | [] => (None, [Prompted (float_prompt prompt default)], [])
  | line :: rest =>
      let value := py_strip line in
      match value with
      | EmptyString =>
          (Some default, [Prompted (float_prompt prompt default)], rest)
      | String _ _ =>
          match py_float value with
          | Some x => (Some x, [Prompted (float_prompt prompt default)], rest)
          | None =>
              let '(r, out, rest') := get_float_input prompt default rest in
              (r, (Prompted (float_prompt prompt default)
                   :: Printed invalid_number :: out)%list, rest')
          end
      end
  end.

(* get_speed_range_recommendation(hull_params, language): the pair
   returned and the four lines printed *)
Definition get_speed_range_recommendation (hull_params : HullParameters.t)
    (language : string) : M (R * npfloat * list console) :=
  let fn_max := if Rltb (HullParameters.CB hull_params) 0.5 then 0.45 else 0.35 in
  root <- scalar1 "sqrt" Np.sqrt
            (Fin (Config.GRAVITY * HullParameters.L hull_params)) ;;
  v_max_mps <- scalar2 "multiply" Np.multiply (Fin fn_max) root ;;
  v_max_kts <- scalar2 "multiply" Np.multiply v_max_mps (Fin 1.944) ;;
  let v_min_kts := 2.0 in
  let cb := py_format (Fin (HullParameters.CB hull_params)) ".3f" in
  let out :=
    if String.eqb language "portuguese" then
      [ Printed (nl ++ "💡 Recomendação para este casco (CB=" ++ cb ++ "):");
        Printed ("   Velocidade máxima recomendada: "
                 ++ py_format v_max_kts ".1f" ++ " nós");
        Printed ("   Velocidade mínima sugerida: "
                 ++ py_format (Fin v_min_kts) ".1f" ++ " nós");
        Printed ("   Número de Froude máximo: " ++ py_format (Fin fn_max) ".2f") ]
    else
      [ Printed (nl ++ "💡 Recommendation for this hull (CB=" ++ cb ++ "):");
        Printed ("   Recommended maximum speed: "
                 ++ py_format v_max_kts ".1f" ++ " knots");
        Printed ("   Suggested minimum speed: "
                 ++ py_format (Fin v_min_kts) ".1f" ++ " knots");
        Printed ("   Maximum Froude number: " ++ py_format (Fin fn_max) ".2f") ] in
  ret (v_min_kts, v_max_kts, out).

End Interface.

(* ================================================================== *)
(** * The formulas of the specification, per speed sample

    These definitions follow the specification's words, one speed [v] at a
    time; the theorems below compare them with what the vectorised methods
    store.  Quantities that no speed can make singular are real numbers; the
    friction coefficient and what depends on it, and the residual resistance
    (whose exponent is [-0.9/Fn]), are IEEE values. *)

(* the regression of the wetted surface, with the volume it is given *)
Definition wetted_surface (L B T CB V : R) : R :=
  L * (2 * T + B) * sqrt CB * (
    0.453 + 0.4425 * CB - 0.2862 * CB ^ 2 -
    0.003467 * B / T + 0.3696 * CB * B / T
  ) + 2.38 * V / CB / L.

Module HoltropSpec.
Section Formulas.
Variables L B T S V LCB : R.

Definition Fn (v : R) : R := v / sqrt (9.81 * L).
Definition Rn (v : R) : R := v * L / 1.1892e-6.
Definition speed_knots (v : R) : R := v * 1.944.

Definition CF (v : R) : npfloat :=
  xdiv (Fin 0.075) (xsquare (xsub (xlog10 (Fin (Rn v))) (Fin 2))).
Definition RF (v : R) : npfloat :=
  xmul (Fin (0.5 * 1025 * v ^ 2 * S)) (CF v).

Definition c1 : R := 2223105 * Rpower (B / L) 1.07961 * Rpower 89.7 (-1.37565).
Definition c2 : R := exp (-1.89 * sqrt c1).
Definition c3 : R := 0.56 * Rpower (B * T) 1.5 / (V * (0.31 * sqrt (B * T) + T)).
Definition c12 : R := L ^ 3 / V.
Definition c13 : R := 1 + 0.003 * LCB.

Definition RR (v : R) : npfloat :=
  xmul (xmul (Fin (V * 1025 * 9.81 * c2 * c3 * Rpower c12 0.004))
             (xexp (xdiv (Fin (-0.9)) (Fin (Fn v)))))
       (Fin c13).

Definition RT (v : R) : npfloat := xadd (RF v) (RR v).
Definition RT_kN (v : R) : npfloat := xdiv (RT v) (Fin 1000).
Definition P (v : R) : npfloat := xdiv (xmul (RT v) (Fin v)) (Fin 1000).

(** The same formulas as real numbers, for a speed at which none is
    singular ([0 < v] and [Rn v <> 100]). *)
Definition CF_real (v : R) : R := 0.075 / (log10 (Rn v) - 2) ^ 2.
Definition RF_real (v : R) : R := 0.5 * 1025 * v ^ 2 * S * CF_real v.
Definition RR_real (v : R) : R :=
  V * 1025 * 9.81 * c2 * c3 * Rpower c12 0.004 * exp (-0.9 / Fn v) * c13.
Definition RT_real (v : R) : R := RF_real v + RR_real v.

End Formulas.
End HoltropSpec.

Module SimpleSpec.
Section Formulas.
Variables L S : R.

Definition Fn (v : R) : R := v / sqrt (9.81 * L).
Definition RT (v : R) : R := 0.5 * 1025 * v ^ 2 * S * (0.001 + 0.002 * Fn v ^ 2).
Definition P (v : R) : R := RT v * v / 1000.
Definition speed_knots (v : R) : R := v * 1.944.

End Formulas.
End SimpleSpec.

(** The formulas again, for any float64 sample [x] (-0.0, the infinities
    and nan included), operation by operation as the methods evaluate
    them on an array. *)
Module SampleSpec.
Section Formulas.
Variables L B T S V LCB : R.

Definition Fn (x : npfloat) : npfloat := xdiv x (Fin (sqrt (9.81 * L))).
Definition Rn (x : npfloat) : npfloat := xdiv (xmul x (Fin L)) (Fin 1.1892e-6).
Definition speed_knots (x : npfloat) : npfloat := xmul x (Fin 1.944).

Definition CF (x : npfloat) : npfloat :=
  xdiv (Fin 0.075) (xsquare (xsub (xlog10 (Rn x)) (Fin 2))).
Definition RF (x : npfloat) : npfloat :=
  xmul (xmul (xmul (Fin (0.5 * 1025)) (xsquare x)) (Fin S)) (CF x).
Definition RR (x : npfloat) : npfloat :=
  xmul (xmul (Fin (V * 1025 * 9.81 * HoltropSpec.c2 L B * HoltropSpec.c3 B T V
                   * Rpower (HoltropSpec.c12 L V) 0.004))
             (xexp (xdiv (Fin (-0.9)) (Fn x))))
       (Fin (HoltropSpec.c13 LCB)).
Definition RT (x : npfloat) : npfloat := xadd (RF x) (RR x).
Definition RT_kN (x : npfloat) : npfloat := xdiv (RT x) (Fin 1000).
Definition P (x : npfloat) : npfloat := xdiv (xmul (RT x) x) (Fin 1000).

(* the simplified method *)
Definition simple_RT (x : npfloat) : npfloat :=
  xmul (xmul (xmul (Fin (0.5 * 1025)) (xsquare x)) (Fin S))
       (xadd (Fin 0.001) (xmul (Fin 0.002) (xsquare (Fn x)))).
Definition simple_RT_kN (x : npfloat) : npfloat := xdiv (simple_RT x) (Fin 1000).
Definition simple_P (x : npfloat) : npfloat :=
  xdiv (xmul (simple_RT x) x) (Fin 1000).

End Formulas.
End SampleSpec.

(** The result sets for any [np.asarray(speeds)]: every formula is
    applied to each sample, of a 0-d array as of a one-dimensional one. *)
Definition holtrop_results (L B T S V LCB : R) (speeds : value)
  : ResistanceCalculator.results_dict :=
  [ ("speed_mps", speeds);
    ("speed_knots", vmap1 SampleSpec.speed_knots speeds);
    ("froude", vmap1 (SampleSpec.Fn L) speeds);
    ("reynolds", vmap1 (SampleSpec.Rn L) speeds);
    ("resistance_total_N", vmap1 (SampleSpec.RT L B T S V LCB) speeds);
    ("resistance_total_kN", vmap1 (SampleSpec.RT_kN L B T S V LCB) speeds);
    ("resistance_friction_N", vmap1 (SampleSpec.RF L S) speeds);
    ("residual_resistance_N", vmap1 (SampleSpec.RR L B T V LCB) speeds);
    ("cf_coefficient", vmap1 (SampleSpec.CF L) speeds);
    ("effective_power_kW", vmap1 (SampleSpec.P L B T S V LCB) speeds) ]%string.

Definition simple_results (L S : R) (speeds : value)
  : ResistanceCalculator.results_dict :=
  [ ("speed_mps", speeds);
    ("speed_knots", vmap1 SampleSpec.speed_knots speeds);
    ("froude", vmap1 (SampleSpec.Fn L) speeds);
    ("resistance_total_N", vmap1 (SampleSpec.simple_RT L S) speeds);
    ("resistance_total_kN", vmap1 (SampleSpec.simple_RT_kN L S) speeds);
    ("effective_power_kW", vmap1 (SampleSpec.simple_P L S) speeds) ]%string.

(** The columns of a result set, from per-sample formulas. *)
Definition column {A : Type} (f : A -> npfloat) (speeds : list A) : value :=
  Array (map f speeds).

Definition holtrop_columns (L B T S V LCB : R) (speeds : list R)
  : ResistanceCalculator.results_dict :=
  [ ("speed_mps", column Fin speeds);
    ("speed_knots", column (fun v => Fin (HoltropSpec.speed_knots v)) speeds);
    ("froude", column (fun v => Fin (HoltropSpec.Fn L v)) speeds);
    ("reynolds", column (fun v => Fin (HoltropSpec.Rn L v)) speeds);
    ("resistance_total_N", column (HoltropSpec.RT L B T S V LCB) speeds);
    ("resistance_total_kN", column (HoltropSpec.RT_kN L B T S V LCB) speeds);
    ("resistance_friction_N", column (HoltropSpec.RF L S) speeds);
    ("residual_resistance_N", column (HoltropSpec.RR L B T V LCB) speeds);
    ("cf_coefficient", column (HoltropSpec.CF L) speeds);
    ("effective_power_kW", column (HoltropSpec.P L B T S V LCB) speeds) ]%string.

Definition simple_columns (L S : R) (speeds : list R)
  : ResistanceCalculator.results_dict :=
  [ ("speed_mps", column Fin speeds);
    ("speed_knots", column (fun v => Fin (SimpleSpec.speed_knots v)) speeds);
    ("froude", column (fun v => Fin (SimpleSpec.Fn L v)) speeds);
    ("resistance_total_N", column (fun v => Fin (SimpleSpec.RT L S v)) speeds);
    ("resistance_total_kN", column (fun v => Fin (SimpleSpec.RT L S v / 1000)) speeds);
    ("effective_power_kW", column (fun v => Fin (SimpleSpec.P L S v)) speeds) ]%string.

(* d[key][i], when d[key] is an array with an i-th sample *)
Definition entry (d : ResistanceCalculator.results_dict) (key : string) (i : nat)
  : option npfloat :=
  match ResistanceCalculator.lookup key d with
  | Some (Array xs) => nth_error xs i
  | _ => None
  end.

(* list(d.keys()) *)
Definition keys (d : ResistanceCalculator.results_dict) : list string :=
  map fst d.

(* the row that print_summary prints for one sample *)
Definition table_line {fmt : PyFormat}
    (knots mps froude total_kN power : npfloat) : string :=
  (py_format knots ">10.1f" ++ " "
   ++ py_format mps ">10.2f" ++ " "
   ++ py_format froude ">8.3f" ++ " "
   ++ py_format total_kN ">12.1f" ++ " "
   ++ py_format power ">15.1f")%string.

(** ** Data of the examples *)

(* A formatter for closed examples; the theorems hold for every formatter. *)
Definition spec_only_format : PyFormat :=
  {| py_format := fun _ spec => spec |}.

(* A reader for closed examples: nothing is stripped and "7.5" is the
   only text that float() accepts; the theorems hold for every reader. *)
Definition example_reader : PyStr :=
  {| py_strip := fun s => s;
     py_float := fun s => if String.eqb s "7.5" then Some (Fin 7.5) else None |}.

(* HullParameters(L, B, T, CB) before __post_init__ *)
Definition bare_hull (L B T CB : R) : HullParameters.t :=
  {| HullParameters.L := L; HullParameters.B := B; HullParameters.T := T;
     HullParameters.CB := CB; HullParameters.CM := None;
     HullParameters.LCB := None; HullParameters.S := None;
     HullParameters.V := None; HullParameters.APP := None |}.

(* the hull of the specification's scenarios, completed *)
Definition scenario_hull : HullParameters.t :=
  HullParameters._calculate_missing_parameters (bare_hull 150 20 8 0.70).

(* a hull whose Reynolds number is exactly 100 at the speed 1.1892e-6 m/s *)
Definition short_hull : HullParameters.t :=
  HullParameters._calculate_missing_parameters (bare_hull 100 20 8 0.70).

(** ** The same expressions in binary64

    The theorems idealise floats as reals.  For the inputs of the examples
    the expressions that use only [*], [/] and [-] are also evaluated in
    IEEE binary64, with the rounding the program has. *)

Set Warnings "-inexact-float".

Module Binary64.
Import PrimFloat.

(* speeds * self.hull.L / Config.KINEMATIC_VISCOSITY *)
Definition reynolds (v L : float) : float := (v * L / 1.1892e-6)%float.

(* self.L * self.B * self.T * self.CB *)
Definition volume (L B T CB : float) : float := (L * B * T * CB)%float.

(* the base (90 - 0.3) of c1 *)
Definition c1_base : float := (90 - 0.3)%float.

End Binary64.

(* ================================================================== *)
(** * Basic facts *)

Lemma Rleb_true (x y : R) : x <= y -> Rleb x y = true.
Proof. intros H. unfold Rleb. destruct (Rle_dec x y); [reflexivity | contradiction]. Qed.

Lemma Rleb_false (x y : R) : y < x -> Rleb x y = false.
Proof. intros H. unfold Rleb. destruct (Rle_dec x y); [lra | reflexivity]. Qed.

Lemma Rleb_spec (x y : R) : Rleb x y = true <-> x <= y.
Proof.
  unfold Rleb. destruct (Rle_dec x y); split; intros; try assumption;
    try reflexivity; try discriminate; contradiction.
Qed.

Lemma Rsign_pos (r : R) : 0 < r -> Rsign r = Gt.
Proof.
  intros H. unfold Rsign. destruct (total_order_T r 0) as [[Hlt | Heq] | Hgt];
    [lra | lra | reflexivity].
Qed.

Lemma Rsign_neg (r : R) : r < 0 -> Rsign r = Lt.
Proof.
  intros H. unfold Rsign. destruct (total_order_T r 0) as [[Hlt | Heq] | Hgt];
    [reflexivity | lra | lra].
Qed.

Lemma Rsign_zero : Rsign 0 = Eq.
Proof.
  unfold Rsign. destruct (total_order_T 0 0) as [[Hlt | Heq] | Hgt];
    [lra | reflexivity | lra].
Qed.

Lemma Rsign_nonzero (r : R) : r <> 0 -> Rsign r <> Eq.
Proof.
  intros H. unfold Rsign. destruct (total_order_T r 0) as [[Hlt | Heq] | Hgt];
    [discriminate | contradiction | discriminate].
Qed.

(* ================================================================== *)
(** * HullParameters: validation *)

Section Validation.
Context {fmt : PyFormat}.
Import HullParameters.
Local Open Scope string_scope.
Local Open Scope list_scope.

Lemma validation_errors_cases (self : t) :
  validation_errors self =
    ((if Rleb (L self) 0 then ["Comprimento deve ser positivo"%string] else [])
     ++ (if Rleb (B self) 0 then ["Boca deve ser positiva"%string] else [])
     ++ (if Rleb (T self) 0 then ["Calado deve ser positivo"%string] else [])
     ++ (if negb (Rleb 0.3 (CB self) && Rleb (CB self) 1.0)
         then [cb_error self; cb_hint] else []))%list.
Proof.
  unfold validation_errors.
  destruct (Rleb (L self) 0), (Rleb (B self) 0), (Rleb (T self) 0),
    (negb (Rleb 0.3 (CB self) && Rleb (CB self) 1.0)); reflexivity.
Qed.

Lemma cb_test (cb : R) :
  negb (Rleb 0.3 cb && Rleb cb 1.0) = true <-> ~ (0.3 <= cb <= 1.0).
Proof.
  unfold Rleb.
  destruct (Rle_dec 0.3 cb), (Rle_dec cb 1.0); simpl; split; intros;
    try discriminate; try reflexivity; try lra.
Qed.

Lemma cb_error_head (self : t) :
  exists rest, cb_error self = String "C" (String "o" (String "e" rest)).
Proof. unfold cb_error. simpl. eexists. reflexivity. Qed.

Lemma validation_errors_nil (self : t) :
  validation_errors self = [] <->
  0 < L self /\ 0 < B self /\ 0 < T self /\ 0.3 <= CB self <= 1.0.
Proof.
  rewrite validation_errors_cases.
  pose proof (Rleb_spec (L self) 0) as HL.
  pose proof (Rleb_spec (B self) 0) as HB.
  pose proof (Rleb_spec (T self) 0) as HT.
  pose proof (cb_test (CB self)) as HC.
  destruct (Rleb (L self) 0), (Rleb (B self) 0), (Rleb (T self) 0),
    (negb (Rleb 0.3 (CB self) && Rleb (CB self) 1.0)); simpl;
    (split; [intros E; try discriminate E | intros (H1 & H2 & H3 & H4)]);
    try reflexivity;
    try (exfalso; (apply (proj1 HC); [reflexivity | exact H4]));
    try (exfalso; assert (L self <= 0) by (apply HL; reflexivity); lra);
    try (exfalso; assert (B self <= 0) by (apply HB; reflexivity); lra);
    try (exfalso; assert (T self <= 0) by (apply HT; reflexivity); lra).
  repeat split.
  - destruct (Rlt_dec 0 (L self)) as [H | H]; [exact H | ].
    assert (false = true) as F by (apply HL; lra). discriminate F.
  - destruct (Rlt_dec 0 (B self)) as [H | H]; [exact H | ].
    assert (false = true) as F by (apply HB; lra). discriminate F.
  - destruct (Rlt_dec 0 (T self)) as [H | H]; [exact H | ].
    assert (false = true) as F by (apply HT; lra). discriminate F.
  - destruct (Rle_dec 0.3 (CB self)) as [H | H]; [exact H | ].
    assert (false = true) as F by (apply HC; lra). discriminate F.
  - destruct (Rle_dec (CB self) 1.0) as [H | H]; [exact H | ].
    assert (false = true) as F by (apply HC; lra). discriminate F.
Qed.

Lemma init_accepts (L B T CB : R) (CM LCB S V APP : option R) :
  0 < L -> 0 < B -> 0 < T -> 0.3 <= CB <= 1.0 ->
  __init__ L B T CB CM LCB S V APP =
    Ok (_calculate_missing_parameters (Build_t L B T CB CM LCB S V APP)).
Proof.
  intros HL HB HT HC. unfold __init__, __post_init__, _validate_parameters.
  assert (validation_errors (Build_t L B T CB CM LCB S V APP) = []) as E
    by (apply validation_errors_nil; simpl; auto).
  rewrite E. reflexivity.
Qed.

Lemma init_rejects (L B T CB : R) (CM LCB S V APP : option R) :
  ~ (0 < L /\ 0 < B /\ 0 < T /\ 0.3 <= CB <= 1.0) ->
  __init__ L B T CB CM LCB S V APP =
    Raise (ValueError (error_msg (validation_errors (Build_t L B T CB CM LCB S V APP)))).
Proof.
  intros H. unfold __init__, __post_init__, _validate_parameters.
  destruct (validation_errors (Build_t L B T CB CM LCB S V APP)) eqn:E.
  - exfalso. apply H. apply (proj1 (validation_errors_nil _) E).
  - reflexivity.
Qed.

Lemma In_errors (self : t) (m : string) :
  In m (validation_errors self) <->
    (m = "Comprimento deve ser positivo" /\ ~ 0 < L self)
    \/ (m = "Boca deve ser positiva" /\ ~ 0 < B self)
    \/ (m = "Calado deve ser positivo" /\ ~ 0 < T self)
    \/ ((m = cb_error self \/ m = cb_hint) /\ ~ (0.3 <= CB self <= 1.0)).
Proof.
  rewrite validation_errors_cases.
  pose proof (Rleb_spec (L self) 0) as HL.
  pose proof (Rleb_spec (B self) 0) as HB.
  pose proof (Rleb_spec (T self) 0) as HT.
  pose proof (cb_test (CB self)) as HC.
  rewrite !in_app_iff.
  assert (forall (b : bool) (P : Prop) (x : string),
             (b = true <-> P) ->
             (In m (if b then [x] else []) <-> m = x /\ P)) as one.
  { intros b P x Hb. destruct b; simpl.
    - split; [intros [E | []]; split; [auto | apply Hb; reflexivity] | intros [E _]; auto].
    - split; [intros [] | intros [_ HP]; apply Hb in HP; discriminate HP]. }
  rewrite (one _ (~ 0 < L self) _), (one _ (~ 0 < B self) _), (one _ (~ 0 < T self) _).
  - assert (In m (if negb (Rleb 0.3 (CB self) && Rleb (CB self) 1.0)
                  then [cb_error self; cb_hint] else [])
            <-> (m = cb_error self \/ m = cb_hint) /\ ~ (0.3 <= CB self <= 1.0)) as two.
    { destruct (negb (Rleb 0.3 (CB self) && Rleb (CB self) 1.0)); simpl.
      - split.
        + intros [E | [E | []]]; (split; [auto | apply HC; reflexivity]).
        + intros [[E | E] _]; auto.
      - split; [intros [] | intros [_ HP]; apply HC in HP; discriminate HP]. }
    rewrite two. tauto.
  - rewrite HT. split; lra.
  - rewrite HB. split; lra.
  - rewrite HL. split; lra.
Qed.

End Validation.

(* ================================================================== *)
(** * HullParameters: completion *)

Section Completion.
Context {fmt : PyFormat}.

Lemma wetted_surface_pos (L B T CB : R) :
  0 < L -> 0 < B -> 0 < T -> 0.3 <= CB <= 1.0 ->
  0 < wetted_surface L B T CB (L * B * T * CB).
Proof.
  intros HL HB HT HC. unfold wetted_surface.
  assert (0 < sqrt CB) as Hs by (apply sqrt_lt_R0; lra).
  assert (0 < B / T) as Hq by (apply Rdiv_lt_0_compat; assumption).
  replace (0.003467 * B / T) with (0.003467 * (B / T)) by (field; lra).
  replace (0.3696 * CB * B / T) with (0.3696 * CB * (B / T)) by (field; lra).
  replace (2.38 * (L * B * T * CB) / CB / L) with (2.38 * (B * T)) by (field; lra).
  set (q := B / T) in *.
  assert (0 < 0.453 + 0.4425 * CB - 0.2862 * CB ^ 2 - 0.003467 * q + 0.3696 * CB * q)
    as Hbr by nra.
  assert (0 < L * (2 * T + B)) as H1 by nra.
  assert (0 < L * (2 * T + B) * sqrt CB) as H2 by (apply Rmult_lt_0_compat; assumption).
  assert (0 < B * T) as H3 by nra.
  assert (0 < L * (2 * T + B) * sqrt CB *
              (0.453 + 0.4425 * CB - 0.2862 * CB ^ 2 - 0.003467 * q + 0.3696 * CB * q))
    as H4 by (apply Rmult_lt_0_compat; assumption).
  lra.
Qed.


End Completion.

(* ================================================================== *)
(** * Reading the value of a computation *)

Lemma value_of_ret {A} (a : A) : value_of (ret a) = Ok a.
Proof. reflexivity. Qed.

Lemma value_of_throw {A} (e : exn) : value_of (@throw A e) = Raise e.
Proof. reflexivity. Qed.

Lemma value_of_py (r : R) : value_of (py r) = Ok (Scalar (Fin r)).
Proof. reflexivity. Qed.

Lemma value_of_np (v : value) : value_of (np v) = Ok v.
Proof. reflexivity. Qed.

Lemma value_of_bind {A B} (m : M A) (k : A -> M B) :
  value_of (bind m k) = rbind (value_of m) (fun a => value_of (k a)).
Proof.
  unfold value_of, bind. destruct m as [[a | e] ws]; simpl.
  - destruct (k a) as [r ws']. reflexivity.
  - reflexivity.
Qed.

Lemma value_of_ufunc1 name (f : npfloat -> npfloat * fpflags) (a : value) :
  value_of (ufunc1 name f a) = Ok (vmap1 (fun x => fst (f x)) a).
Proof.
  destruct a as [x | xs]; simpl.
  - reflexivity.
  - unfold value_of. simpl. rewrite map_map. reflexivity.
Qed.

Lemma value_of_ufunc2 name (f : npfloat -> npfloat -> npfloat * fpflags) (a b : value) :
  value_of (ufunc2 name f a b) = vmap2 (fun x y => fst (f x y)) a b.
Proof.
  destruct a as [x | xs], b as [y | ys]; unfold value_of; simpl;
    try (rewrite map_map; reflexivity); try reflexivity.
  destruct (Nat.eqb (List.length xs) (List.length ys)); simpl;
    [rewrite map_map; reflexivity | reflexivity].
Qed.

Lemma value_of_lift1 name (f : npfloat -> npfloat * fpflags) (ma : M value) :
  value_of (lift1 name f ma) =
    rbind (value_of ma) (fun a => Ok (vmap1 (fun x => fst (f x)) a)).
Proof.
  unfold lift1. rewrite value_of_bind.
  destruct (value_of ma); simpl; [apply value_of_ufunc1 | reflexivity].
Qed.

Lemma value_of_lift2 name (f : npfloat -> npfloat -> npfloat * fpflags) (ma mb : M value) :
  value_of (lift2 name f ma mb) =
    rbind (value_of ma) (fun a =>
      rbind (value_of mb) (fun b => vmap2 (fun x y => fst (f x y)) a b)).
Proof.
  unfold lift2. rewrite value_of_bind.
  destruct (value_of ma) as [a | e]; simpl; [ | reflexivity].
  rewrite value_of_bind.
  destruct (value_of mb) as [b | e]; simpl; [apply value_of_ufunc2 | reflexivity].
Qed.

(** Arrays that are columns over one list of speeds stay columns. *)
Lemma vmap1_column {A} (f : npfloat -> npfloat) (g : A -> npfloat) (l : list A) :
  vmap1 f (column g l) = column (fun v => f (g v)) l.
Proof. unfold column. simpl. rewrite map_map. reflexivity. Qed.

Lemma vmap2_column_scalar {A} f (g : A -> npfloat) (y : npfloat) (l : list A) :
  vmap2 f (column g l) (Scalar y) = Ok (column (fun v => f (g v) y) l).
Proof. unfold column. simpl. rewrite map_map. reflexivity. Qed.

Lemma vmap2_scalar_column {A} f (x : npfloat) (g : A -> npfloat) (l : list A) :
  vmap2 f (Scalar x) (column g l) = Ok (column (fun v => f x (g v)) l).
Proof. unfold column. simpl. rewrite map_map. reflexivity. Qed.

Lemma vmap2_scalar_scalar f (x y : npfloat) :
  vmap2 f (Scalar x) (Scalar y) = Ok (Scalar (f x y)).
Proof. reflexivity. Qed.

Lemma combine_map_map {A B C} (g : A -> B) (h : A -> C) (l : list A) :
  combine (map g l) (map h l) = map (fun v => (g v, h v)) l.
Proof. induction l as [ | a l IH]; simpl; [reflexivity | rewrite IH; reflexivity]. Qed.

Lemma vmap2_column_column {A} f (g h : A -> npfloat) (l : list A) :
  vmap2 f (column g l) (column h l) = Ok (column (fun v => f (g v) (h v)) l).
Proof.
  unfold column. simpl. rewrite !length_map, Nat.eqb_refl.
  rewrite combine_map_map, map_map. reflexivity.
Qed.

Lemma column_ext {A} (f g : A -> npfloat) (l : list A) :
  (forall v, In v l -> f v = g v) -> column f l = column g l.
Proof. intros H. unfold column. f_equal. apply map_ext_in. exact H. Qed.

Lemma asarray_column (l : list R) : asarray l = column Fin l.
Proof. reflexivity. Qed.

(** Finite operands. *)
Lemma divide_fin (a b : R) : b <> 0 -> fst (Np.divide (Fin a) (Fin b)) = Fin (a / b).
Proof.
  intros H. simpl. pose proof (Rsign_nonzero b H) as N.
  destruct (Rsign b); [contradiction | reflexivity | reflexivity].
Qed.

Lemma sqrt_fin (a : R) : 0 <= a -> fst (Np.sqrt (Fin a)) = Fin (sqrt a).
Proof.
  intros H. simpl. unfold Rsign.
  destruct (total_order_T a 0) as [[Hlt | Heq] | Hgt]; [lra | reflexivity | reflexivity].
Qed.

Lemma divide_neg_zero (a : R) :
  a < 0 -> Np.divide (Fin a) (Fin 0) = (NInf, divide_by_zero).
Proof. intros H. unfold Np.divide. rewrite Rsign_zero, Rsign_neg by exact H. reflexivity. Qed.

Lemma divide_pos_zero (a : R) :
  0 < a -> Np.divide (Fin a) (Fin 0) = (PInf, divide_by_zero).
Proof. intros H. unfold Np.divide. rewrite Rsign_zero, Rsign_pos by exact H. reflexivity. Qed.

Lemma log10_100 : log10 100 = 2.
Proof.
  unfold log10. replace 100 with (10 * 10) by lra.
  rewrite ln_mult by lra.
  assert (0 < ln 10) by (rewrite <- ln_1; apply ln_increasing; lra).
  field. lra.
Qed.

Lemma log10_negative (a : R) :
  a < 0 -> Np.log10 (Fin a) = (NaN, invalid_value).
Proof. intros H. unfold Np.log10. rewrite Rsign_neg by exact H. reflexivity. Qed.

Lemma log10_zero : Np.log10 (Fin 0) = (NInf, divide_by_zero).
Proof. unfold Np.log10. rewrite Rsign_zero. reflexivity. Qed.

Lemma log10_fin (a : R) : 0 < a -> fst (Np.log10 (Fin a)) = Fin (log10 a).
Proof. intros H. simpl. rewrite Rsign_pos by exact H. reflexivity. Qed.

Ltac np_value :=
  unfold sq, np_sqrt, np_log10, np_exp;
  repeat first
    [ rewrite value_of_bind
    | rewrite value_of_lift2
    | rewrite value_of_lift1
    | rewrite value_of_py
    | rewrite value_of_np
    | rewrite value_of_ret
    | rewrite asarray_column
    | rewrite vmap1_column
    | rewrite vmap2_column_column
    | rewrite vmap2_column_scalar
    | rewrite vmap2_scalar_column
    | rewrite vmap2_scalar_scalar
    | progress cbn [rbind vmap1 Py.number] ].

(* ================================================================== *)
(** * Reading the warnings of a computation *)

Lemma warnings_of_bind {A B} (m : M A) (k : A -> M B) :
  warnings_of (bind m k) =
    (warnings_of m ++
     match value_of m with
     | Ok a => warnings_of (k a)
     | Raise _ => []
     end)%list.
Proof.
  unfold warnings_of, value_of, bind. destruct m as [[a | e] ws]; simpl.
  - destruct (k a) as [r ws']. reflexivity.
  - rewrite app_nil_r. reflexivity.
Qed.

Lemma In_report (kind : fpe) (name : string) (fl : fpflags) :
  In (RuntimeWarning kind name) (report name fl) <-> flag_of kind fl = true.
Proof.
  unfold report. destruct fl as [d i], kind; simpl;
    destruct d, i; simpl; intuition (try discriminate; try congruence).
Qed.

Lemma flag_of_or (kind : fpe) (a b : fpflags) :
  flag_of kind (flags_or a b) = flag_of kind a || flag_of kind b.
Proof. destruct kind; reflexivity. Qed.

Lemma flag_of_collect (kind : fpe) (l : list (npfloat * fpflags)) p :
  In p l -> flag_of kind (snd p) = true -> flag_of kind (snd (collect l)) = true.
Proof.
  intros HIn Hp. induction l as [ | q l IH]; [destruct HIn | ].
  simpl. rewrite flag_of_or. destruct HIn as [-> | HIn].
  - rewrite Hp. reflexivity.
  - apply orb_true_iff. right. apply IH. exact HIn.
Qed.

Lemma In_warnings_bind_now {A B} (m : M A) (k : A -> M B) w :
  In w (warnings_of m) -> In w (warnings_of (bind m k)).
Proof. intros H. rewrite warnings_of_bind. apply in_or_app. left. exact H. Qed.

Lemma In_warnings_bind_later {A B} (m : M A) (k : A -> M B) a w :
  value_of m = Ok a -> In w (warnings_of (k a)) -> In w (warnings_of (bind m k)).
Proof.
  intros E H. rewrite warnings_of_bind, E. apply in_or_app. right. exact H.
Qed.

Lemma In_warnings_lift1_arg name f (ma : M value) w :
  In w (warnings_of ma) -> In w (warnings_of (lift1 name f ma)).
Proof. apply In_warnings_bind_now. Qed.

Lemma In_warnings_lift1_call name f (ma : M value) a w :
  value_of ma = Ok a -> In w (warnings_of (ufunc1 name f a)) ->
  In w (warnings_of (lift1 name f ma)).
Proof. apply In_warnings_bind_later. Qed.

Lemma In_warnings_lift2_left name f (ma mb : M value) w :
  In w (warnings_of ma) -> In w (warnings_of (lift2 name f ma mb)).
Proof. apply In_warnings_bind_now. Qed.

Lemma In_warnings_lift2_right name f (ma mb : M value) a w :
  value_of ma = Ok a -> In w (warnings_of mb) ->
  In w (warnings_of (lift2 name f ma mb)).
Proof.
  intros E H. unfold lift2. apply (In_warnings_bind_later _ _ a); [exact E | ].
  apply In_warnings_bind_now. exact H.
Qed.

Lemma In_warnings_lift2_call name f (ma mb : M value) a b w :
  value_of ma = Ok a -> value_of mb = Ok b ->
  In w (warnings_of (ufunc2 name f a b)) ->
  In w (warnings_of (lift2 name f ma mb)).
Proof.
  intros Ea Eb H. unfold lift2. apply (In_warnings_bind_later _ _ a); [exact Ea | ].
  apply (In_warnings_bind_later _ _ b); [exact Eb | exact H].
Qed.

(** A sample that signals makes the call on its column warn. *)
Lemma ufunc1_column_warns kind name f (g : R -> npfloat) (l : list R) v :
  In v l -> flag_of kind (snd (f (g v))) = true ->
  In (RuntimeWarning kind name) (warnings_of (ufunc1 name f (column g l))).
Proof.
  intros HIn Hf. unfold ufunc1, column, warnings_of. simpl.
  apply In_report. apply (flag_of_collect kind _ (f (g v))); [ | exact Hf].
  rewrite map_map. apply (in_map (fun x => f (g x))). exact HIn.
Qed.

Lemma ufunc2_scalar_column_warns kind name f x (g : R -> npfloat) (l : list R) v :
  In v l -> flag_of kind (snd (f x (g v))) = true ->
  In (RuntimeWarning kind name)
     (warnings_of (ufunc2 name f (Scalar x) (column g l))).
Proof.
  intros HIn Hf. unfold ufunc2, column, warnings_of. simpl.
  apply In_report. apply (flag_of_collect kind _ (f x (g v))); [ | exact Hf].
  rewrite map_map. apply (in_map (fun y => f x (g y))). exact HIn.
Qed.

Lemma value_of_truediv (x y : R) :
  y <> 0 -> value_of (Py.truediv x y) = Ok (x / y).
Proof.
  intros H. unfold Py.truediv. pose proof (Rsign_nonzero y H) as N.
  destruct (Rsign y); [contradiction | reflexivity | reflexivity].
Qed.

Lemma value_of_truediv_zero (x : R) :
  value_of (Py.truediv x 0) = Raise (ZeroDivisionError "float division by zero").
Proof. unfold Py.truediv. rewrite Rsign_zero. reflexivity. Qed.

Lemma value_of_pow (x y : R) :
  0 < x -> value_of (Py.pow x y) = Ok (Rpower x y).
Proof. intros H. unfold Py.pow. rewrite Rsign_pos by exact H. reflexivity. Qed.

Lemma Rpower_pos (x y : R) : 0 < Rpower x y.
Proof. unfold Rpower. apply exp_pos. Qed.

Section HoltropSteps.
Variable self : ResistanceCalculator.t.
Variable l : list R.
Variables L B T S V LCB : R.
Hypothesis L_is : HullParameters.L (ResistanceCalculator.hull self) = L.
Hypothesis B_is : HullParameters.B (ResistanceCalculator.hull self) = B.
Hypothesis T_is : HullParameters.T (ResistanceCalculator.hull self) = T.
Hypothesis S_is : HullParameters.S (ResistanceCalculator.hull self) = Some S.
Hypothesis V_is : HullParameters.V (ResistanceCalculator.hull self) = Some V.
Hypothesis LCB_is : HullParameters.LCB (ResistanceCalculator.hull self) = Some LCB.
Hypothesis L_pos : 0 < L.
Hypothesis B_pos : 0 < B.
Hypothesis T_pos : 0 < T.

Lemma froude_value :
  value_of (np (asarray l) / np_sqrt (py (Config.GRAVITY * L)))%np
  = Ok (column (fun v => Fin (HoltropSpec.Fn L v)) l).
Proof.
  np_value. f_equal. apply column_ext. intros v _.
  unfold Config.GRAVITY, HoltropSpec.Fn.
  assert (0 < 9.81 * L) as H by lra.
  rewrite sqrt_fin by lra.
  apply divide_fin. apply Rgt_not_eq. apply sqrt_lt_R0. exact H.
Qed.

Lemma reynolds_value :
  value_of (np (asarray l) * py L / py Config.KINEMATIC_VISCOSITY)%np
  = Ok (column (fun v => Fin (HoltropSpec.Rn L v)) l).
Proof.
  np_value. f_equal. apply column_ext. intros v _.
  unfold Config.KINEMATIC_VISCOSITY, HoltropSpec.Rn. cbn [Np.multiply fst].
  apply divide_fin. lra.
Qed.

Lemma friction_coefficient_value :
  value_of (py 0.075 /
            sq (np_log10 (np (column (fun v => Fin (HoltropSpec.Rn L v)) l))
                - py 2))%np
  = Ok (column (HoltropSpec.CF L) l).
Proof. np_value. reflexivity. Qed.

Lemma friction_value :
  value_of (py (0.5 * Config.WATER_DENSITY) * sq (np (asarray l))
            * (s <- Py.number (Some S) ;; py s)
            * np (column (HoltropSpec.CF L) l))%np
  = Ok (column (HoltropSpec.RF L S) l).
Proof. np_value. reflexivity. Qed.

Lemma c1_pos : 0 < HoltropSpec.c1 L B.
Proof.
  unfold HoltropSpec.c1.
  pose proof (Rpower_pos (B / L) 1.07961). pose proof (Rpower_pos 89.7 (-1.37565)).
  assert (0 < 2223105 * Rpower (B / L) 1.07961) by lra.
  apply Rmult_lt_0_compat; assumption.
Qed.

Lemma c2_value :
  value_of (np_exp (py (-1.89) * np_sqrt (py (HoltropSpec.c1 L B)))%np)
  = Ok (Scalar (Fin (HoltropSpec.c2 L B))).
Proof.
  np_value. rewrite sqrt_fin by (pose proof c1_pos; lra). reflexivity.
Qed.

Lemma c3_denominator_pos : 0 < V -> 0 < V * (0.31 * sqrt (B * T) + T).
Proof.
  intros V_pos.
  assert (0 <= sqrt (B * T)) by apply sqrt_pos.
  apply Rmult_lt_0_compat; lra.
Qed.

Lemma c3_value :
  V <> 0 ->
  value_of (py (0.56 * Rpower (B * T) 1.5) /
            ((v <- Py.number (Some V) ;; py v)
             * (py 0.31 * np_sqrt (py (B * T)) + py T)))%np
  = Ok (Scalar (Fin (HoltropSpec.c3 B T V))).
Proof.
  intros V_nz. np_value.
  assert (0 < B * T) as HBT by (apply Rmult_lt_0_compat; assumption).
  rewrite sqrt_fin by lra. cbn [Np.multiply Np.add fst].
  rewrite divide_fin; [reflexivity | ].
  assert (0 <= sqrt (B * T)) by apply sqrt_pos.
  apply Rmult_integral_contrapositive_currified; lra.
Qed.

Lemma residual_value (c2 c3 c12 c13 : R) :
  0 < c12 ->
  value_of (py (V * Config.WATER_DENSITY * Config.GRAVITY)
            * np (Scalar (Fin c2)) * np (Scalar (Fin c3))
            * (p <- Py.pow c12 0.004 ;; py p)
            * np_exp (py (-0.9) / np (column (fun v => Fin (HoltropSpec.Fn L v)) l))
            * py c13)%np
  = Ok (column (fun v =>
          xmul (xmul (Fin (V * 1025 * 9.81 * c2 * c3 * Rpower c12 0.004))
                     (xexp (xdiv (Fin (-0.9)) (Fin (HoltropSpec.Fn L v)))))
               (Fin c13)) l).
Proof.
  intros H. np_value. rewrite value_of_pow by exact H. np_value. reflexivity.
Qed.

(** The value [calculate_holtrop] computes, for a hull with positive
    dimensions and a positive volume. *)
Lemma holtrop_value :
  0 < V ->
  value_of (ResistanceCalculator.holtrop self l)
  = Ok (holtrop_columns L B T S V LCB l).
Proof.
  intros V_pos. unfold ResistanceCalculator.holtrop, ResistanceCalculator.holtrop_array.
  rewrite L_is, B_is, T_is, S_is, V_is, LCB_is.
  replace (90 - 0.3) with 89.7 by lra.
  rewrite value_of_bind, froude_value. cbn [rbind].
  rewrite value_of_bind, reynolds_value. cbn [rbind].
  rewrite value_of_bind, friction_coefficient_value. cbn [rbind].
  rewrite value_of_bind, friction_value. cbn [rbind].
  rewrite value_of_bind, value_of_truediv by lra. cbn [rbind].
  rewrite value_of_bind, value_of_pow by (apply Rdiv_lt_0_compat; assumption).
  cbn [rbind].
  rewrite value_of_bind, value_of_pow by lra. cbn [rbind].
  fold (HoltropSpec.c1 L B).
  rewrite value_of_bind, c2_value. cbn [rbind].
  rewrite value_of_bind, value_of_pow by (apply Rmult_lt_0_compat; assumption).
  cbn [rbind].
  rewrite value_of_bind, c3_value by lra. cbn [rbind].
  rewrite value_of_bind. cbn [Py.number]. rewrite value_of_ret. cbn [rbind].
  rewrite value_of_bind, value_of_truediv by lra. cbn [rbind].
  rewrite value_of_bind. cbn [Py.number]. rewrite value_of_ret. cbn [rbind].
  rewrite value_of_bind, residual_value
    by (apply Rdiv_lt_0_compat; [apply pow_lt; assumption | assumption]).
  cbn [rbind].
  np_value. reflexivity.
Qed.

(** With a volume of zero the Python division [L**3 / V] raises. *)
Lemma holtrop_zero_volume :
  V = 0 ->
  value_of (ResistanceCalculator.holtrop self l)
  = Raise (ZeroDivisionError "float division by zero").
Proof.
  intros V_zero. unfold ResistanceCalculator.holtrop, ResistanceCalculator.holtrop_array.
  rewrite L_is, B_is, T_is, S_is, V_is, LCB_is.
  replace (90 - 0.3) with 89.7 by lra.
  rewrite value_of_bind, froude_value. cbn [rbind].
  rewrite value_of_bind, reynolds_value. cbn [rbind].
  rewrite value_of_bind, friction_coefficient_value. cbn [rbind].
  rewrite value_of_bind, friction_value. cbn [rbind].
  rewrite value_of_bind, value_of_truediv by lra. cbn [rbind].
  rewrite value_of_bind, value_of_pow by (apply Rdiv_lt_0_compat; assumption).
  cbn [rbind].
  rewrite value_of_bind, value_of_pow by lra. cbn [rbind].
  fold (HoltropSpec.c1 L B).
  rewrite value_of_bind, c2_value. cbn [rbind].
  rewrite value_of_bind, value_of_pow by (apply Rmult_lt_0_compat; assumption).
  cbn [rbind].
  np_value. subst V. rewrite value_of_truediv_zero. reflexivity.
Qed.

Ltac later_with lem :=
  eapply In_warnings_bind_later; [lem | cbv beta].

(* the lines of [holtrop] before the residual resistance *)
Ltac holtrop_to_residual V_pos :=
  later_with ltac:(apply froude_value);
  later_with ltac:(apply reynolds_value);
  later_with ltac:(apply friction_coefficient_value);
  later_with ltac:(apply friction_value);
  later_with ltac:(apply value_of_truediv; lra);
  later_with ltac:(apply value_of_pow; apply Rdiv_lt_0_compat; assumption);
  later_with ltac:(apply value_of_pow; lra);
  fold (HoltropSpec.c1 L B);
  later_with ltac:(apply c2_value);
  later_with ltac:(apply value_of_pow; apply Rmult_lt_0_compat; assumption);
  later_with ltac:(apply c3_value; lra);
  later_with ltac:(reflexivity);
  later_with ltac:(apply value_of_truediv; lra);
  later_with ltac:(reflexivity).

(** The exponent [-0.9/Fn] is evaluated at every sample: a zero speed
    makes NumPy divide by zero there. *)
Lemma holtrop_divides_by_zero_froude :
  0 < V -> In 0 l ->
  In (RuntimeWarning DivideByZero "divide")
     (warnings_of (ResistanceCalculator.holtrop self l)).
Proof.
  intros V_pos H0. unfold ResistanceCalculator.holtrop, ResistanceCalculator.holtrop_array.
  rewrite L_is, B_is, T_is, S_is, V_is, LCB_is.
  replace (90 - 0.3) with 89.7 by lra.
  holtrop_to_residual V_pos.
  apply In_warnings_bind_now.
  apply In_warnings_lift2_left.
  eapply In_warnings_lift2_right.
  { np_value.
    rewrite value_of_pow
      by (apply Rdiv_lt_0_compat; [apply pow_lt; assumption | assumption]).
    np_value. reflexivity. }
  unfold np_exp. apply In_warnings_lift1_arg.
  eapply In_warnings_lift2_call; [apply value_of_py | apply value_of_np | ].
  apply (ufunc2_scalar_column_warns DivideByZero _ _ _ _ _ 0); [exact H0 | ].
  unfold HoltropSpec.Fn. replace (0 / sqrt (9.81 * L)) with 0 by (unfold Rdiv; ring).
  rewrite divide_neg_zero by lra. reflexivity.
Qed.

(** The friction coefficient divides by [(log10(Rn) - 2)**2] unguarded. *)
Lemma holtrop_divides_by_zero_friction (v : R) :
  In v l -> HoltropSpec.Rn L v = 100 ->
  In (RuntimeWarning DivideByZero "divide")
     (warnings_of (ResistanceCalculator.holtrop self l)).
Proof.
  intros Hv HRn. unfold ResistanceCalculator.holtrop, ResistanceCalculator.holtrop_array.
  rewrite L_is, B_is, T_is, S_is, V_is, LCB_is.
  later_with ltac:(apply froude_value).
  later_with ltac:(apply reynolds_value).
  apply In_warnings_bind_now.
  eapply In_warnings_lift2_call; [apply value_of_py | np_value; reflexivity | ].
  apply (ufunc2_scalar_column_warns DivideByZero _ _ _ _ _ v); [exact Hv | ].
  rewrite HRn. rewrite log10_fin by lra. rewrite log10_100.
  cbn [Np.subtract Np.negative Np.add Np.square fst].
  replace ((2 + - (2)) ^ 2) with 0 by ring.
  rewrite divide_pos_zero by lra. reflexivity.
Qed.

(** A negative speed reaches [np.log10] unchecked. *)
Lemma holtrop_invalid_log10 (v : R) :
  In v l -> v < 0 ->
  In (RuntimeWarning InvalidValue "log10")
     (warnings_of (ResistanceCalculator.holtrop self l)).
Proof.
  intros Hv Hneg. unfold ResistanceCalculator.holtrop, ResistanceCalculator.holtrop_array.
  rewrite L_is, B_is, T_is, S_is, V_is, LCB_is.
  later_with ltac:(apply froude_value).
  later_with ltac:(apply reynolds_value).
  apply In_warnings_bind_now.
  eapply In_warnings_lift2_right; [apply value_of_py | ].
  unfold sq. apply In_warnings_lift1_arg.
  apply In_warnings_lift2_left.
  unfold np_log10. eapply In_warnings_lift1_call; [apply value_of_np | ].
  apply (ufunc1_column_warns InvalidValue _ _ _ _ v); [exact Hv | ].
  rewrite log10_negative; [reflexivity | ].
  unfold HoltropSpec.Rn.
  assert (v * L < 0) by nra.
  assert (0 < / 1.1892e-6) by (apply Rinv_0_lt_compat; lra).
  unfold Rdiv. nra.
Qed.

End HoltropSteps.

(* ================================================================== *)
(** * The per-sample formulas at regular and at singular speeds *)

Lemma ln_10_pos : 0 < ln 10.
Proof. rewrite <- ln_1. apply ln_increasing; lra. Qed.

Lemma log10_eq_2 (x : R) : 0 < x -> log10 x = 2 -> x = 100.
Proof.
  intros Hx H. unfold log10 in H. pose proof ln_10_pos as H10.
  assert (ln x = ln 100) as E.
  { replace 100 with (10 * 10) by lra. rewrite ln_mult by lra.
    apply (Rmult_eq_compat_r (ln 10)) in H.
    unfold Rdiv in H. rewrite Rmult_assoc, Rinv_l in H by lra. lra. }
  apply ln_inv in E; [exact E | exact Hx | lra].
Qed.

Section Regimes.
Variables L B T S V LCB : R.
Hypothesis L_pos : 0 < L.
Hypothesis B_pos : 0 < B.
Hypothesis T_pos : 0 < T.

Lemma Rn_pos (v : R) : 0 < v -> 0 < HoltropSpec.Rn L v.
Proof.
  intros Hv. unfold HoltropSpec.Rn.
  apply Rdiv_lt_0_compat; [apply Rmult_lt_0_compat; assumption | lra].
Qed.

Lemma Fn_pos (v : R) : 0 < v -> 0 < HoltropSpec.Fn L v.
Proof.
  intros Hv. unfold HoltropSpec.Fn.
  apply Rdiv_lt_0_compat; [exact Hv | apply sqrt_lt_R0; lra].
Qed.

Lemma friction_denominator (v : R) :
  0 < v -> HoltropSpec.Rn L v <> 100 -> (log10 (HoltropSpec.Rn L v) - 2) ^ 2 <> 0.
Proof.
  intros Hv HRn. apply pow_nonzero. intros E. apply HRn.
  apply log10_eq_2; [apply Rn_pos; exact Hv | lra].
Qed.

Lemma CF_regular (v : R) :
  0 < v -> HoltropSpec.Rn L v <> 100 ->
  HoltropSpec.CF L v = Fin (HoltropSpec.CF_real L v).
Proof.
  intros Hv HRn. unfold HoltropSpec.CF, HoltropSpec.CF_real, xlog10, xsub, xsquare, xdiv.
  rewrite log10_fin by (apply Rn_pos; exact Hv).
  cbn [Np.subtract Np.negative Np.add Np.square fst].
  replace (log10 (HoltropSpec.Rn L v) + - (2)) with (log10 (HoltropSpec.Rn L v) - 2)
    by reflexivity.
  apply divide_fin. apply friction_denominator; assumption.
Qed.

Lemma CF_singular (v : R) :
  HoltropSpec.Rn L v = 100 -> HoltropSpec.CF L v = PInf.
Proof.
  intros HRn. unfold HoltropSpec.CF, xlog10, xsub, xsquare, xdiv.
  rewrite HRn, log10_fin by lra. rewrite log10_100.
  cbn [Np.subtract Np.negative Np.add Np.square fst].
  replace ((2 + - (2)) ^ 2) with 0 by ring.
  rewrite divide_pos_zero by lra. reflexivity.
Qed.

Lemma CF_zero_speed : HoltropSpec.CF L 0 = Fin 0.
Proof.
  unfold HoltropSpec.CF, HoltropSpec.Rn, xlog10, xsub, xsquare, xdiv.
  replace (0 * L / 1.1892e-6) with 0 by (unfold Rdiv; ring).
  rewrite log10_zero. reflexivity.
Qed.

Lemma CF_negative_speed (v : R) : v < 0 -> HoltropSpec.CF L v = NaN.
Proof.
  intros Hv. unfold HoltropSpec.CF, xlog10, xsub, xsquare, xdiv.
  rewrite log10_negative; [reflexivity | ].
  unfold HoltropSpec.Rn.
  assert (v * L < 0) by nra.
  assert (0 < / 1.1892e-6) by (apply Rinv_0_lt_compat; lra).
  unfold Rdiv. nra.
Qed.

Lemma RF_regular (v : R) :
  0 < v -> HoltropSpec.Rn L v <> 100 ->
  HoltropSpec.RF L S v = Fin (HoltropSpec.RF_real L S v).
Proof.
  intros Hv HRn. unfold HoltropSpec.RF, HoltropSpec.RF_real.
  rewrite CF_regular by assumption. reflexivity.
Qed.

Lemma RR_regular (v : R) :
  0 < v -> HoltropSpec.RR L B T V LCB v = Fin (HoltropSpec.RR_real L B T V LCB v).
Proof.
  intros Hv. unfold HoltropSpec.RR, HoltropSpec.RR_real, xexp, xdiv, xmul.
  rewrite divide_fin by (apply Rgt_not_eq; apply Fn_pos; exact Hv).
  reflexivity.
Qed.

Lemma RR_zero_speed : HoltropSpec.RR L B T V LCB 0 = Fin 0.
Proof.
  unfold HoltropSpec.RR, HoltropSpec.Fn, xexp, xdiv, xmul.
  replace (0 / sqrt (9.81 * L)) with 0 by (unfold Rdiv; ring).
  rewrite divide_neg_zero by lra.
  cbn [Np.exp Np.multiply fst]. f_equal. ring.
Qed.

Lemma RT_regular (v : R) :
  0 < v -> HoltropSpec.Rn L v <> 100 ->
  HoltropSpec.RT L B T S V LCB v = Fin (HoltropSpec.RT_real L B T S V LCB v).
Proof.
  intros Hv HRn. unfold HoltropSpec.RT, HoltropSpec.RT_real.
  rewrite RF_regular, RR_regular by assumption. reflexivity.
Qed.

Lemma CF_real_pos (v : R) :
  0 < v -> HoltropSpec.Rn L v <> 100 -> 0 < HoltropSpec.CF_real L v.
Proof.
  intros Hv HRn. unfold HoltropSpec.CF_real.
  apply Rdiv_lt_0_compat; [lra | ].
  pose proof (friction_denominator v Hv HRn) as N.
  pose proof (pow2_ge_0 (log10 (HoltropSpec.Rn L v) - 2)). lra.
Qed.

Lemma RF_real_pos (v : R) :
  0 < S -> 0 < v -> HoltropSpec.Rn L v <> 100 -> 0 < HoltropSpec.RF_real L S v.
Proof.
  intros HS Hv HRn. unfold HoltropSpec.RF_real.
  pose proof (CF_real_pos v Hv HRn).
  assert (0 < v ^ 2) by (apply pow_lt; exact Hv).
  assert (0 < 0.5 * 1025 * v ^ 2) by nra.
  assert (0 < 0.5 * 1025 * v ^ 2 * S) by (apply Rmult_lt_0_compat; assumption).
  apply Rmult_lt_0_compat; assumption.
Qed.

Lemma c3_pos : 0 < V -> 0 < HoltropSpec.c3 B T V.
Proof.
  intros HV. unfold HoltropSpec.c3.
  apply Rdiv_lt_0_compat.
  - pose proof (Rpower_pos (B * T) 1.5). lra.
  - assert (0 <= sqrt (B * T)) by apply sqrt_pos.
    apply Rmult_lt_0_compat; lra.
Qed.

(* the factor of exp(-0.9/Fn) in RR, without c13 *)
Lemma residual_factor_pos :
  0 < V ->
  0 < V * 1025 * 9.81 * HoltropSpec.c2 L B * HoltropSpec.c3 B T V
      * Rpower (HoltropSpec.c12 L V) 0.004.
Proof.
  intros HV.
  assert (0 < HoltropSpec.c2 L B) by (unfold HoltropSpec.c2; apply exp_pos).
  pose proof (c3_pos HV).
  pose proof (Rpower_pos (HoltropSpec.c12 L V) 0.004).
  assert (0 < V * 1025 * 9.81) by lra.
  apply Rmult_lt_0_compat; [ | assumption].
  apply Rmult_lt_0_compat; [ | assumption].
  apply Rmult_lt_0_compat; assumption.
Qed.

Lemma RR_real_pos (v : R) :
  0 < V -> 0 < HoltropSpec.c13 LCB -> 0 < v ->
  0 < HoltropSpec.RR_real L B T V LCB v.
Proof.
  intros HV Hc Hv. unfold HoltropSpec.RR_real.
  pose proof (residual_factor_pos HV).
  pose proof (exp_pos (-0.9 / HoltropSpec.Fn L v)).
  apply Rmult_lt_0_compat; [ | exact Hc].
  apply Rmult_lt_0_compat; assumption.
Qed.

End Regimes.

(* ================================================================== *)
(** * The simplified method *)

Section SimpleSteps.
Variable self : ResistanceCalculator.t.
Variable l : list R.
Variables L S : R.
Hypothesis L_is : HullParameters.L (ResistanceCalculator.hull self) = L.
Hypothesis S_is : HullParameters.S (ResistanceCalculator.hull self) = Some S.
Hypothesis L_pos : 0 < L.

Lemma simple_total_value :
  value_of (py (0.5 * Config.WATER_DENSITY) * sq (np (asarray l))
            * (s <- Py.number (Some S) ;; py s)
            * (py 0.001 + py 0.002
               * sq (np (column (fun v => Fin (SimpleSpec.Fn L v)) l))))%np
  = Ok (column (fun v => Fin (SimpleSpec.RT L S v)) l).
Proof. np_value. reflexivity. Qed.

Lemma knots_value :
  value_of (np (asarray l) * py 1.944)%np
  = Ok (column (fun v => Fin (v * 1.944)) l).
Proof. np_value. reflexivity. Qed.

Lemma kilo_value (f : R -> R) :
  value_of (np (column (fun v => Fin (f v)) l) / py 1000)%np
  = Ok (column (fun v => Fin (f v / 1000)) l).
Proof.
  np_value. f_equal. apply column_ext. intros v _. apply divide_fin. lra.
Qed.

Lemma power_value (f : R -> R) :
  value_of (np (column (fun v => Fin (f v)) l) * np (asarray l) / py 1000)%np
  = Ok (column (fun v => Fin (f v * v / 1000)) l).
Proof.
  np_value. f_equal. apply column_ext. intros v _.
  cbn [Np.multiply fst]. apply divide_fin. lra.
Qed.

(** The value [calculate_simple] computes, for a hull of positive length. *)
Lemma simple_value :
  value_of (ResistanceCalculator.simple self l) = Ok (simple_columns L S l).
Proof.
  unfold ResistanceCalculator.simple, ResistanceCalculator.simple_array. rewrite L_is, S_is.
  rewrite value_of_bind, (froude_value l L L_pos). cbn [rbind].
  change (fun v => Fin (HoltropSpec.Fn L v)) with (fun v => Fin (SimpleSpec.Fn L v)).
  rewrite value_of_bind, simple_total_value. cbn [rbind].
  rewrite value_of_bind, knots_value. cbn [rbind].
  rewrite value_of_bind, (kilo_value (SimpleSpec.RT L S)). cbn [rbind].
  rewrite value_of_bind, (power_value (SimpleSpec.RT L S)). cbn [rbind].
  reflexivity.
Qed.

End SimpleSteps.

(* ================================================================== *)
(** * Objects returned by the constructor *)

Section Constructed.
Context {fmt : PyFormat}.

Lemma init_inversion (L B T CB : R) (CM LCB S V APP : option R) h :
  HullParameters.__init__ L B T CB CM LCB S V APP = Ok h ->
  (0 < L /\ 0 < B /\ 0 < T /\ 0.3 <= CB <= 1.0)
  /\ h = HullParameters._calculate_missing_parameters
           (HullParameters.Build_t L B T CB CM LCB S V APP).
Proof.
  intros E.
  destruct (Rlt_dec 0 L) as [HL | HL];
  [ destruct (Rlt_dec 0 B) as [HB | HB];
    [ destruct (Rlt_dec 0 T) as [HT | HT];
      [ destruct (Rle_dec 0.3 CB) as [HC1 | HC1];
        [ destruct (Rle_dec CB 1.0) as [HC2 | HC2] | ] | ] | ] | ];
  try (rewrite init_rejects in E by tauto; discriminate E).
  rewrite init_accepts in E by (try assumption; lra).
  injection E as <-. split; [repeat split; assumption | reflexivity].
Qed.

End Constructed.

(* ================================================================== *)
(** * Entries of a result set *)

Lemma entry_of_column {A} (d : ResistanceCalculator.results_dict) (key : string)
    (f : A -> npfloat) (l : list A) (i : nat) (v : A) (x : npfloat) :
  ResistanceCalculator.lookup key d = Some (column f l) ->
  nth_error l i = Some v -> f v = x -> entry d key i = Some x.
Proof.
  intros Hk Hv Hx. unfold entry. rewrite Hk. unfold column.
  rewrite nth_error_map, Hv. simpl. rewrite Hx. reflexivity.
Qed.

Ltac entry_by_column :=
  eapply entry_of_column; [reflexivity | eassumption | try reflexivity].

(* ================================================================== *)
(** * The calculator on constructed hulls *)

Section OnConstructedHulls.
Context {fmt : PyFormat}.
Variables (L B T CB : R) (CM LCB S V APP : option R).
Variable h : HullParameters.t.
Hypothesis constructed : HullParameters.__init__ L B T CB CM LCB S V APP = Ok h.

Lemma constructed_dimensions :
  (0 < L /\ 0 < B /\ 0 < T /\ 0.3 <= CB <= 1.0)
  /\ HullParameters.L h = L /\ HullParameters.B h = B
  /\ HullParameters.T h = T /\ HullParameters.CB h = CB.
Proof.
  destruct (init_inversion _ _ _ _ _ _ _ _ _ _ constructed) as [Hv ->].
  split; [exact Hv | repeat split; reflexivity].
Qed.

Lemma constructed_fields :
  exists s vol lcb,
    HullParameters.S h = Some s /\ HullParameters.V h = Some vol
    /\ HullParameters.LCB h = Some lcb
    /\ (V = None -> vol = L * B * T * CB)
    /\ (forall v0, V = Some v0 -> vol = v0)
    /\ (S = None -> s = wetted_surface L B T CB vol)
    /\ (forall s0, S = Some s0 -> s = s0)
    /\ (LCB = None -> lcb = 0.5)
    /\ (forall l0, LCB = Some l0 -> lcb = l0).
Proof.
  destruct (init_inversion _ _ _ _ _ _ _ _ _ _ constructed) as [Hv ->].
  simpl. do 3 eexists. repeat split; try reflexivity.
  - intros E. rewrite E. reflexivity.
  - intros v0 E. rewrite E. reflexivity.
  - intros E. rewrite E. reflexivity.
  - intros s0 E. rewrite E. reflexivity.
  - intros E. rewrite E. reflexivity.
  - intros l0 E. rewrite E. reflexivity.
Qed.

Lemma simple_on_constructed (old : option ResistanceCalculator.results_dict)
    (speeds : list R) (s : R) :
  HullParameters.S h = Some s ->
  let self := ResistanceCalculator.Build_t h old in
  value_of (ResistanceCalculator.calculate_simple self speeds)
  = Ok (ResistanceCalculator.store self (simple_columns L s speeds),
        simple_columns L s speeds).
Proof.
  intros Hs self.
  destruct constructed_dimensions as [(HL & HB & HT & HC) (EL & EB & ET & EC)].
  unfold ResistanceCalculator.calculate_simple.
  rewrite value_of_bind.
  rewrite (simple_value self speeds L s); [reflexivity | exact EL | exact Hs | exact HL].
Qed.

Lemma holtrop_on_constructed (old : option ResistanceCalculator.results_dict)
    (speeds : list R) (s vol lcb : R) :
  HullParameters.S h = Some s -> HullParameters.V h = Some vol ->
  HullParameters.LCB h = Some lcb -> 0 < vol ->
  let self := ResistanceCalculator.Build_t h old in
  value_of (ResistanceCalculator.calculate_holtrop self speeds)
  = Ok (ResistanceCalculator.store self (holtrop_columns L B T s vol lcb speeds),
        holtrop_columns L B T s vol lcb speeds).
Proof.
  intros Hs Hvol Hlcb Hpos self.
  destruct constructed_dimensions as [(HL & HB & HT & HC) (EL & EB & ET & EC)].
  unfold ResistanceCalculator.calculate_holtrop.
  rewrite value_of_bind.
  rewrite (holtrop_value self speeds L B T s vol lcb); try assumption.
  reflexivity.
Qed.

End OnConstructedHulls.

(* ================================================================== *)
(** * Claims on the two methods *)

Lemma scenario_hull_constructed :
  HullParameters.__init__ (fmt := spec_only_format)
    150 20 8 0.70 None None None None None = Ok scenario_hull.
Proof. apply init_accepts; lra. Qed.

Lemma short_hull_constructed :
  HullParameters.__init__ (fmt := spec_only_format)
    100 20 8 0.70 None None None None None = Ok short_hull.
Proof. apply init_accepts; lra. Qed.

Section ClaimsOnTheMethods.
Context {fmt : PyFormat}.
Local Open Scope string_scope.

(** C4. For every constructed hull and every sequence of speeds,
    calculate_simple returns (and stores) a result set with the six keys
    of the simplified method in which, at every sample of speed v,
    Fn = v/sqrt(9.81*L), RT = 0.5*1025*v^2*S*(0.001 + 0.002*Fn^2),
    resistance_total_kN = RT/1000, P = RT*v/1000 and
    speed_knots = v*1.944; at a speed of exactly 0, Fn, RT and P are 0. *)
Theorem simple_method_formulas (L B T CB : R) (CM LCB S V APP : option R)
    (h : HullParameters.t) (old : option ResistanceCalculator.results_dict)
    (speeds : list R) :
  HullParameters.__init__ L B T CB CM LCB S V APP = Ok h ->
  let self := ResistanceCalculator.Build_t h old in
  exists s r,
    HullParameters.S h = Some s
    /\ value_of (ResistanceCalculator.calculate_simple self speeds)
       = Ok (ResistanceCalculator.store self r, r)
    /\ keys r = [ "speed_mps"; "speed_knots"; "froude"; "resistance_total_N";
                  "resistance_total_kN"; "effective_power_kW" ]%list
    /\ (forall i v, nth_error speeds i = Some v ->
          let Fn := v / sqrt (9.81 * L) in
          let RT := 0.5 * 1025 * v ^ 2 * s * (0.001 + 0.002 * Fn ^ 2) in
          entry r "speed_mps" i = Some (Fin v)
          /\ entry r "speed_knots" i = Some (Fin (v * 1.944))
          /\ entry r "froude" i = Some (Fin Fn)
          /\ entry r "resistance_total_N" i = Some (Fin RT)
          /\ entry r "resistance_total_kN" i = Some (Fin (RT / 1000))
          /\ entry r "effective_power_kW" i = Some (Fin (RT * v / 1000)))
    /\ (forall i, nth_error speeds i = Some 0 ->
          entry r "froude" i = Some (Fin 0)
          /\ entry r "resistance_total_N" i = Some (Fin 0)
          /\ entry r "effective_power_kW" i = Some (Fin 0)).
Proof.
  intros Hh self.
  destruct (constructed_fields _ _ _ _ _ _ _ _ _ _ Hh)
    as (s & vol & lcb & Hs & _).
  exists s, (simple_columns L s speeds).
  split; [exact Hs | ].
  split; [apply (simple_on_constructed _ _ _ _ _ _ _ _ _ _ Hh); exact Hs | ].
  split; [reflexivity | ].
  split.
  - intros i v Hv Fn RT. repeat split; entry_by_column.
  - intros i Hv. repeat split; entry_by_column.
    + unfold SimpleSpec.Fn. f_equal. unfold Rdiv. ring.
    + unfold SimpleSpec.RT. f_equal. ring.
    + unfold SimpleSpec.P, SimpleSpec.RT. f_equal. unfold Rdiv. ring.
Qed.

Lemma constructed_volume_pos (L B T CB : R) (CM LCB S V APP : option R)
    (h : HullParameters.t) (vol : R) :
  HullParameters.__init__ L B T CB CM LCB S V APP = Ok h ->
  (forall v0, V = Some v0 -> 0 < v0) ->
  HullParameters.V h = Some vol -> 0 < vol.
Proof.
  intros Hh HV Hvol.
  destruct (constructed_dimensions _ _ _ _ _ _ _ _ _ _ Hh)
    as [(HL & HB & HT & HC) _].
  destruct (constructed_fields _ _ _ _ _ _ _ _ _ _ Hh)
    as (s & vol' & lcb & Hs & Hvol' & Hlcb & HVn & HVs & _).
  rewrite Hvol in Hvol'. injection Hvol' as <-.
  destruct V as [v0 | ].
  - rewrite (HVs v0 eq_refl). apply HV. reflexivity.
  - rewrite (HVn eq_refl).
    assert (0 < L * B) by (apply Rmult_lt_0_compat; assumption).
    assert (0 < L * B * T) by (apply Rmult_lt_0_compat; assumption).
    apply Rmult_lt_0_compat; lra.
Qed.

(** The rows of the Holtrop result set, with the formulas written out. *)
Lemma holtrop_rows (L B T s vol lcb : R) (speeds : list R) (i : nat) (v : R) :
  nth_error speeds i = Some v ->
  let r := holtrop_columns L B T s vol lcb speeds in
  let Fn := v / sqrt (9.81 * L) in
  let Rn := v * L / 1.1892e-6 in
  let CF := xdiv (Fin 0.075) (xsquare (xsub (xlog10 (Fin Rn)) (Fin 2))) in
  let RF := xmul (Fin (0.5 * 1025 * v ^ 2 * s)) CF in
  let c1 := 2223105 * Rpower (B / L) 1.07961 * Rpower 89.7 (-1.37565) in
  let c2 := exp (-1.89 * sqrt c1) in
  let c3 := 0.56 * Rpower (B * T) 1.5 / (vol * (0.31 * sqrt (B * T) + T)) in
  let c12 := L ^ 3 / vol in
  let c13 := 1 + 0.003 * lcb in
  let RR :=
    xmul (xmul (Fin (vol * 1025 * 9.81 * c2 * c3 * Rpower c12 0.004))
               (xexp (xdiv (Fin (-0.9)) (Fin Fn))))
         (Fin c13) in
  let RT := xadd RF RR in
  entry r "speed_mps" i = Some (Fin v)
  /\ entry r "speed_knots" i = Some (Fin (v * 1.944))
  /\ entry r "froude" i = Some (Fin Fn)
  /\ entry r "reynolds" i = Some (Fin Rn)
  /\ entry r "cf_coefficient" i = Some CF
  /\ entry r "resistance_friction_N" i = Some RF
  /\ entry r "residual_resistance_N" i = Some RR
  /\ entry r "resistance_total_N" i = Some RT
  /\ entry r "resistance_total_kN" i = Some (xdiv RT (Fin 1000))
  /\ entry r "effective_power_kW" i = Some (xdiv (xmul RT (Fin v)) (Fin 1000)).
Proof.
  intros Hv r Fn Rn CF RF c1 c2 c3 c12 c13 RR RT.
  repeat split; entry_by_column.
Qed.

(** At a positive speed whose Reynolds number is not 100 every formula is
    a finite real number, and with S > 0, V > 0 and c13 > 0 the three
    resistances are positive. *)
Lemma holtrop_regular_row (L B T s vol lcb v : R) :
  0 < L -> 0 < B -> 0 < T -> 0 < v -> v * L / 1.1892e-6 <> 100 ->
  let Fn := v / sqrt (9.81 * L) in
  let Rn := v * L / 1.1892e-6 in
  let CF := xdiv (Fin 0.075) (xsquare (xsub (xlog10 (Fin Rn)) (Fin 2))) in
  let RF := xmul (Fin (0.5 * 1025 * v ^ 2 * s)) CF in
  let c1 := 2223105 * Rpower (B / L) 1.07961 * Rpower 89.7 (-1.37565) in
  let c2 := exp (-1.89 * sqrt c1) in
  let c3 := 0.56 * Rpower (B * T) 1.5 / (vol * (0.31 * sqrt (B * T) + T)) in
  let c12 := L ^ 3 / vol in
  let c13 := 1 + 0.003 * lcb in
  let RR :=
    xmul (xmul (Fin (vol * 1025 * 9.81 * c2 * c3 * Rpower c12 0.004))
               (xexp (xdiv (Fin (-0.9)) (Fin Fn))))
         (Fin c13) in
  let cf := 0.075 / (log10 Rn - 2) ^ 2 in
  let rf := 0.5 * 1025 * v ^ 2 * s * cf in
  let rr := vol * 1025 * 9.81 * c2 * c3 * Rpower c12 0.004 * exp (-0.9 / Fn) * c13 in
  CF = Fin cf /\ RF = Fin rf /\ RR = Fin rr /\ xadd RF RR = Fin (rf + rr)
  /\ xdiv (xadd RF RR) (Fin 1000) = Fin ((rf + rr) / 1000)
  /\ xdiv (xmul (xadd RF RR) (Fin v)) (Fin 1000) = Fin ((rf + rr) * v / 1000)
  /\ (0 < s -> 0 < vol -> 0 < c13 -> 0 < rf /\ 0 < rr /\ 0 < rf + rr).
Proof.
  intros HL HB HT Hv HRn Fn Rn CF RF c1 c2 c3 c12 c13 RR cf rf rr.
  pose proof (CF_regular L HL v Hv HRn) as ECF.
  pose proof (RF_regular L s HL v Hv HRn) as ERF.
  pose proof (RR_regular L B T vol lcb HL v Hv) as ERR.
  change (HoltropSpec.CF L v) with CF in ECF.
  change (HoltropSpec.CF_real L v) with cf in ECF.
  change (HoltropSpec.RF L s v) with RF in ERF.
  change (HoltropSpec.RF_real L s v) with rf in ERF.
  change (HoltropSpec.RR L B T vol lcb v) with RR in ERR.
  change (HoltropSpec.RR_real L B T vol lcb v) with rr in ERR.
  rewrite ECF, ERF, ERR.
  repeat split.
  - unfold xdiv, xadd. cbn [Np.add fst]. apply divide_fin. lra.
  - unfold xdiv, xadd, xmul. cbn [Np.add Np.multiply fst]. apply divide_fin. lra.
  - apply RF_real_pos; assumption.
  - apply RR_real_pos; assumption.
  - assert (0 < rf) as P1 by (apply RF_real_pos; assumption).
    assert (0 < rr) as P2 by (apply RR_real_pos; assumption).
    lra.
Qed.

(** C1 (amended: the displaced volume is positive, as a derived volume
    always is).  For every constructed hull with a positive volume and
    every sequence of speeds, calculate_holtrop returns (and stores) a
    result set with the ten keys of the method in which, at every sample
    of speed v: Fn = v/sqrt(9.81*L), Rn = v*L/1.1892e-6,
    CF = 0.075/(log10(Rn)-2)^2, RF = 0.5*1025*v^2*S*CF, with the constants
    c1 = 2223105*(B/L)^1.07961*(89.7)^(-1.37565), c2 = exp(-1.89*sqrt(c1)),
    c3 = 0.56*(B*T)^1.5/(V*(0.31*sqrt(B*T)+T)), c12 = L^3/V,
    c13 = 1+0.003*LCB, RR = V*1025*9.81*c2*c3*c12^0.004*exp(-0.9/Fn)*c13,
    RT = RF + RR, resistance_total_kN = RT/1000, P = RT*v/1000 and
    speed_knots = v*1.944, in IEEE arithmetic; at a positive speed with
    Rn <> 100 all of them are finite reals.  For L=150, B=20, T=8, CB=0.70
    and the other fields derived, V = 16800 and at 7.5 m/s
    Fn = 7.5/sqrt(9.81*150) and RF, RR, RT are positive reals with
    RT = RF + RR. *)
Theorem holtrop_method_formulas (L B T CB : R) (CM LCB S V APP : option R)
    (h : HullParameters.t) (old : option ResistanceCalculator.results_dict)
    (speeds : list R) :
  HullParameters.__init__ L B T CB CM LCB S V APP = Ok h ->
  (forall v0, V = Some v0 -> 0 < v0) ->
  let self := ResistanceCalculator.Build_t h old in
  (exists s vol lcb r,
    HullParameters.S h = Some s /\ HullParameters.V h = Some vol
    /\ HullParameters.LCB h = Some lcb
    /\ (V = None -> vol = L * B * T * CB)
    /\ value_of (ResistanceCalculator.calculate_holtrop self speeds)
       = Ok (ResistanceCalculator.store self r, r)
    /\ keys r = [ "speed_mps"; "speed_knots"; "froude"; "reynolds";
                  "resistance_total_N"; "resistance_total_kN";
                  "resistance_friction_N"; "residual_resistance_N";
                  "cf_coefficient"; "effective_power_kW" ]%list
    /\ (forall i v, nth_error speeds i = Some v ->
          let Fn := v / sqrt (9.81 * L) in
          let Rn := v * L / 1.1892e-6 in
          let CF := xdiv (Fin 0.075) (xsquare (xsub (xlog10 (Fin Rn)) (Fin 2))) in
          let RF := xmul (Fin (0.5 * 1025 * v ^ 2 * s)) CF in
          let c1 := 2223105 * Rpower (B / L) 1.07961 * Rpower 89.7 (-1.37565) in
          let c2 := exp (-1.89 * sqrt c1) in
          let c3 := 0.56 * Rpower (B * T) 1.5 / (vol * (0.31 * sqrt (B * T) + T)) in
          let c12 := L ^ 3 / vol in
          let c13 := 1 + 0.003 * lcb in
          let RR :=
            xmul (xmul (Fin (vol * 1025 * 9.81 * c2 * c3 * Rpower c12 0.004))
                       (xexp (xdiv (Fin (-0.9)) (Fin Fn))))
                 (Fin c13) in
          let RT := xadd RF RR in
          let cf := 0.075 / (log10 Rn - 2) ^ 2 in
          let rf := 0.5 * 1025 * v ^ 2 * s * cf in
          let rr := vol * 1025 * 9.81 * c2 * c3 * Rpower c12 0.004
                    * exp (-0.9 / Fn) * c13 in
          entry r "speed_mps" i = Some (Fin v)
          /\ entry r "speed_knots" i = Some (Fin (v * 1.944))
          /\ entry r "froude" i = Some (Fin Fn)
          /\ entry r "reynolds" i = Some (Fin Rn)
          /\ entry r "cf_coefficient" i = Some CF
          /\ entry r "resistance_friction_N" i = Some RF
          /\ entry r "residual_resistance_N" i = Some RR
          /\ entry r "resistance_total_N" i = Some RT
          /\ entry r "resistance_total_kN" i = Some (xdiv RT (Fin 1000))
          /\ entry r "effective_power_kW" i = Some (xdiv (xmul RT (Fin v)) (Fin 1000))
          /\ (0 < v -> Rn <> 100 ->
                CF = Fin cf /\ RF = Fin rf /\ RR = Fin rr /\ RT = Fin (rf + rr)
                /\ xdiv RT (Fin 1000) = Fin ((rf + rr) / 1000)
                /\ xdiv (xmul RT (Fin v)) (Fin 1000) = Fin ((rf + rr) * v / 1000))))
  /\ (exists r0 rf rr,
        HullParameters.__init__ 150 20 8 0.70 None None None None None
          = Ok scenario_hull
        /\ HullParameters.V scenario_hull = Some 16800
        /\ value_of (ResistanceCalculator.calculate_holtrop
                       (ResistanceCalculator.__init__ scenario_hull) [7.5])
           = Ok (ResistanceCalculator.store
                   (ResistanceCalculator.__init__ scenario_hull) r0, r0)
        /\ entry r0 "froude" 0 = Some (Fin (7.5 / sqrt (9.81 * 150)))
        /\ entry r0 "resistance_friction_N" 0 = Some (Fin rf)
        /\ entry r0 "residual_resistance_N" 0 = Some (Fin rr)
        /\ entry r0 "resistance_total_N" 0 = Some (Fin (rf + rr))
        /\ 0 < rf /\ 0 < rr /\ 0 < rf + rr).
Proof.
  intros Hh HV self. split.
  - destruct (constructed_dimensions _ _ _ _ _ _ _ _ _ _ Hh)
      as [(HL & HB & HT & HC) _].
    destruct (constructed_fields _ _ _ _ _ _ _ _ _ _ Hh)
      as (s & vol & lcb & Hs & Hvol & Hlcb & HVn & _).
    pose proof (constructed_volume_pos _ _ _ _ _ _ _ _ _ _ _ Hh HV Hvol) as Hpos.
    exists s, vol, lcb, (holtrop_columns L B T s vol lcb speeds).
    split; [exact Hs | ]. split; [exact Hvol | ]. split; [exact Hlcb | ].
    split; [exact HVn | ].
    split; [apply (holtrop_on_constructed _ _ _ _ _ _ _ _ _ _ Hh); assumption | ].
    split; [reflexivity | ].
    intros i v Hv Fn Rn CF RF c1 c2 c3 c12 c13 RR RT cf rf rr.
    pose proof (holtrop_rows L B T s vol lcb speeds i v Hv) as Hrows.
    cbv zeta in Hrows.
    destruct Hrows as (R1 & R2 & R3 & R4 & R5 & R6 & R7 & R8 & R9 & R10).
    repeat (split; [assumption | ]).
    intros Hvpos HRn.
    pose proof (holtrop_regular_row L B T s vol lcb v HL HB HT Hvpos HRn) as Hreg.
    cbv zeta in Hreg.
    destruct Hreg as (E1 & E2 & E3 & E4 & E5 & E6 & _).
    repeat split; assumption.
  - pose proof (init_accepts 150 20 8 0.70 None None None None None) as Hs0.
    assert (HullParameters.__init__ 150 20 8 0.70 None None None None None
            = Ok scenario_hull) as Hinit by (apply Hs0; lra).
    set (s0 := wetted_surface 150 20 8 0.70 (150 * 20 * 8 * 0.70)).
    assert (0 < s0) as Hs0pos by (apply wetted_surface_pos; lra).
    assert (7.5 * 150 / 1.1892e-6 <> 100) as HRn by lra.
    assert (0 < 7.5) as Hv by lra.
    pose proof (holtrop_regular_row 150 20 8 s0 (150 * 20 * 8 * 0.70) 0.5 7.5
                  ltac:(lra) ltac:(lra) ltac:(lra) Hv HRn) as Hreg.
    cbv zeta in Hreg.
    destruct Hreg as (_ & E2 & E3 & E4 & _ & _ & Hpos).
    destruct Hpos as (P1 & P2 & P3); [exact Hs0pos | lra | lra | ].
    pose proof (holtrop_rows 150 20 8 s0 (150 * 20 * 8 * 0.70) 0.5 [7.5] 0 7.5 eq_refl)
      as Hrows.
    cbv zeta in Hrows.
    destruct Hrows as (_ & _ & R3 & _ & _ & R6 & R7 & R8 & _).
    rewrite E2 in R6. rewrite E3 in R7. rewrite E4 in R8.
    eexists _, _, _.
    split; [exact Hinit | ].
    split; [simpl; f_equal; lra | ].
    split.
    { apply (holtrop_on_constructed _ _ _ _ _ _ _ _ _ _ Hinit None [7.5]
               s0 (150 * 20 * 8 * 0.70) 0.5); try reflexivity. lra. }
    split; [exact R3 | ].
    split; [exact R6 | ].
    split; [exact R7 | ].
    split; [exact R8 | ].
    split; [exact P1 | ]. split; [exact P2 | exact P3].
Qed.

End ClaimsOnTheMethods.

Lemma simple_method_formulas_witness :
  exists r,
    value_of (ResistanceCalculator.calculate_simple
                (ResistanceCalculator.__init__ scenario_hull) [0; 7.5])
    = Ok (ResistanceCalculator.store
            (ResistanceCalculator.__init__ scenario_hull) r, r)
    /\ entry r "froude" 0 = Some (Fin 0)
    /\ entry r "resistance_total_N" 0 = Some (Fin 0)
    /\ entry r "effective_power_kW" 0 = Some (Fin 0)
    /\ entry r "speed_knots" 1 = Some (Fin (7.5 * 1.944)).
Proof.
  destruct (simple_method_formulas (fmt := spec_only_format)
              150 20 8 0.70 None None None None None
              scenario_hull None [0; 7.5] scenario_hull_constructed)
    as (s & r & Hs & Hrun & Hkeys & Hrows & Hzero).
  exists r. split; [exact Hrun | ].
  destruct (Hzero 0%nat eq_refl) as (H1 & H2 & H3).
  destruct (Hrows 1%nat 7.5 eq_refl) as (_ & H4 & _).
  repeat split; assumption.
Defined.

Lemma holtrop_method_formulas_witness :
  exists r,
    value_of (ResistanceCalculator.calculate_holtrop
                (ResistanceCalculator.__init__ scenario_hull) [7.5])
    = Ok (ResistanceCalculator.store
            (ResistanceCalculator.__init__ scenario_hull) r, r)
    /\ entry r "froude" 0 = Some (Fin (7.5 / sqrt (9.81 * 150)))
    /\ entry r "speed_knots" 0 = Some (Fin (7.5 * 1.944)).
Proof.
  destruct (holtrop_method_formulas (fmt := spec_only_format)
              150 20 8 0.70 None None None None None
              scenario_hull None [7.5] scenario_hull_constructed
              ltac:(intros v0 E; discriminate E))
    as [(s & vol & lcb & r & Hs & Hvol & Hlcb & HV & Hrun & Hkeys & Hrows) _].
  exists r. split; [exact Hrun | ].
  destruct (Hrows 0%nat 7.5 eq_refl) as (_ & H2 & H3 & _).
  split; [exact H3 | exact H2].
Defined.

(** C1, as stated, fails when the caller supplies V = 0: the hull is
    accepted and calculate_holtrop raises ZeroDivisionError at [L**3 / V]. *)
Lemma holtrop_raises_on_zero_volume :
  exists h,
    HullParameters.__init__ (fmt := spec_only_format)
      150 20 8 0.70 None None None (Some 0) None = Ok h
    /\ value_of (ResistanceCalculator.calculate_holtrop
                   (ResistanceCalculator.__init__ h) [7.5])
       = Raise (ZeroDivisionError "float division by zero").
Proof.
  eexists. split; [apply init_accepts; lra | ].
  unfold ResistanceCalculator.calculate_holtrop.
  rewrite value_of_bind.
  erewrite (holtrop_zero_volume _ [7.5] 150 20 8 _ 0 0.5);
    try reflexivity; lra.
Qed.

(* ================================================================== *)
(** * The warnings of a run at zero speed *)

Lemma warnings_of_truediv (x y : R) : warnings_of (Py.truediv x y) = [].
Proof. unfold Py.truediv. destruct (Rsign y); reflexivity. Qed.

Lemma warnings_of_pow (x y : R) : warnings_of (Py.pow x y) = [].
Proof. unfold Py.pow. destruct (Rsign x); [destruct (Rsign y) | | ]; reflexivity. Qed.

Ltac sign_facts :=
  match goal with
  | |- context [Rsign ?r] =>
      first
        [ rewrite (Rsign_pos r) by (first [assumption | lra])
        | rewrite (Rsign_neg r) by (first [assumption | lra])
        | replace r with 0 by (unfold Rdiv; ring); rewrite Rsign_zero ]
  end.

Ltac run_np :=
  cbn [bind ret throw lift1 lift2 ufunc1 ufunc2 collect map fold_right fst snd
       app report flags_or fe_divide fe_invalid quiet divide_by_zero invalid_value
       Np.add Np.subtract Np.multiply Np.divide Np.sqrt Np.log10 Np.exp Np.square
       Np.negative Np.scale_inf py np sq np_sqrt np_log10 np_exp asarray column
       Py.number List.length Nat.eqb combine orb
       warnings_of value_of].

Ltac run_line := unfold warnings_of; run_np; repeat (sign_facts; run_np); try reflexivity.

(** What [calculate_holtrop] prints for the single speed 0, line by line. *)
Section ZeroSpeedRun.
Variable self : ResistanceCalculator.t.
Variables L B T S V LCB : R.
Hypothesis L_is : HullParameters.L (ResistanceCalculator.hull self) = L.
Hypothesis B_is : HullParameters.B (ResistanceCalculator.hull self) = B.
Hypothesis T_is : HullParameters.T (ResistanceCalculator.hull self) = T.
Hypothesis S_is : HullParameters.S (ResistanceCalculator.hull self) = Some S.
Hypothesis V_is : HullParameters.V (ResistanceCalculator.hull self) = Some V.
Hypothesis LCB_is : HullParameters.LCB (ResistanceCalculator.hull self) = Some LCB.
Hypothesis L_pos : 0 < L.
Hypothesis B_pos : 0 < B.
Hypothesis T_pos : 0 < T.
Hypothesis V_pos : 0 < V.

Lemma froude_quiet :
  warnings_of (np (asarray [0]) / np_sqrt (py (Config.GRAVITY * L)))%np = [].
Proof.
  assert (0 < Config.GRAVITY * L) as F1 by (unfold Config.GRAVITY; lra).
  assert (0 < sqrt (Config.GRAVITY * L)) as F2 by (apply sqrt_lt_R0; exact F1).
  run_line.
Qed.

Lemma reynolds_quiet :
  warnings_of (np (asarray [0]) * py L / py Config.KINEMATIC_VISCOSITY)%np = [].
Proof.
  assert (0 < Config.KINEMATIC_VISCOSITY) by (unfold Config.KINEMATIC_VISCOSITY; lra).
  run_line.
Qed.

Lemma friction_coefficient_log10_warns :
  warnings_of (py 0.075 /
               sq (np_log10 (np (column (fun v => Fin (HoltropSpec.Rn L v)) [0]))
                   - py 2))%np
  = [RuntimeWarning DivideByZero "log10"].
Proof. unfold HoltropSpec.Rn. run_line. Qed.

Lemma friction_quiet :
  warnings_of (py (0.5 * Config.WATER_DENSITY) * sq (np (asarray [0]))
               * (s <- Py.number (Some S) ;; py s)
               * np (column (HoltropSpec.CF L) [0]))%np
  = [].
Proof. unfold column. cbn [map]. rewrite CF_zero_speed. run_line. Qed.

Lemma c2_quiet :
  warnings_of (np_exp (py (-1.89) * np_sqrt (py (HoltropSpec.c1 L B)))%np) = [].
Proof. pose proof (c1_pos L B) as F. run_line. Qed.

Lemma c3_quiet :
  warnings_of (py (0.56 * Rpower (B * T) 1.5) /
               ((v <- Py.number (Some V) ;; py v)
                * (py 0.31 * np_sqrt (py (B * T)) + py T)))%np
  = [].
Proof.
  assert (0 < B * T) as F4 by (apply Rmult_lt_0_compat; assumption).
  pose proof (c3_denominator_pos B T V T_pos V_pos) as F6.
  run_line.
Qed.

Lemma residual_divide_warns (c2 c3 c12 c13 : R) :
  0 < c12 ->
  warnings_of (py (V * Config.WATER_DENSITY * Config.GRAVITY)
               * np (Scalar (Fin c2)) * np (Scalar (Fin c3))
               * (p <- Py.pow c12 0.004 ;; py p)
               * np_exp (py (-0.9) / np (column (fun v => Fin (HoltropSpec.Fn L v)) [0]))
               * py c13)%np
  = [RuntimeWarning DivideByZero "divide"].
Proof.
  intros H. unfold HoltropSpec.Fn, Py.pow. rewrite Rsign_pos by exact H.
  run_line.
Qed.

Lemma holtrop_zero_speed_warnings :
  warnings_of (ResistanceCalculator.holtrop self [0])
  = [RuntimeWarning DivideByZero "log10"; RuntimeWarning DivideByZero "divide"].
Proof.
  assert (0 < L ^ 3 / V) as F7
    by (apply Rdiv_lt_0_compat; [apply pow_lt; assumption | assumption]).
  unfold ResistanceCalculator.holtrop, ResistanceCalculator.holtrop_array.
  rewrite L_is, B_is, T_is, S_is, V_is, LCB_is.
  replace (90 - 0.3) with 89.7 by lra.
  rewrite warnings_of_bind, froude_quiet, froude_value by assumption. cbn [app].
  rewrite warnings_of_bind, reynolds_quiet, reynolds_value. cbn [app].
  rewrite warnings_of_bind, friction_coefficient_log10_warns,
    friction_coefficient_value. cbn [app].
  rewrite warnings_of_bind, friction_quiet, friction_value. cbn [app].
  rewrite warnings_of_bind, warnings_of_truediv, value_of_truediv by lra. cbn [app].
  rewrite warnings_of_bind, warnings_of_pow, value_of_pow
    by (apply Rdiv_lt_0_compat; assumption). cbn [app].
  rewrite warnings_of_bind, warnings_of_pow, value_of_pow by lra. cbn [app].
  fold (HoltropSpec.c1 L B).
  rewrite warnings_of_bind, c2_quiet, c2_value by assumption. cbn [app].
  rewrite warnings_of_bind, warnings_of_pow, value_of_pow
    by (apply Rmult_lt_0_compat; assumption). cbn [app].
  rewrite warnings_of_bind, c3_quiet, c3_value by (try assumption; lra). cbn [app].
  rewrite warnings_of_bind. cbn [Py.number ret warnings_of value_of fst snd app].
  rewrite warnings_of_bind, warnings_of_truediv, value_of_truediv by lra. cbn [app].
  rewrite warnings_of_bind. cbn [Py.number ret warnings_of value_of fst snd app].
  rewrite warnings_of_bind, residual_divide_warns, residual_value by assumption.
  cbn [app]. f_equal. f_equal.
  unfold column. cbn [map].
  unfold HoltropSpec.RF. rewrite CF_zero_speed.
  unfold HoltropSpec.Fn.
  replace (0 / sqrt (9.81 * L)) with 0 by (unfold Rdiv; ring).
  unfold xdiv. rewrite divide_neg_zero by lra.
  unfold xmul, xexp. cbn [Np.exp Np.multiply fst].
  run_line.
Qed.
End ZeroSpeedRun.

Lemma warnings_of_calculate_holtrop (self : ResistanceCalculator.t) (l : list R) :
  warnings_of (ResistanceCalculator.calculate_holtrop self l)
  = warnings_of (ResistanceCalculator.holtrop self l).
Proof.
  unfold ResistanceCalculator.calculate_holtrop. rewrite warnings_of_bind.
  destruct (value_of (ResistanceCalculator.holtrop self l)); cbn;
    apply app_nil_r.
Qed.

(* ================================================================== *)
(** * The singular speeds of the Holtrop method *)

Lemma singular_speed_pos (L v : R) :
  0 < L -> v * L / 1.1892e-6 = 100 -> 0 < v.
Proof.
  intros HL E.
  assert (v * L = 100 * 1.1892e-6) as E'.
  { rewrite <- E. unfold Rdiv. rewrite Rmult_assoc, Rinv_l by lra. ring. }
  destruct (Rlt_dec 0 v) as [Hv | Hv]; [exact Hv | exfalso].
  assert (v * L <= 0) by nra. lra.
Qed.

Lemma singular_row (L B T s vol lcb v : R) :
  0 < L -> v * L / 1.1892e-6 = 100 ->
  HoltropSpec.CF L v = PInf
  /\ (0 < s ->
      HoltropSpec.RF L s v = PInf
      /\ HoltropSpec.RT L B T s vol lcb v = PInf).
Proof.
  intros HL E. pose proof (singular_speed_pos L v HL E) as Hv.
  pose proof (CF_singular L v E) as ECF.
  split; [exact ECF | ].
  intros Hs.
  assert (HoltropSpec.RF L s v = PInf) as ERF.
  { unfold HoltropSpec.RF. rewrite ECF. unfold xmul.
    cbn [Np.multiply]. unfold Np.scale_inf.
    rewrite Rsign_pos; [reflexivity | ].
    assert (0 < v ^ 2) by (apply pow_lt; exact Hv).
    assert (0 < 0.5 * 1025 * v ^ 2) by nra.
    apply Rmult_lt_0_compat; assumption. }
  split; [exact ERF | ].
  unfold HoltropSpec.RT. rewrite ERF, (RR_regular L B T vol lcb HL v Hv).
  reflexivity.
Qed.

Lemma negative_row (L B T s vol lcb v : R) :
  0 < L -> v < 0 ->
  HoltropSpec.CF L v = NaN
  /\ HoltropSpec.RF L s v = NaN
  /\ HoltropSpec.RT L B T s vol lcb v = NaN.
Proof.
  intros HL Hv. pose proof (CF_negative_speed L HL v Hv) as ECF.
  split; [exact ECF | ].
  assert (HoltropSpec.RF L s v = NaN) as ERF
    by (unfold HoltropSpec.RF; rewrite ECF; reflexivity).
  split; [exact ERF | ].
  unfold HoltropSpec.RT. rewrite ERF. reflexivity.
Qed.

Section ClaimsOnSingularSpeeds.
Context {fmt : PyFormat}.
Variables (L B T CB : R) (CM LCB S V APP : option R).
Variable h : HullParameters.t.
Variable old : option ResistanceCalculator.results_dict.
Variable speeds : list R.
Hypothesis constructed : HullParameters.__init__ L B T CB CM LCB S V APP = Ok h.
Hypothesis volume_pos : forall v0, V = Some v0 -> 0 < v0.

Let self := ResistanceCalculator.Build_t h old.

(* the hypotheses of the step lemmas, for the constructed hull *)
Lemma constructed_calculator :
  exists s vol lcb,
    HullParameters.L (ResistanceCalculator.hull self) = L
    /\ HullParameters.B (ResistanceCalculator.hull self) = B
    /\ HullParameters.T (ResistanceCalculator.hull self) = T
    /\ HullParameters.S (ResistanceCalculator.hull self) = Some s
    /\ HullParameters.V (ResistanceCalculator.hull self) = Some vol
    /\ HullParameters.LCB (ResistanceCalculator.hull self) = Some lcb
    /\ 0 < L /\ 0 < B /\ 0 < T /\ 0 < vol
    /\ value_of (ResistanceCalculator.calculate_holtrop self speeds)
       = Ok (ResistanceCalculator.store self (holtrop_columns L B T s vol lcb speeds),
             holtrop_columns L B T s vol lcb speeds).
Proof.
  destruct (constructed_dimensions _ _ _ _ _ _ _ _ _ _ constructed)
    as [(HL & HB & HT & HC) (EL & EB & ET & EC)].
  destruct (constructed_fields _ _ _ _ _ _ _ _ _ _ constructed)
    as (s & vol & lcb & Hs & Hvol & Hlcb & _).
  pose proof (constructed_volume_pos _ _ _ _ _ _ _ _ _ _ _ constructed volume_pos Hvol)
    as Hpos.
  exists s, vol, lcb. cbn [self ResistanceCalculator.hull].
  repeat (split; [assumption | ]).
  apply (holtrop_on_constructed _ _ _ _ _ _ _ _ _ _ constructed); assumption.
Qed.

(** C6 (amended).  calculate_holtrop checks no speed and raises no
    error: for every constructed hull with a positive volume and every
    sequence of speeds it returns a result set.  At a speed whose Reynolds
    number is exactly 100 the division 0.075/(log10(Rn)-2)^2 is evaluated
    with a zero denominator: CF is +inf (and with S > 0 so are RF and RT)
    and NumPy warns of the division by zero.  At a negative speed log10
    receives a negative number: CF, RF and RT are nan and NumPy warns of
    the invalid value. *)
Theorem friction_singularity_is_unguarded :
  exists s r,
    HullParameters.S h = Some s
    /\ value_of (ResistanceCalculator.calculate_holtrop self speeds)
       = Ok (ResistanceCalculator.store self r, r)
    /\ (forall i v, nth_error speeds i = Some v -> v * L / 1.1892e-6 = 100 ->
          entry r "reynolds" i = Some (Fin 100)
          /\ entry r "cf_coefficient" i = Some PInf
          /\ (0 < s -> entry r "resistance_friction_N" i = Some PInf
                       /\ entry r "resistance_total_N" i = Some PInf)
          /\ In (RuntimeWarning DivideByZero "divide")
                (warnings_of (ResistanceCalculator.calculate_holtrop self speeds)))
    /\ (forall i v, nth_error speeds i = Some v -> v < 0 ->
          entry r "cf_coefficient" i = Some NaN
          /\ entry r "resistance_friction_N" i = Some NaN
          /\ entry r "resistance_total_N" i = Some NaN
          /\ In (RuntimeWarning InvalidValue "log10")
                (warnings_of (ResistanceCalculator.calculate_holtrop self speeds))).
Proof.
  destruct constructed_calculator
    as (s & vol & lcb & EL & EB & ET & ES & EV & ELCB & HL & HB & HT & Hvol & Hrun).
  exists s, (holtrop_columns L B T s vol lcb speeds).
  split; [exact ES | ]. split; [exact Hrun | ]. split.
  - intros i v Hv E.
    destruct (singular_row L B T s vol lcb v HL E) as (ECF & Hinf).
    split; [entry_by_column; unfold HoltropSpec.Rn; rewrite E; reflexivity | ].
    split; [entry_by_column; exact ECF | ].
    split.
    + intros Hs. destruct (Hinf Hs) as (ERF & ERT).
      split; entry_by_column; assumption.
    + rewrite warnings_of_calculate_holtrop.
      apply (holtrop_divides_by_zero_friction self speeds L B T s vol lcb)
        with (v := v); try assumption.
      apply (nth_error_In speeds i). exact Hv.
  - intros i v Hv Hneg.
    destruct (negative_row L B T s vol lcb v HL Hneg) as (ECF & ERF & ERT).
    split; [entry_by_column; exact ECF | ].
    split; [entry_by_column; exact ERF | ].
    split; [entry_by_column; exact ERT | ].
    rewrite warnings_of_calculate_holtrop.
    apply (holtrop_invalid_log10 self speeds L B T s vol lcb)
      with (v := v); try assumption.
    apply (nth_error_In speeds i). exact Hv.
Qed.

End ClaimsOnSingularSpeeds.

Lemma no_supplied_volume : forall v0 : R, @None R = Some v0 -> 0 < v0.
Proof. intros v0 E. discriminate E. Qed.

(** C5, as stated, fails: at the speed 0 the division [-0.9/Fn] is
    evaluated with Fn = 0.  It yields -inf with NumPy's warning of a
    division by zero, and the warning is among the two the call prints. *)
Lemma zero_speed_division_is_evaluated :
  exists r,
    value_of (ResistanceCalculator.calculate_holtrop
                (ResistanceCalculator.__init__ scenario_hull) [0])
    = Ok (ResistanceCalculator.store
            (ResistanceCalculator.__init__ scenario_hull) r, r)
    /\ ResistanceCalculator.lookup "froude" r = Some (Array [Fin 0])
    /\ (py (-0.9) / np (Array [Fin 0]))%np
       = (Ok (Array [NInf]), [RuntimeWarning DivideByZero "divide"])
    /\ warnings_of (ResistanceCalculator.calculate_holtrop
                      (ResistanceCalculator.__init__ scenario_hull) [0])
       = [RuntimeWarning DivideByZero "log10"; RuntimeWarning DivideByZero "divide"].
Proof.
  destruct (constructed_calculator (fmt := spec_only_format)
              150 20 8 0.70 None None None None None
              scenario_hull None [0] scenario_hull_constructed no_supplied_volume)
    as (s & vol & lcb & EL & EB & ET & ES & EV & ELCB & HL & HB & HT & Hvol & Hrun).
  exists (holtrop_columns 150 20 8 s vol lcb [0]).
  split; [exact Hrun | ].
  split.
  { change (Some (Array [Fin (HoltropSpec.Fn 150 0)]) = Some (Array [Fin 0])).
    unfold HoltropSpec.Fn.
    replace (0 / sqrt (9.81 * 150)) with 0 by (unfold Rdiv; ring). reflexivity. }
  split.
  { run_np. rewrite Rsign_zero. rewrite Rsign_neg by lra. reflexivity. }
  rewrite warnings_of_calculate_holtrop.
  apply (holtrop_zero_speed_warnings _ 150 20 8 s vol lcb); assumption.
Qed.

Lemma friction_singularity_is_unguarded_witness :
  exists r,
    value_of (ResistanceCalculator.calculate_holtrop
                (ResistanceCalculator.__init__ short_hull) [1.1892e-6; -1])
    = Ok (ResistanceCalculator.store
            (ResistanceCalculator.__init__ short_hull) r, r)
    /\ entry r "cf_coefficient" 0 = Some PInf
    /\ entry r "cf_coefficient" 1 = Some NaN.
Proof.
  destruct (friction_singularity_is_unguarded (fmt := spec_only_format)
              100 20 8 0.70 None None None None None
              short_hull None [1.1892e-6; -1] short_hull_constructed
              no_supplied_volume)
    as (s & r & Hs & Hrun & Hsing & Hneg).
  exists r. split; [exact Hrun | ].
  destruct (Hsing 0%nat 1.1892e-6 eq_refl ltac:(lra)) as (_ & H1 & _).
  destruct (Hneg 1%nat (-1) eq_refl ltac:(lra)) as (H2 & _).
  split; [exact H1 | exact H2].
Defined.

(** C6, as stated, fails: with L = 100 the speed 1.1892e-6 m/s has
    Rn = 100 exactly, and calculate_holtrop returns a result set whose
    friction coefficient is +inf there, and nan at the speed -1; no error
    is raised. *)
Lemma holtrop_returns_infinite_friction :
  exists r,
    value_of (ResistanceCalculator.calculate_holtrop
                (ResistanceCalculator.__init__ short_hull) [1.1892e-6; -1])
    = Ok (ResistanceCalculator.store
            (ResistanceCalculator.__init__ short_hull) r, r)
    /\ entry r "reynolds" 0 = Some (Fin 100)
    /\ entry r "cf_coefficient" 0 = Some PInf
    /\ entry r "cf_coefficient" 1 = Some NaN.
Proof.
  destruct (constructed_calculator (fmt := spec_only_format)
              100 20 8 0.70 None None None None None
              short_hull None [1.1892e-6; -1] short_hull_constructed
              no_supplied_volume)
    as (s & vol & lcb & EL & EB & ET & ES & EV & ELCB & HL & HB & HT & Hvol & Hrun).
  exists (holtrop_columns 100 20 8 s vol lcb [1.1892e-6; -1]).
  split; [exact Hrun | ].
  assert (1.1892e-6 * 100 / 1.1892e-6 = 100) as E by lra.
  split.
  { eapply entry_of_column; [reflexivity | reflexivity | ].
    unfold HoltropSpec.Rn. rewrite E. reflexivity. }
  split.
  { eapply entry_of_column; [reflexivity | reflexivity | ].
    apply CF_singular. exact E. }
  eapply entry_of_column; [reflexivity | reflexivity | ].
  apply CF_negative_speed; lra.
Qed.

(* ================================================================== *)
(** * The stored result set *)

Section ClaimsOnTheEngine.
Context {fmt : PyFormat}.
Import ResistanceCalculator.

Lemma compute_ignores_stored_results (hull : HullParameters.t)
    (old : option results_dict) (speeds : list R) :
  calculate_holtrop (Build_t hull old) speeds
    = bind (holtrop (__init__ hull) speeds)
           (fun r => ret (Build_t hull (Some r), r))
  /\ calculate_simple (Build_t hull old) speeds
    = bind (simple (__init__ hull) speeds)
           (fun r => ret (Build_t hull (Some r), r)).
Proof. split; reflexivity. Qed.

Lemma compute_stores (m : M results_dict) (hull : HullParameters.t)
    (self' : t) (r : results_dict) :
  value_of (bind m (fun r => ret (Build_t hull (Some r), r))) = Ok (self', r) ->
  value_of m = Ok r /\ self' = Build_t hull (Some r).
Proof.
  rewrite value_of_bind. destruct (value_of m) as [r0 | e]; cbn.
  - intros E. injection E as <- <-. split; reflexivity.
  - intros E. discriminate E.
Qed.

(** C7. A new calculator holds no result, and while it holds none
    export_results, plot_results and print_summary raise the ValueError
    "Execute o cálculo primeiro", whatever their arguments.  A compute
    call that succeeds leaves a calculator that holds exactly the result
    set returned, computed from the hull alone: what was stored before
    plays no part and is gone.  A compute call that raises leaves the
    calculator as it was.  With a result stored, export_results succeeds. *)
Theorem engine_holds_the_last_result (cfg : Config.t) (hull : HullParameters.t)
    (old : option results_dict) (speeds : list R)
    (filename save_path language : option string) (timestamp : string) :
  results (__init__ hull) = None
  /\ value_of (export_results (__init__ hull) filename timestamp)
     = Raise (ValueError "Execute o cálculo primeiro")
  /\ value_of (plot_results cfg (__init__ hull) save_path language)
     = Raise (ValueError "Execute o cálculo primeiro")
  /\ value_of (print_summary cfg (__init__ hull) language)
     = Raise (ValueError "Execute o cálculo primeiro")
  /\ (forall self' r,
        value_of (calculate_holtrop (Build_t hull old) speeds) = Ok (self', r) ->
        self' = Build_t hull (Some r)
        /\ value_of (calculate_holtrop (__init__ hull) speeds) = Ok (self', r))
  /\ (forall self' r,
        value_of (calculate_simple (Build_t hull old) speeds) = Ok (self', r) ->
        self' = Build_t hull (Some r)
        /\ value_of (calculate_simple (__init__ hull) speeds) = Ok (self', r))
  /\ (forall e,
        value_of (calculate_holtrop (Build_t hull old) speeds) = Raise e ->
        after (Build_t hull old) (calculate_holtrop (Build_t hull old) speeds)
        = Build_t hull old)
  /\ (forall e,
        value_of (calculate_simple (Build_t hull old) speeds) = Raise e ->
        after (Build_t hull old) (calculate_simple (Build_t hull old) speeds)
        = Build_t hull old)
  /\ (forall r,
        exists path,
          value_of (export_results (Build_t hull (Some r)) filename timestamp)
          = Ok (path, [ToCsv path r "%.4f"]))
  /\ (forall L B T CB CM LCB S V APP,
        HullParameters.__init__ L B T CB CM LCB S V APP = Ok hull ->
        forall speeds2, exists e1 r1 e2 r2,
          value_of (calculate_simple (__init__ hull) speeds) = Ok (e1, r1)
          /\ results e1 = Some r1
          /\ value_of (calculate_simple e1 speeds2) = Ok (e2, r2)
          /\ results e2 = Some r2
          /\ value_of (calculate_simple (__init__ hull) speeds2) = Ok (e2, r2)).
Proof.
  destruct (compute_ignores_stored_results hull old speeds) as [EH ES].
  destruct (compute_ignores_stored_results hull None speeds) as [EH0 ES0].
  do 4 (split; [reflexivity | ]).
  split.
  { intros self' r H. split.
    - rewrite EH in H. apply compute_stores in H. apply H.
    - change (__init__ hull) with (Build_t hull None).
      rewrite EH0. rewrite EH in H. exact H. }
  split.
  { intros self' r H. split.
    - rewrite ES in H. apply compute_stores in H. apply H.
    - change (__init__ hull) with (Build_t hull None).
      rewrite ES0. rewrite ES in H. exact H. }
  split; [intros e H; unfold after; rewrite H; reflexivity | ].
  split; [intros e H; unfold after; rewrite H; reflexivity | ].
  split; [intros r; eexists; reflexivity | ].
  intros L B T CB CM LCB S V APP Hh speeds2.
  destruct (constructed_fields _ _ _ _ _ _ _ _ _ _ Hh) as (s & vol & lcb & Hs & _).
  pose proof (simple_on_constructed _ _ _ _ _ _ _ _ _ _ Hh None speeds s Hs) as R1.
  pose proof (simple_on_constructed _ _ _ _ _ _ _ _ _ _ Hh
                (Some (simple_columns L s speeds)) speeds2 s Hs) as R2.
  pose proof (simple_on_constructed _ _ _ _ _ _ _ _ _ _ Hh None speeds2 s Hs) as R3.
  cbv zeta in R1, R2, R3.
  do 4 eexists.
  split; [exact R1 | ]. split; [reflexivity | ].
  split; [exact R2 | ]. split; [reflexivity | exact R3].
Qed.

End ClaimsOnTheEngine.

Lemma engine_holds_the_last_result_witness :
  exists e1 r1 e2 r2,
    value_of (ResistanceCalculator.calculate_simple
                (ResistanceCalculator.__init__ scenario_hull) [5])
    = Ok (e1, r1)
    /\ ResistanceCalculator.results e1 = Some r1
    /\ value_of (ResistanceCalculator.calculate_simple e1 [7.5]) = Ok (e2, r2)
    /\ ResistanceCalculator.results e2 = Some r2
    /\ value_of (ResistanceCalculator.calculate_simple
                   (ResistanceCalculator.__init__ scenario_hull) [7.5])
       = Ok (e2, r2).
Proof.
  destruct (engine_holds_the_last_result (fmt := spec_only_format)
              Config.initial scenario_hull None [5] None None None EmptyString)
    as (_ & _ & _ & _ & _ & _ & _ & _ & _ & Htwice).
  exact (Htwice 150 20 8 0.70 None None None None None
           scenario_hull_constructed [7.5]).
Defined.

(* ================================================================== *)
(** * The summary and the global language *)

Lemma language_or_some (c : ascii) (s : string) (cfg : Config.t) :
  language_or (Some (String c s)) cfg = String c s.
Proof. reflexivity. Qed.

Lemma language_or_default (cfg : Config.t) :
  language_or None cfg = Config.LANGUAGE cfg
  /\ language_or (Some EmptyString) cfg = Config.LANGUAGE cfg
  /\ language_or (Some (Config.LANGUAGE cfg)) cfg = Config.LANGUAGE cfg.
Proof.
  repeat split. unfold language_or. destruct (Config.LANGUAGE cfg); reflexivity.
Qed.

Section ClaimsOnTheSummary.
Context {fmt : PyFormat}.
Local Open Scope string_scope.

(** C9 (amended).  summary returns a string (or the TypeError of a field
    that is None) and nothing else.  When the language argument is a
    non-empty string the result is a function of the geometry and of that
    argument alone: "portuguese" selects the Portuguese labels and any
    other string the English ones, whatever Config.LANGUAGE holds.  When
    the argument is omitted, None or empty, the global Config.LANGUAGE is
    read in its place.  For a constructed hull the result is a string. *)
Theorem summary_reads_global_language_by_default
    (cfg cfg' : Config.t) (h : HullParameters.t) (c : ascii) (s : string) :
  HullParameters.summary cfg h (Some (String c s))
    = HullParameters.summary cfg' h (Some (String c s))
  /\ HullParameters.summary cfg h (Some "portuguese")
     = HullParameters.report h HullParameters.labels_pt
  /\ (String c s <> "portuguese" ->
      HullParameters.summary cfg h (Some (String c s))
      = HullParameters.report h HullParameters.labels_en)
  /\ HullParameters.summary cfg h None
     = HullParameters.summary cfg h (Some (Config.LANGUAGE cfg))
  /\ HullParameters.summary cfg h (Some "")
     = HullParameters.summary cfg h (Some (Config.LANGUAGE cfg))
  /\ (forall L B T CB CM LCB S V APP language,
        HullParameters.__init__ L B T CB CM LCB S V APP = Ok h ->
        exists text, HullParameters.summary cfg h language = Ok text).
Proof.
  split; [reflexivity | ].
  split; [reflexivity | ].
  split.
  { intros N. unfold HullParameters.summary. rewrite language_or_some.
    destruct (String.eqb (String c s) "portuguese") eqn:E; [ | reflexivity].
    apply String.eqb_eq in E. contradiction. }
  destruct (language_or_default cfg) as (E1 & E2 & E3).
  split; [unfold HullParameters.summary; rewrite E1, E3; reflexivity | ].
  split; [unfold HullParameters.summary; rewrite E2, E3; reflexivity | ].
  intros L B T CB CM LCB S V APP language Hh.
  destruct (init_inversion _ _ _ _ _ _ _ _ _ _ Hh) as [_ ->].
  unfold HullParameters.summary.
  destruct (String.eqb (language_or language cfg) "portuguese");
    eexists; reflexivity.
Qed.

End ClaimsOnTheSummary.

Lemma summary_reads_global_language_by_default_witness :
  HullParameters.summary (fmt := spec_only_format)
    {| Config.LANGUAGE := "portuguese" |} scenario_hull (Some "english"%string)
  = HullParameters.report (fmt := spec_only_format)
      scenario_hull HullParameters.labels_en
  /\ exists text,
       HullParameters.summary (fmt := spec_only_format)
         {| Config.LANGUAGE := "portuguese" |} scenario_hull None = Ok text.
Proof.
  destruct (summary_reads_global_language_by_default (fmt := spec_only_format)
              {| Config.LANGUAGE := "portuguese" |} Config.initial scenario_hull
              "e"%char "nglish"%string)
    as (_ & _ & Hen & _ & _ & Hok).
  split.
  - apply Hen. intros E. discriminate E.
  - exact (Hok 150 20 8 0.70 None None None None None None
             scenario_hull_constructed).
Defined.

(** C9, as stated, fails: without a language argument two calls on the
    same geometry differ with the global Config.LANGUAGE. *)
Lemma summary_depends_on_global_language :
  HullParameters.summary (fmt := spec_only_format)
    {| Config.LANGUAGE := "english" |} scenario_hull None
  <> HullParameters.summary (fmt := spec_only_format)
       {| Config.LANGUAGE := "portuguese" |} scenario_hull None.
Proof.
  unfold HullParameters.summary, language_or. cbn [Config.LANGUAGE String.eqb].
  unfold scenario_hull, bare_hull, HullParameters._calculate_missing_parameters.
  cbn -[Rmult Rplus Rminus Rdiv sqrt PI pow].
  intros E. discriminate E.
Qed.

(* ================================================================== *)
(** * Monotonicity of the total resistance *)





Section Monotone.
Variables L B T S V LCB : R.
Hypothesis L_pos : 0 < L.
Hypothesis B_pos : 0 < B.
Hypothesis T_pos : 0 < T.
Hypothesis S_nonneg : 0 <= S.










End Monotone.

Section ClaimOnMonotonicity.
Context {fmt : PyFormat}.
Local Open Scope string_scope.


End ClaimOnMonotonicity.






(* ================================================================== *)
(** * Constructed hulls are complete *)

Section ConstructedHulls.
Context {fmt : PyFormat}.

(** X1. A constructed hull has its five optional fields set, passes the
    validation again, and is left as it is by the completion: running
    __post_init__ on it a second time returns the same object. *)
Theorem post_init_is_idempotent (L B T CB : R) (CM LCB S V APP : option R)
    (h : HullParameters.t) :
  HullParameters.__init__ L B T CB CM LCB S V APP = Ok h ->
  (exists cm lcb s v app,
      HullParameters.CM h = Some cm /\ HullParameters.LCB h = Some lcb
      /\ HullParameters.S h = Some s /\ HullParameters.V h = Some v
      /\ HullParameters.APP h = Some app)
  /\ HullParameters._validate_parameters h = Ok tt
  /\ HullParameters._calculate_missing_parameters h = h
  /\ HullParameters.__post_init__ h = Ok h.
Proof.
  intros Hh.
  destruct (init_inversion _ _ _ _ _ _ _ _ _ _ Hh) as [(HL & HB & HT & HC) ->].
  set (h := HullParameters._calculate_missing_parameters
              (HullParameters.Build_t L B T CB CM LCB S V APP)).
  assert (HullParameters._validate_parameters h = Ok tt) as Hvalid.
  { unfold HullParameters._validate_parameters.
    rewrite (proj2 (validation_errors_nil h)); [reflexivity | ].
    unfold h. simpl. repeat split; assumption || apply HC. }
  assert (HullParameters._calculate_missing_parameters h = h) as Hsame.
  { unfold h. destruct CM, LCB, S, V, APP; reflexivity. }
  split.
  { unfold h. simpl. do 5 eexists. repeat split; reflexivity. }
  split; [exact Hvalid | ].
  split; [exact Hsame | ].
  unfold HullParameters.__post_init__. rewrite Hvalid, Hsame. reflexivity.
Qed.

End ConstructedHulls.

Lemma post_init_is_idempotent_witness :
  HullParameters.__post_init__ (fmt := spec_only_format) scenario_hull
  = Ok scenario_hull.
Proof.
  apply (post_init_is_idempotent (fmt := spec_only_format)
           150 20 8 0.70 None None None None None scenario_hull
           scenario_hull_constructed).
Defined.

(* ================================================================== *)
(** * Calls that issue no warning *)

Lemma collect_quiet (l : list (npfloat * fpflags)) :
  (forall p, In p l -> snd p = quiet) -> snd (collect l) = quiet.
Proof.
  induction l as [ | p l IH]; intros H; [reflexivity | ].
  unfold collect. cbn [fold_right snd].
  rewrite (H p (or_introl eq_refl)).
  change (fold_right (fun p acc => flags_or (snd p) acc) quiet l)
    with (snd (collect l)).
  rewrite IH; [reflexivity | ].
  intros q Hq. apply H. right. exact Hq.
Qed.

Lemma collect_map_quiet {A} (f : A -> npfloat * fpflags) (l : list A) :
  (forall x, In x l -> snd (f x) = quiet) -> snd (collect (map f l)) = quiet.
Proof.
  intros H. apply collect_quiet. intros p Hp.
  apply in_map_iff in Hp. destruct Hp as (x & <- & Hx). apply H. exact Hx.
Qed.

Lemma ufunc1_quiet name (f : npfloat -> npfloat * fpflags) (a : value) :
  (forall x, In x (samples a) -> snd (f x) = quiet) ->
  warnings_of (ufunc1 name f a) = [].
Proof.
  intros H. destruct a as [x | xs]; unfold ufunc1, warnings_of.
  - cbn [snd]. rewrite (H x) by (left; reflexivity). reflexivity.
  - pose proof (collect_map_quiet f xs H) as Q.
    destruct (collect (map f xs)) as [ys fl]. cbn [snd] in *.
    rewrite Q. reflexivity.
Qed.

Lemma ufunc2_quiet name (f : npfloat -> npfloat -> npfloat * fpflags)
    (a b : value) :
  (forall p, In p (pairs a b) -> snd (f (fst p) (snd p)) = quiet) ->
  warnings_of (ufunc2 name f a b) = [].
Proof.
  intros H. destruct a as [x | xs], b as [y | ys]; unfold ufunc2, warnings_of.
  - pose proof (H (x, y) (or_introl eq_refl)) as Q. cbn [fst snd] in *.
    rewrite Q. reflexivity.
  - assert (snd (collect (map (f x) ys)) = quiet) as Q.
    { apply collect_map_quiet. intros y Hy.
      apply (H (x, y)). cbn [pairs]. apply (in_map (fun y => (x, y))). exact Hy. }
    destruct (collect (map (f x) ys)) as [zs fl]. cbn [snd] in *.
    rewrite Q. reflexivity.
  - assert (snd (collect (map (fun x => f x y) xs)) = quiet) as Q.
    { apply collect_map_quiet. intros x Hx.
      apply (H (x, y)). cbn [pairs]. apply (in_map (fun x => (x, y))). exact Hx. }
    destruct (collect (map (fun x => f x y) xs)) as [zs fl]. cbn [snd] in *.
    rewrite Q. reflexivity.
  - destruct (Nat.eqb (List.length xs) (List.length ys)); [ | reflexivity].
    assert (snd (collect (map (fun p => f (fst p) (snd p)) (combine xs ys))) = quiet)
      as Q by (apply collect_map_quiet; exact H).
    destruct (collect (map (fun p => f (fst p) (snd p)) (combine xs ys)))
      as [zs fl]. cbn [snd] in *.
    rewrite Q. reflexivity.
Qed.

Lemma in_samples_column {A} (g : A -> npfloat) (l : list A) x :
  In x (samples (column g l)) -> exists v, In v l /\ x = g v.
Proof.
  cbn [samples column]. intros H. apply in_map_iff in H.
  destruct H as (v & <- & Hv). exists v. split; [exact Hv | reflexivity].
Qed.

Lemma in_pairs_column_scalar {A} (g : A -> npfloat) (l : list A) y p :
  In p (pairs (column g l) (Scalar y)) -> exists v, In v l /\ p = (g v, y).
Proof.
  cbn [pairs column]. rewrite map_map. intros H. apply in_map_iff in H.
  destruct H as (v & <- & Hv). exists v. split; [exact Hv | reflexivity].
Qed.

Lemma in_pairs_scalar_column {A} x (g : A -> npfloat) (l : list A) p :
  In p (pairs (Scalar x) (column g l)) -> exists v, In v l /\ p = (x, g v).
Proof.
  cbn [pairs column]. rewrite map_map. intros H. apply in_map_iff in H.
  destruct H as (v & <- & Hv). exists v. split; [exact Hv | reflexivity].
Qed.

Lemma in_pairs_column_column {A} (g h : A -> npfloat) (l : list A) p :
  In p (pairs (column g l) (column h l)) -> exists v, In v l /\ p = (g v, h v).
Proof.
  cbn [pairs column]. rewrite combine_map_map. intros H. apply in_map_iff in H.
  destruct H as (v & <- & Hv). exists v. split; [exact Hv | reflexivity].
Qed.

Lemma in_pairs_scalar_scalar x y p :
  In p (pairs (Scalar x) (Scalar y)) -> p = (x, y).
Proof. intros [<- | []]. reflexivity. Qed.

Lemma warnings_of_lift1_quiet name f (ma : M value) (a : value) :
  value_of ma = Ok a -> warnings_of ma = [] ->
  warnings_of (ufunc1 name f a) = [] ->
  warnings_of (lift1 name f ma) = [].
Proof.
  intros E W U. unfold lift1. rewrite warnings_of_bind, E, W, U. reflexivity.
Qed.

Lemma warnings_of_lift2_quiet name f (ma mb : M value) (a b : value) :
  value_of ma = Ok a -> value_of mb = Ok b ->
  warnings_of ma = [] -> warnings_of mb = [] ->
  warnings_of (ufunc2 name f a b) = [] ->
  warnings_of (lift2 name f ma mb) = [].
Proof.
  intros Ea Eb Wa Wb U. unfold lift2.
  rewrite warnings_of_bind, Ea, Wa. cbn [app].
  rewrite warnings_of_bind, Eb, Wb, U. reflexivity.
Qed.

Lemma divide_quiet (a b : R) : b <> 0 -> snd (Np.divide (Fin a) (Fin b)) = quiet.
Proof.
  intros H. unfold Np.divide. pose proof (Rsign_nonzero b H) as N.
  destruct (Rsign b); [contradiction | reflexivity | reflexivity].
Qed.

Lemma sqrt_quiet (a : R) : 0 <= a -> snd (Np.sqrt (Fin a)) = quiet.
Proof.
  intros H. unfold Np.sqrt, Rsign.
  destruct (total_order_T a 0) as [[Hlt | Heq] | Hgt]; [lra | reflexivity | reflexivity].
Qed.

Lemma log10_quiet (a : R) : 0 < a -> snd (Np.log10 (Fin a)) = quiet.
Proof. intros H. unfold Np.log10. rewrite Rsign_pos by exact H. reflexivity. Qed.

(* walks an expression of lifted operators down to its ufunc calls *)
Ltac quiet_tree :=
  lazymatch goal with
  | |- warnings_of (lift2 _ _ _ _) = [] =>
      eapply warnings_of_lift2_quiet;
      [ np_value; reflexivity | np_value; reflexivity
      | quiet_tree | quiet_tree | ]
  | |- warnings_of (lift1 _ _ _) = [] =>
      eapply warnings_of_lift1_quiet;
      [ np_value; reflexivity | quiet_tree | ]
  | |- _ => reflexivity
  end.

(* the operands of one call, sample by sample *)
Ltac quiet_call :=
  first
    [ apply ufunc2_quiet; intros ?p ?Hp;
      first
        [ apply in_pairs_column_column in Hp; destruct Hp as (?v & ?Hv & ->)
        | apply in_pairs_column_scalar in Hp; destruct Hp as (?v & ?Hv & ->)
        | apply in_pairs_scalar_column in Hp; destruct Hp as (?v & ?Hv & ->)
        | apply in_pairs_scalar_scalar in Hp; subst ];
      cbn [fst snd]
    | apply ufunc1_quiet; intros ?x ?Hx;
      first
        [ apply in_samples_column in Hx; destruct Hx as (?v & ?Hv & ->)
        | destruct Hx as [<- | []] ] ].

(** The lines of the two methods that no speed can make warn. *)
Section QuietLines.
Variable l : list R.
Variables L S : R.
Hypothesis L_pos : 0 < L.

Lemma froude_line_quiet :
  warnings_of (np (asarray l) / np_sqrt (py (Config.GRAVITY * L)))%np = [].
Proof.
  assert (0 < Config.GRAVITY * L) as F by (unfold Config.GRAVITY; lra).
  unfold np_sqrt. quiet_tree.
  - quiet_call. apply sqrt_quiet. lra.
  - quiet_call. rewrite sqrt_fin by lra.
    apply divide_quiet. apply Rgt_not_eq. apply sqrt_lt_R0. exact F.
Qed.

Lemma reynolds_line_quiet :
  warnings_of (np (asarray l) * py L / py Config.KINEMATIC_VISCOSITY)%np = [].
Proof.
  quiet_tree.
  - quiet_call. reflexivity.
  - quiet_call. cbn [Np.multiply fst]. apply divide_quiet.
    unfold Config.KINEMATIC_VISCOSITY. lra.
Qed.

Lemma simple_total_line_quiet :
  warnings_of (py (0.5 * Config.WATER_DENSITY) * sq (np (asarray l))
               * (s <- Py.number (Some S) ;; py s)
               * (py 0.001 + py 0.002
                  * sq (np (column (fun v => Fin (SimpleSpec.Fn L v)) l))))%np
  = [].
Proof.
  unfold sq. quiet_tree; quiet_call; reflexivity.
Qed.

Lemma knots_line_quiet :
  warnings_of (np (asarray l) * py 1.944)%np = [].
Proof. quiet_tree. quiet_call. reflexivity. Qed.

End QuietLines.

Lemma kilo_line_quiet {A} (l : list A) (g : A -> npfloat) :
  warnings_of (np (column g l) / py 1000)%np = [].
Proof.
  quiet_tree. quiet_call.
  destruct (g v) as [a | | | | ]; try reflexivity.
  - apply divide_quiet. lra.
  - unfold Np.divide. rewrite Rsign_pos by lra. reflexivity.
Qed.

Section QuietTails.
Variable l : list R.

Lemma power_line_quiet (f : R -> R) :
  warnings_of (np (column (fun v => Fin (f v)) l) * np (asarray l) / py 1000)%np
  = [].
Proof.
  quiet_tree.
  - quiet_call. reflexivity.
  - quiet_call. cbn [Np.multiply fst]. apply divide_quiet. lra.
Qed.

Lemma total_line_quiet (f g : R -> R) :
  warnings_of (np (column (fun v => Fin (f v)) l)
               + np (column (fun v => Fin (g v)) l))%np = [].
Proof. quiet_tree. quiet_call. reflexivity. Qed.

End QuietTails.

(** [calculate_simple] issues no warning, whatever the speeds. *)
Section SimpleRun.
Variable self : ResistanceCalculator.t.
Variable l : list R.
Variables L S : R.
Hypothesis L_is : HullParameters.L (ResistanceCalculator.hull self) = L.
Hypothesis S_is : HullParameters.S (ResistanceCalculator.hull self) = Some S.
Hypothesis L_pos : 0 < L.

Lemma simple_quiet : warnings_of (ResistanceCalculator.simple self l) = [].
Proof.
  unfold ResistanceCalculator.simple, ResistanceCalculator.simple_array. rewrite L_is, S_is.
  rewrite warnings_of_bind, (froude_line_quiet l L L_pos), (froude_value l L L_pos).
  cbn [app].
  change (fun v => Fin (HoltropSpec.Fn L v)) with (fun v => Fin (SimpleSpec.Fn L v)).
  rewrite warnings_of_bind, simple_total_line_quiet, simple_total_value. cbn [app].
  rewrite warnings_of_bind, knots_line_quiet, knots_value. cbn [app].
  rewrite warnings_of_bind, kilo_line_quiet, (kilo_value l (SimpleSpec.RT L S)).
  cbn [app].
  rewrite warnings_of_bind, power_line_quiet, (power_value l (SimpleSpec.RT L S)).
  reflexivity.
Qed.

End SimpleRun.

(** [calculate_holtrop] at speeds that are positive and whose Reynolds
    number is not 100. *)
Section RegularRun.
Variable self : ResistanceCalculator.t.
Variable l : list R.
Variables L B T S V LCB : R.
Hypothesis L_is : HullParameters.L (ResistanceCalculator.hull self) = L.
Hypothesis B_is : HullParameters.B (ResistanceCalculator.hull self) = B.
Hypothesis T_is : HullParameters.T (ResistanceCalculator.hull self) = T.
Hypothesis S_is : HullParameters.S (ResistanceCalculator.hull self) = Some S.
Hypothesis V_is : HullParameters.V (ResistanceCalculator.hull self) = Some V.
Hypothesis LCB_is : HullParameters.LCB (ResistanceCalculator.hull self) = Some LCB.
Hypothesis L_pos : 0 < L.
Hypothesis B_pos : 0 < B.
Hypothesis T_pos : 0 < T.
Hypothesis V_pos : 0 < V.
Hypothesis regular :
  forall v, In v l -> 0 < v /\ HoltropSpec.Rn L v <> 100.

Lemma friction_coefficient_line_quiet :
  warnings_of (py 0.075 /
               sq (np_log10 (np (column (fun v => Fin (HoltropSpec.Rn L v)) l))
                   - py 2))%np
  = [].
Proof.
  unfold sq, np_log10. quiet_tree; quiet_call;
    destruct (regular v Hv) as [Hpos HRn];
    pose proof (Rn_pos L L_pos v Hpos) as HR.
  - apply log10_quiet. exact HR.
  - rewrite log10_fin by exact HR. reflexivity.
  - rewrite log10_fin by exact HR. reflexivity.
  - rewrite log10_fin by exact HR.
    cbn [Np.subtract Np.negative Np.add Np.square fst].
    apply divide_quiet.
    apply (friction_denominator L L_pos v Hpos HRn).
Qed.

Lemma regular_columns :
  column (HoltropSpec.CF L) l = column (fun v => Fin (HoltropSpec.CF_real L v)) l
  /\ column (HoltropSpec.RF L S) l
     = column (fun v => Fin (HoltropSpec.RF_real L S v)) l
  /\ column (HoltropSpec.RR L B T V LCB) l
     = column (fun v => Fin (HoltropSpec.RR_real L B T V LCB v)) l
  /\ column (HoltropSpec.RT L B T S V LCB) l
     = column (fun v => Fin (HoltropSpec.RT_real L B T S V LCB v)) l.
Proof.
  repeat split; apply column_ext; intros v Hv;
    destruct (regular v Hv) as [Hpos HRn].
  - apply CF_regular; assumption.
  - apply RF_regular; assumption.
  - apply RR_regular; assumption.
  - apply RT_regular; assumption.
Qed.

Lemma friction_line_quiet :
  warnings_of (py (0.5 * Config.WATER_DENSITY) * sq (np (asarray l))
               * (s <- Py.number (Some S) ;; py s)
               * np (column (HoltropSpec.CF L) l))%np
  = [].
Proof.
  destruct regular_columns as (-> & _).
  unfold sq. quiet_tree; quiet_call; reflexivity.
Qed.

Lemma residual_line_quiet (c2 c3 c12 c13 : R) :
  0 < c12 ->
  warnings_of (py (V * Config.WATER_DENSITY * Config.GRAVITY)
               * np (Scalar (Fin c2)) * np (Scalar (Fin c3))
               * (p <- Py.pow c12 0.004 ;; py p)
               * np_exp (py (-0.9) / np (column (fun v => Fin (HoltropSpec.Fn L v)) l))
               * py c13)%np
  = [].
Proof.
  intros H. unfold Py.pow. rewrite Rsign_pos by exact H.
  unfold np_exp. quiet_tree; quiet_call; try reflexivity;
    destruct (regular v Hv) as [Hpos HRn];
    pose proof (Fn_pos L L_pos v Hpos) as HF.
  - apply divide_quiet. lra.
  - rewrite divide_fin by lra. reflexivity.
  - rewrite divide_fin by lra. reflexivity.
  - rewrite divide_fin by lra. reflexivity.
Qed.

Lemma holtrop_regular_quiet :
  warnings_of (ResistanceCalculator.holtrop self l) = [].
Proof.
  assert (0 < L ^ 3 / V) as F7
    by (apply Rdiv_lt_0_compat; [apply pow_lt; assumption | assumption]).
  destruct regular_columns as (ECF & ERF & ERR & ERT).
  unfold ResistanceCalculator.holtrop, ResistanceCalculator.holtrop_array.
  rewrite L_is, B_is, T_is, S_is, V_is, LCB_is.
  replace (90 - 0.3) with 89.7 by lra.
  rewrite warnings_of_bind, (froude_line_quiet l L L_pos), (froude_value l L L_pos).
  cbn [app].
  rewrite warnings_of_bind, reynolds_line_quiet, reynolds_value. cbn [app].
  rewrite warnings_of_bind, friction_coefficient_line_quiet,
    friction_coefficient_value. cbn [app].
  rewrite warnings_of_bind, friction_line_quiet, friction_value. cbn [app].
  rewrite warnings_of_bind, warnings_of_truediv, value_of_truediv by lra. cbn [app].
  rewrite warnings_of_bind, warnings_of_pow, value_of_pow
    by (apply Rdiv_lt_0_compat; assumption). cbn [app].
  rewrite warnings_of_bind, warnings_of_pow, value_of_pow by lra. cbn [app].
  fold (HoltropSpec.c1 L B).
  rewrite warnings_of_bind, c2_quiet, c2_value by assumption. cbn [app].
  rewrite warnings_of_bind, warnings_of_pow, value_of_pow
    by (apply Rmult_lt_0_compat; assumption). cbn [app].
  rewrite warnings_of_bind, c3_quiet, c3_value by (try assumption; lra). cbn [app].
  rewrite warnings_of_bind. cbn [Py.number ret warnings_of value_of fst snd app].
  rewrite warnings_of_bind, warnings_of_truediv, value_of_truediv by lra. cbn [app].
  rewrite warnings_of_bind. cbn [Py.number ret warnings_of value_of fst snd app].
  rewrite warnings_of_bind, residual_line_quiet, residual_value by assumption.
  cbn [app].
  fold (HoltropSpec.c2 L B) (HoltropSpec.c3 B T V) (HoltropSpec.c12 L V)
       (HoltropSpec.c13 LCB).
  match goal with
  | |- context [lift2 _ Np.add (np _) (np ?b)] =>
      replace b with (column (fun v => Fin (HoltropSpec.RR_real L B T V LCB v)) l)
        by (symmetry; exact ERR)
  end.
  rewrite ERF, ECF.
  rewrite warnings_of_bind, total_line_quiet. cbn [app].
  assert (value_of (np (column (fun v => Fin (HoltropSpec.RF_real L S v)) l)
                    + np (column (fun v => Fin (HoltropSpec.RR_real L B T V LCB v)) l))%np
          = Ok (column (fun v => Fin (HoltropSpec.RT_real L B T S V LCB v)) l))
    as EV by (np_value; reflexivity).
  rewrite EV.
  rewrite warnings_of_bind, knots_line_quiet, knots_value. cbn [app].
  rewrite warnings_of_bind, kilo_line_quiet,
    (kilo_value l (HoltropSpec.RT_real L B T S V LCB)). cbn [app].
  rewrite warnings_of_bind, power_line_quiet,
    (power_value l (HoltropSpec.RT_real L B T S V LCB)).
  reflexivity.
Qed.

End RegularRun.

(* ================================================================== *)
(** * More on the two methods *)

Lemma warnings_of_calculate_simple (self : ResistanceCalculator.t) (l : list R) :
  warnings_of (ResistanceCalculator.calculate_simple self l)
  = warnings_of (ResistanceCalculator.simple self l).
Proof.
  unfold ResistanceCalculator.calculate_simple. rewrite warnings_of_bind.
  destruct (value_of (ResistanceCalculator.simple self l)); cbn;
    apply app_nil_r.
Qed.

Lemma entry_in_column (d : ResistanceCalculator.results_dict) (key : string)
    (f : R -> npfloat) (l : list R) (i : nat) (x : npfloat) :
  ResistanceCalculator.lookup key d = Some (column f l) ->
  entry d key i = Some x -> exists v, nth_error l i = Some v /\ x = f v.
Proof.
  intros Hk. unfold entry. rewrite Hk. unfold column.
  rewrite nth_error_map. destruct (nth_error l i) as [v | ]; cbn; intros E.
  - injection E as <-. exists v. split; reflexivity.
  - discriminate E.
Qed.

Section MoreOnTheMethods.
Context {fmt : PyFormat}.
Local Open Scope string_scope.
Variables (L B T CB : R) (CM LCB S V APP : option R).
Variable h : HullParameters.t.
Variable old : option ResistanceCalculator.results_dict.
Variable speeds : list R.
Hypothesis constructed : HullParameters.__init__ L B T CB CM LCB S V APP = Ok h.

Let self := ResistanceCalculator.Build_t h old.

(** X2. calculate_simple issues no warning and stores only finite numbers,
    whatever the (finite) speeds are: zero and negative speeds included. *)
Theorem simple_method_never_warns :
  warnings_of (ResistanceCalculator.calculate_simple self speeds) = []
  /\ exists r,
       value_of (ResistanceCalculator.calculate_simple self speeds)
       = Ok (ResistanceCalculator.store self r, r)
       /\ forall key i x, entry r key i = Some x -> exists a, x = Fin a.
Proof.
  destruct (constructed_dimensions _ _ _ _ _ _ _ _ _ _ constructed)
    as [(HL & HB & HT & HC) (EL & EB & ET & EC)].
  destruct (constructed_fields _ _ _ _ _ _ _ _ _ _ constructed)
    as (s & vol & lcb & Hs & _).
  split.
  - rewrite warnings_of_calculate_simple.
    apply (simple_quiet self speeds L s); assumption.
  - exists (simple_columns L s speeds).
    split; [apply (simple_on_constructed _ _ _ _ _ _ _ _ _ _ constructed); exact Hs | ].
    intros key i x. unfold entry, simple_columns.
    cbn [ResistanceCalculator.lookup].
    repeat match goal with
           | |- context [if ?c then _ else _] => destruct c
           end;
      try (intros E; discriminate E);
      unfold column; rewrite nth_error_map;
      (destruct (nth_error speeds i) as [v | ]; cbn;
       intros E; [injection E as <-; eexists; reflexivity | discriminate E]).
Qed.

(** X3. For a hull with a positive volume, calculate_holtrop issues no warning
    exactly when every speed is positive and has a Reynolds number
    different from 100: a zero speed, a negative speed and the singular
    speed each make NumPy warn, and nothing else does. *)
Theorem holtrop_warns_exactly_at_singular_speeds :
  (forall v0, V = Some v0 -> 0 < v0) ->
  warnings_of (ResistanceCalculator.calculate_holtrop self speeds) = []
  <-> (forall v, In v speeds -> 0 < v /\ v * L / 1.1892e-6 <> 100).
Proof.
  intros volume_pos.
  destruct (constructed_dimensions _ _ _ _ _ _ _ _ _ _ constructed)
    as [(HL & HB & HT & HC) (EL & EB & ET & EC)].
  destruct (constructed_fields _ _ _ _ _ _ _ _ _ _ constructed)
    as (s & vol & lcb & Hs & Hvol & Hlcb & _).
  pose proof (constructed_volume_pos _ _ _ _ _ _ _ _ _ _ _ constructed volume_pos Hvol)
    as Hpos.
  rewrite warnings_of_calculate_holtrop.
  split.
  - intros Hquiet v Hv.
    assert (forall w, ~ In w (warnings_of (ResistanceCalculator.holtrop self speeds)))
      as Hnone by (intros w; rewrite Hquiet; intros []).
    assert (0 < v) as Hvpos.
    { destruct (Rtotal_order v 0) as [Hneg | [Hzero | Hgt]]; [ | | exact Hgt].
      - exfalso. apply (Hnone (RuntimeWarning InvalidValue "log10")).
        apply (holtrop_invalid_log10 self speeds L B T s vol lcb) with (v := v);
          assumption.
      - exfalso. apply (Hnone (RuntimeWarning DivideByZero "divide")).
        apply (holtrop_divides_by_zero_froude self speeds L B T s vol lcb);
          try assumption.
        rewrite <- Hzero. exact Hv. }
    split; [exact Hvpos | ].
    intros HRn. apply (Hnone (RuntimeWarning DivideByZero "divide")).
    apply (holtrop_divides_by_zero_friction self speeds L B T s vol lcb)
      with (v := v); try assumption.
  - intros Hreg.
    apply (holtrop_regular_quiet self speeds L B T s vol lcb); assumption.
Qed.

(** X5. Every column of a result set is an array with one entry per speed,
    under keys that are all different; the six keys of the simplified
    method are among the ten of the Holtrop method. *)
Theorem result_columns_are_parallel :
  (forall v0, V = Some v0 -> 0 < v0) ->
  exists rs rh,
    value_of (ResistanceCalculator.calculate_simple self speeds)
    = Ok (ResistanceCalculator.store self rs, rs)
    /\ value_of (ResistanceCalculator.calculate_holtrop self speeds)
       = Ok (ResistanceCalculator.store self rh, rh)
    /\ (forall key c, In (key, c) rs \/ In (key, c) rh ->
          exists xs, c = Array xs /\ List.length xs = List.length speeds)
    /\ NoDup (keys rs) /\ NoDup (keys rh)
    /\ (forall key, In key (keys rs) -> In key (keys rh)).
Proof.
  intros volume_pos.
  destruct (constructed_fields _ _ _ _ _ _ _ _ _ _ constructed)
    as (s & vol & lcb & Hs & Hvol & Hlcb & _).
  pose proof (constructed_volume_pos _ _ _ _ _ _ _ _ _ _ _ constructed volume_pos Hvol)
    as Hpos.
  exists (simple_columns L s speeds), (holtrop_columns L B T s vol lcb speeds).
  split; [apply (simple_on_constructed _ _ _ _ _ _ _ _ _ _ constructed); exact Hs | ].
  split; [apply (holtrop_on_constructed _ _ _ _ _ _ _ _ _ _ constructed); assumption | ].
  split.
  { intros key c [Hin | Hin]; cbn in Hin;
      repeat (destruct Hin as [E | Hin]; [injection E as <- <- | ]);
      try contradiction;
      (eexists; split; [reflexivity | apply length_map]). }
  split.
  { cbn. repeat (constructor; [cbn; intuition discriminate | ]). constructor. }
  split.
  { cbn. repeat (constructor; [cbn; intuition discriminate | ]). constructor. }
  intros key Hkey. cbn in Hkey. cbn.
  repeat (destruct Hkey as [<- | Hkey]); try contradiction; auto 12.
Qed.

(** X6. calculate_simple does not look at the sign of a speed: at -v it stores
    the resistance of v and the opposite power. *)
Theorem simple_method_ignores_direction (i j : nat) (v : R) :
  nth_error speeds i = Some v -> nth_error speeds j = Some (- v) ->
  exists r rt p,
    value_of (ResistanceCalculator.calculate_simple self speeds)
    = Ok (ResistanceCalculator.store self r, r)
    /\ entry r "resistance_total_N" i = Some (Fin rt)
    /\ entry r "resistance_total_N" j = Some (Fin rt)
    /\ entry r "effective_power_kW" i = Some (Fin p)
    /\ entry r "effective_power_kW" j = Some (Fin (- p)).
Proof.
  intros Hi Hj.
  destruct (constructed_fields _ _ _ _ _ _ _ _ _ _ constructed)
    as (s & vol & lcb & Hs & _).
  exists (simple_columns L s speeds), (SimpleSpec.RT L s v), (SimpleSpec.P L s v).
  split; [apply (simple_on_constructed _ _ _ _ _ _ _ _ _ _ constructed); exact Hs | ].
  assert (SimpleSpec.RT L s (- v) = SimpleSpec.RT L s v) as Even
    by (unfold SimpleSpec.RT, SimpleSpec.Fn, Rdiv; ring).
  assert (SimpleSpec.P L s (- v) = - SimpleSpec.P L s v) as Odd
    by (unfold SimpleSpec.P; rewrite Even; unfold Rdiv; ring).
  split; [entry_by_column | ].
  split; [eapply entry_of_column; [reflexivity | exact Hj | exact (f_equal Fin Even)] | ].
  split; [entry_by_column | ].
  eapply entry_of_column; [reflexivity | exact Hj | exact (f_equal Fin Odd)].
Qed.

(** X7. The residual resistance of a positive speed is at least 0 and at
    most V*rho*g*c2*c3*c12^0.004*c13, the value that the factor
    exp(-0.9/Fn) multiplies: however large the speed, the stored residual
    resistance does not exceed it.  Both bounds are included: the factor
    lies strictly between 0 and 1 as a real number, and binary64 rounds
    it to 0 at very low speeds (exp underflows) and to 1 at very high
    ones, where the stored value meets a bound. *)
Theorem residual_resistance_is_bounded (i : nat) (v : R) :
  (forall v0, V = Some v0 -> 0 < v0) ->
  (forall l0, LCB = Some l0 -> 0 < 1 + 0.003 * l0) ->
  nth_error speeds i = Some v -> 0 < v ->
  exists r vol lcb rr,
    HullParameters.V h = Some vol /\ HullParameters.LCB h = Some lcb
    /\ value_of (ResistanceCalculator.calculate_holtrop self speeds)
       = Ok (ResistanceCalculator.store self r, r)
    /\ entry r "residual_resistance_N" i = Some (Fin rr)
    /\ 0 <= rr
       <= vol * 1025 * 9.81 * HoltropSpec.c2 L B * HoltropSpec.c3 B T vol
          * Rpower (HoltropSpec.c12 L vol) 0.004 * HoltropSpec.c13 lcb.
Proof.
  intros volume_pos lcb_ok Hi Hv.
  destruct (constructed_dimensions _ _ _ _ _ _ _ _ _ _ constructed)
    as [(HL & HB & HT & HC) _].
  destruct (constructed_fields _ _ _ _ _ _ _ _ _ _ constructed)
    as (s & vol & lcb & Hs & Hvol & Hlcb & _ & _ & _ & _ & Hlcb0 & Hlcb1).
  pose proof (constructed_volume_pos _ _ _ _ _ _ _ _ _ _ _ constructed volume_pos Hvol)
    as Hpos.
  assert (0 < HoltropSpec.c13 lcb) as Hc13.
  { unfold HoltropSpec.c13. destruct LCB as [l0 | ].
    - rewrite (Hlcb1 l0 eq_refl). apply lcb_ok. reflexivity.
    - rewrite (Hlcb0 eq_refl). lra. }
  exists (holtrop_columns L B T s vol lcb speeds), vol, lcb,
    (HoltropSpec.RR_real L B T vol lcb v).
  split; [exact Hvol | ]. split; [exact Hlcb | ].
  split; [apply (holtrop_on_constructed _ _ _ _ _ _ _ _ _ _ constructed); assumption | ].
  split; [entry_by_column; apply RR_regular; assumption | ].
  split; [apply Rlt_le; apply RR_real_pos; assumption | ].
  apply Rlt_le. unfold HoltropSpec.RR_real.
  assert (0 < vol * 1025 * 9.81 * HoltropSpec.c2 L B * HoltropSpec.c3 B T vol
              * Rpower (HoltropSpec.c12 L vol) 0.004) as HK
    by (apply residual_factor_pos; assumption).
  set (K := vol * 1025 * 9.81 * HoltropSpec.c2 L B * HoltropSpec.c3 B T vol
            * Rpower (HoltropSpec.c12 L vol) 0.004) in *.
  pose proof (Fn_pos L HL v Hv) as HF.
  assert (exp (-0.9 / HoltropSpec.Fn L v) < 1) as He.
  { rewrite <- exp_0. apply exp_increasing.
    unfold Rdiv. assert (0 < / HoltropSpec.Fn L v) by (apply Rinv_0_lt_compat; exact HF).
    nra. }
  apply Rmult_lt_compat_r; [exact Hc13 | ].
  nra.
Qed.

(** X8. Past the singular speed the friction coefficient falls as the speed
    grows: for 100 < Rn(v1) and v1 < v2, 0 < CF(v2) < CF(v1). *)
Theorem friction_coefficient_decreases (i j : nat) (v1 v2 : R) :
  (forall v0, V = Some v0 -> 0 < v0) ->
  nth_error speeds i = Some v1 -> nth_error speeds j = Some v2 ->
  100 < v1 * L / 1.1892e-6 -> v1 < v2 ->
  exists r cf1 cf2,
    value_of (ResistanceCalculator.calculate_holtrop self speeds)
    = Ok (ResistanceCalculator.store self r, r)
    /\ entry r "cf_coefficient" i = Some (Fin cf1)
    /\ entry r "cf_coefficient" j = Some (Fin cf2)
    /\ 0 < cf2 < cf1.
Proof.
  intros volume_pos Hi Hj HRn1 H12.
  destruct (constructed_dimensions _ _ _ _ _ _ _ _ _ _ constructed)
    as [(HL & HB & HT & HC) _].
  destruct (constructed_fields _ _ _ _ _ _ _ _ _ _ constructed)
    as (s & vol & lcb & Hs & Hvol & Hlcb & _).
  pose proof (constructed_volume_pos _ _ _ _ _ _ _ _ _ _ _ constructed volume_pos Hvol)
    as Hpos.
  assert (0 < / 1.1892e-6) as Hnu by (apply Rinv_0_lt_compat; lra).
  assert (0 < v1) as Hv1.
  { destruct (Rlt_dec 0 v1) as [Hv | Hv]; [exact Hv | exfalso].
    assert (v1 * L <= 0) by nra. unfold Rdiv in HRn1. nra. }
  assert (0 < v2) as Hv2 by lra.
  assert (HoltropSpec.Rn L v1 < HoltropSpec.Rn L v2) as HRn12.
  { unfold HoltropSpec.Rn, Rdiv. apply Rmult_lt_compat_r; [exact Hnu | ].
    apply Rmult_lt_compat_r; assumption. }
  fold (HoltropSpec.Rn L v1) in HRn1.
  pose proof ln_10_pos as H10.
  set (a := log10 (HoltropSpec.Rn L v1) - 2).
  set (b := log10 (HoltropSpec.Rn L v2) - 2).
  assert (0 < a) as Ha.
  { unfold a. rewrite <- log10_100. unfold log10, Rdiv.
    assert (ln 100 < ln (HoltropSpec.Rn L v1)) by (apply ln_increasing; lra).
    assert (0 < / ln 10) by (apply Rinv_0_lt_compat; exact H10).
    nra. }
  assert (a < b) as Hab.
  { unfold a, b, log10, Rdiv.
    assert (ln (HoltropSpec.Rn L v1) < ln (HoltropSpec.Rn L v2))
      by (apply ln_increasing; lra).
    assert (0 < / ln 10) by (apply Rinv_0_lt_compat; exact H10).
    nra. }
  exists (holtrop_columns L B T s vol lcb speeds),
    (HoltropSpec.CF_real L v1), (HoltropSpec.CF_real L v2).
  split; [apply (holtrop_on_constructed _ _ _ _ _ _ _ _ _ _ constructed); assumption | ].
  split; [entry_by_column; apply CF_regular; [exact HL | exact Hv1 | lra] | ].
  split; [eapply entry_of_column; [reflexivity | exact Hj | ];
          apply CF_regular; [exact HL | exact Hv2 | lra] | ].
  unfold HoltropSpec.CF_real. fold a b.
  assert (0 < a ^ 2) as Ha2 by (apply pow_lt; exact Ha).
  assert (a ^ 2 < b ^ 2) as Hab2 by nra.
  assert (0 < b ^ 2) as Hb2 by lra.
  split.
  - apply Rdiv_lt_0_compat; lra.
  - unfold Rdiv. apply Rmult_lt_compat_l; [lra | ].
    apply Rinv_lt_contravar; [apply Rmult_lt_0_compat; assumption | exact Hab2].
Qed.

End MoreOnTheMethods.

(* ================================================================== *)
(** * Presenting a computed result set *)

Lemma bind_ret_l {A B} (a : A) (k : A -> M B) : bind (ret a) k = k a.
Proof. unfold bind, ret. destruct (k a) as [r ws]. reflexivity. Qed.

Lemma getitem_found (r : ResistanceCalculator.results_dict) (key : string)
    (v : value) :
  ResistanceCalculator.lookup key r = Some v ->
  ResistanceCalculator.getitem r key = ret v.
Proof. intros E. unfold ResistanceCalculator.getitem. rewrite E. reflexivity. Qed.

Lemma index_column {A} (f : A -> npfloat) (l : list A) (i : nat) (v : A) :
  nth_error l i = Some v ->
  ResistanceCalculator.index (column f l) i = ret (f v).
Proof.
  intros E. unfold ResistanceCalculator.index, column.
  rewrite nth_error_map, E. reflexivity.
Qed.

Lemma len_column {A} (f : A -> npfloat) (l : list A) :
  ResistanceCalculator.len (column f l) = ret (List.length l).
Proof. unfold ResistanceCalculator.len, column. rewrite length_map. reflexivity. Qed.

Lemma skipn_nth_error {A} (l : list A) (a : nat) (x : A) :
  nth_error l a = Some x -> skipn a l = x :: skipn (S a) l.
Proof.
  revert l. induction a as [ | a IH]; intros [ | y l] E; try discriminate E.
  - injection E as ->. reflexivity.
  - cbn [nth_error] in E. change (skipn (S a) (y :: l)) with (skipn a l).
    rewrite (IH l E). reflexivity.
Qed.

Section PrintedTable.
Context {fmt : PyFormat}.
Local Open Scope string_scope.
Context {A : Type}.
Variable r : ResistanceCalculator.results_dict.
Variable l : list A.
Variables fk fm ff ft fp : A -> npfloat.
Hypothesis knots_is :
  ResistanceCalculator.lookup "speed_knots" r = Some (column fk l).
Hypothesis mps_is :
  ResistanceCalculator.lookup "speed_mps" r = Some (column fm l).
Hypothesis froude_is :
  ResistanceCalculator.lookup "froude" r = Some (column ff l).
Hypothesis total_is :
  ResistanceCalculator.lookup "resistance_total_kN" r = Some (column ft l).
Hypothesis power_is :
  ResistanceCalculator.lookup "effective_power_kW" r = Some (column fp l).

Let row (v : A) : string := table_line (fk v) (fm v) (ff v) (ft v) (fp v).

Lemma table_row_of_sample (i : nat) (v : A) :
  nth_error l i = Some v -> ResistanceCalculator.table_row r i = ret (row v).
Proof.
  intros E. unfold ResistanceCalculator.table_row.
  rewrite power_is.
  rewrite !(getitem_found _ _ _ knots_is), !(getitem_found _ _ _ mps_is),
    !(getitem_found _ _ _ froude_is), !(getitem_found _ _ _ total_is).
  rewrite !bind_ret_l, !(index_column _ _ _ _ E), len_column, !bind_ret_l.
  reflexivity.
Qed.

Lemma table_rows_of_samples (k a : nat) :
  (a + k <= List.length l)%nat ->
  ResistanceCalculator.table_rows r (seq a k)
  = ret (map (fun v => Stdout (row v)) (firstn k (skipn a l))).
Proof.
  revert a. induction k as [ | k IH]; intros a Hle; [reflexivity | ].
  cbn [seq ResistanceCalculator.table_rows].
  destruct (nth_error l a) as [v | ] eqn:E.
  - rewrite (table_row_of_sample a v E), bind_ret_l.
    rewrite IH by lia. rewrite bind_ret_l.
    rewrite (skipn_nth_error l a v E). reflexivity.
  - apply nth_error_None in E. lia.
Qed.

Lemma print_summary_of_columns (cfg : Config.t) (h : HullParameters.t)
    (language : option string) :
  exists header,
    List.length header = 3%nat
    /\ ResistanceCalculator.print_summary cfg
         (ResistanceCalculator.Build_t h (Some r)) language
       = ret (header ++ map (fun v => Stdout (row v)) (firstn 10 l))%list.
Proof.
  unfold ResistanceCalculator.print_summary.
  cbn [ResistanceCalculator.results].
  rewrite (getitem_found _ _ _ mps_is), bind_ret_l, len_column, bind_ret_l.
  rewrite (table_rows_of_samples (Nat.min 10 (List.length l)) 0) by lia.
  rewrite bind_ret_l. cbn [skipn].
  assert (firstn (Nat.min 10 (List.length l)) l = firstn 10 l) as F.
  { destruct (Nat.le_ge_cases 10 (List.length l)) as [H | H].
    - rewrite Nat.min_l by exact H. reflexivity.
    - rewrite Nat.min_r by exact H.
      rewrite firstn_all. symmetry. apply firstn_all2. exact H. }
  rewrite F.
  destruct (String.eqb (language_or language cfg) "portuguese");
    eexists; (split; [ | reflexivity]); reflexivity.
Qed.

End PrintedTable.

Lemma run_eq {A} (m : M A) (a : A) :
  value_of m = Ok a -> warnings_of m = [] -> m = ret a.
Proof.
  destruct m as [x ws]. unfold value_of, warnings_of, ret. cbn.
  intros -> ->. reflexivity.
Qed.

Lemma kilo_line {A} (g : A -> npfloat) (l : list A) :
  (ret (column g l) / py 1000)%np
  = ret (column (fun v => xdiv (g v) (Fin 1000)) l).
Proof.
  apply run_eq.
  - change (ret (column g l)) with (np (column g l)). np_value. reflexivity.
  - apply (kilo_line_quiet l g).
Qed.

Lemma nth_error_firstn_some {A} (n : nat) (l : list A) (i : nat) (x : A) :
  nth_error (firstn n l) i = Some x -> nth_error l i = Some x.
Proof.
  revert l i. induction n as [ | n IH]; intros [ | y l] [ | i] E;
    try discriminate E; cbn in *; [exact E | apply IH; exact E].
Qed.

Section PresentingResults.
Context {fmt : PyFormat}.
Local Open Scope string_scope.
Variables (L B T CB : R) (CM LCB S V APP : option R).
Variable h : HullParameters.t.
Variable old : option ResistanceCalculator.results_dict.
Variable speeds : list R.
Hypothesis constructed : HullParameters.__init__ L B T CB CM LCB S V APP = Ok h.
Hypothesis volume_pos : forall v0, V = Some v0 -> 0 < v0.

Let self := ResistanceCalculator.Build_t h old.

(* the two result sets and the columns that the presentation reads *)
Lemma computed_results :
  exists s vol lcb,
    HullParameters.S h = Some s /\ HullParameters.V h = Some vol
    /\ HullParameters.LCB h = Some lcb
    /\ value_of (ResistanceCalculator.calculate_simple self speeds)
       = Ok (ResistanceCalculator.store self (simple_columns L s speeds),
             simple_columns L s speeds)
    /\ value_of (ResistanceCalculator.calculate_holtrop self speeds)
       = Ok (ResistanceCalculator.store self (holtrop_columns L B T s vol lcb speeds),
             holtrop_columns L B T s vol lcb speeds).
Proof.
  destruct (constructed_fields _ _ _ _ _ _ _ _ _ _ constructed)
    as (s & vol & lcb & Hs & Hvol & Hlcb & _).
  pose proof (constructed_volume_pos _ _ _ _ _ _ _ _ _ _ _ constructed volume_pos Hvol)
    as Hpos.
  exists s, vol, lcb.
  split; [exact Hs | ]. split; [exact Hvol | ]. split; [exact Hlcb | ].
  split; [apply (simple_on_constructed _ _ _ _ _ _ _ _ _ _ constructed); exact Hs | ].
  apply (holtrop_on_constructed _ _ _ _ _ _ _ _ _ _ constructed); assumption.
Qed.

(** X10. A language that is neither "english" nor "portuguese" gives the
    English summary and the English table, but makes plot_results raise
    KeyError before anything is drawn, saved or shown. *)
Theorem unknown_language_raises_only_in_plot (cfg : Config.t) (lang : string)
    (save_path : option string)
    (compute : ResistanceCalculator.t -> list R ->
               M (ResistanceCalculator.t * ResistanceCalculator.results_dict)) :
  compute = ResistanceCalculator.calculate_simple
  \/ compute = ResistanceCalculator.calculate_holtrop ->
  lang <> "" -> lang <> "english" -> lang <> "portuguese" ->
  exists r,
    value_of (compute self speeds) = Ok (ResistanceCalculator.store self r, r)
    /\ HullParameters.summary cfg h (Some lang)
       = HullParameters.summary cfg h (Some "english")
    /\ ResistanceCalculator.print_summary cfg
         (ResistanceCalculator.store self r) (Some lang)
       = ResistanceCalculator.print_summary cfg
           (ResistanceCalculator.store self r) (Some "english")
    /\ ResistanceCalculator.plot_results cfg
         (ResistanceCalculator.store self r) save_path (Some lang)
       = throw (KeyError lang).
Proof.
  intros Hcompute Hne Hen Hpt.
  destruct computed_results as (s & vol & lcb & Hs & Hvol & Hlcb & Rs & Rh).
  assert (language_or (Some lang) cfg = lang) as El
    by (destruct lang; [contradiction | reflexivity]).
  assert (String.eqb lang "portuguese" = false) as Ept
    by (apply String.eqb_neq; exact Hpt).
  assert (String.eqb lang "english" = false) as Een
    by (apply String.eqb_neq; exact Hen).
  assert (forall r,
            HullParameters.summary cfg h (Some lang)
            = HullParameters.summary cfg h (Some "english")
            /\ ResistanceCalculator.print_summary cfg
                 (ResistanceCalculator.store self r) (Some lang)
               = ResistanceCalculator.print_summary cfg
                   (ResistanceCalculator.store self r) (Some "english")
            /\ ResistanceCalculator.plot_results cfg
                 (ResistanceCalculator.store self r) save_path (Some lang)
               = throw (KeyError lang)) as Hall.
  { intros r. split; [ | split].
    - unfold HullParameters.summary. rewrite El, Ept. reflexivity.
    - unfold ResistanceCalculator.print_summary. rewrite El, Ept. reflexivity.
    - unfold ResistanceCalculator.plot_results.
      cbn [ResistanceCalculator.results ResistanceCalculator.store].
      rewrite El. unfold ResistanceCalculator.labels_getitem.
      rewrite Een, Ept. reflexivity. }
  destruct Hcompute as [-> | ->]; eexists;
    (split; [first [exact Rs | exact Rh] | apply Hall]).
Qed.

(** X11. export_results writes the frame that the method stored, with its keys
    as the columns in order and the float format %.4f.  The file is named
    resistance_results_<timestamp>.csv only when no name is given; a name
    that is given is used as it is, the empty string included. *)
Theorem export_writes_the_stored_columns (filename : option string)
    (timestamp : string)
    (compute : ResistanceCalculator.t -> list R ->
               M (ResistanceCalculator.t * ResistanceCalculator.results_dict)) :
  compute = ResistanceCalculator.calculate_simple
  \/ compute = ResistanceCalculator.calculate_holtrop ->
  exists r name,
    value_of (compute self speeds) = Ok (ResistanceCalculator.store self r, r)
    /\ ResistanceCalculator.export_results
         (ResistanceCalculator.store self r) filename timestamp
       = ret (name, [ToCsv name r "%.4f"])
    /\ (filename = None -> name = "resistance_results_" ++ timestamp ++ ".csv")
    /\ (forall f, filename = Some f -> name = f)
    /\ (compute = ResistanceCalculator.calculate_simple ->
        keys r = [ "speed_mps"; "speed_knots"; "froude"; "resistance_total_N";
                   "resistance_total_kN"; "effective_power_kW" ]%list)
    /\ (compute = ResistanceCalculator.calculate_holtrop ->
        keys r = [ "speed_mps"; "speed_knots"; "froude"; "reynolds";
                   "resistance_total_N"; "resistance_total_kN";
                   "resistance_friction_N"; "residual_resistance_N";
                   "cf_coefficient"; "effective_power_kW" ]%list).
Proof.
  intros Hcompute.
  destruct computed_results as (s & vol & lcb & Hs & Hvol & Hlcb & Rs & Rh).
  assert (ResistanceCalculator.calculate_simple
          <> ResistanceCalculator.calculate_holtrop) as Hdiff.
  { intros E.
    pose proof (f_equal (fun c => value_of (c self speeds)) E) as E'.
    cbv beta in E'. rewrite Rs, Rh in E'.
    injection E' as _ E'. discriminate E'. }
  destruct Hcompute as [-> | ->].
  - exists (simple_columns L s speeds),
      (match filename with
       | None => "resistance_results_" ++ timestamp ++ ".csv"
       | Some f => f
       end).
    split; [exact Rs | ].
    split; [reflexivity | ].
    split; [intros ->; reflexivity | ].
    split; [intros f ->; reflexivity | ].
    split; [intros _; reflexivity | intros E; contradiction].
  - exists (holtrop_columns L B T s vol lcb speeds),
      (match filename with
       | None => "resistance_results_" ++ timestamp ++ ".csv"
       | Some f => f
       end).
    split; [exact Rh | ].
    split; [reflexivity | ].
    split; [intros ->; reflexivity | ].
    split; [intros f ->; reflexivity | ].
    split; [intros E; symmetry in E; contradiction | intros _; reflexivity].
Qed.

(** X12. With a supported language plot_results never raises after a method
    ran.  It returns three axes: the first holds one curve after
    calculate_simple and three after calculate_holtrop (total, friction
    and residual resistance, the last two divided by 1000), all against
    the speed in knots; the other two hold one curve each.  The figure
    is saved, and the path printed, only when save_path is a non-empty
    string, and plt.show() always comes last. *)
Theorem plot_results_draws_the_breakdown (cfg : Config.t)
    (save_path language : option string) :
  language_or language cfg = "english"
  \/ language_or language cfg = "portuguese" ->
  exists s vol lcb rs rh axs axh saved,
    HullParameters.S h = Some s /\ HullParameters.V h = Some vol
    /\ HullParameters.LCB h = Some lcb
    /\ value_of (ResistanceCalculator.calculate_simple self speeds)
       = Ok (ResistanceCalculator.store self rs, rs)
    /\ value_of (ResistanceCalculator.calculate_holtrop self speeds)
       = Ok (ResistanceCalculator.store self rh, rh)
    /\ ResistanceCalculator.plot_results cfg
         (ResistanceCalculator.store self rs) save_path language
       = ret (axs, saved ++ [PltShow])%list
    /\ ResistanceCalculator.plot_results cfg
         (ResistanceCalculator.store self rh) save_path language
       = ret (axh, saved ++ [PltShow])%list
    /\ saved = match save_path with
               | Some (String c p) =>
                   [PltSavefig (String c p);
                    Stdout ("Gráfico salvo como: " ++ String c p)]
               | _ => []
               end
    /\ map (fun ax => map ydata (lines ax)) axs
       = [ [column (fun v => Fin (SimpleSpec.RT L s v / 1000)) speeds];
           [column (fun v => Fin (SimpleSpec.RT L s v / 1000)) speeds];
           [column (fun v => Fin (SimpleSpec.P L s v)) speeds] ]%list
    /\ map (fun ax => map ydata (lines ax)) axh
       = [ [column (HoltropSpec.RT_kN L B T s vol lcb) speeds;
            column (fun v => xdiv (HoltropSpec.RF L s v) (Fin 1000)) speeds;
            column (fun v => xdiv (HoltropSpec.RR L B T vol lcb v) (Fin 1000)) speeds];
           [column (HoltropSpec.RT_kN L B T s vol lcb) speeds];
           [column (HoltropSpec.P L B T s vol lcb) speeds] ]%list
    /\ map (fun ax => map xdata (lines ax)) axh
       = [ [column (fun v => Fin (v * 1.944)) speeds;
            column (fun v => Fin (v * 1.944)) speeds;
            column (fun v => Fin (v * 1.944)) speeds];
           [column (fun v => Fin (HoltropSpec.Fn L v)) speeds];
           [column (fun v => Fin (v * 1.944)) speeds] ]%list.
Proof.
  intros Hlang.
  destruct computed_results as (s & vol & lcb & Hs & Hvol & Hlcb & Rs & Rh).
  exists s, vol, lcb, (simple_columns L s speeds),
    (holtrop_columns L B T s vol lcb speeds).
  unfold ResistanceCalculator.plot_results.
  cbn [ResistanceCalculator.results ResistanceCalculator.store].
  destruct Hlang as [-> | ->];
    cbn [ResistanceCalculator.labels_getitem String.eqb Ascii.eqb Bool.eqb];
    rewrite !bind_ret_l;
    unfold ResistanceCalculator.contains;
    cbn [ResistanceCalculator.lookup simple_columns holtrop_columns
         String.eqb Ascii.eqb Bool.eqb];
    unfold ResistanceCalculator.getitem;
    cbn [ResistanceCalculator.lookup simple_columns holtrop_columns
         String.eqb Ascii.eqb Bool.eqb];
    rewrite !bind_ret_l, !kilo_line, !bind_ret_l;
    (do 3 eexists;
     split; [exact Hs | ]; split; [exact Hvol | ]; split; [exact Hlcb | ];
     split; [exact Rs | ]; split; [exact Rh | ];
     split; [reflexivity | ]; split; [reflexivity | ];
     split; [reflexivity | ]; split; [reflexivity | ];
     split; reflexivity).
Qed.

End PresentingResults.

(* ================================================================== *)
(** * The interface functions *)

Section ReadingNumbers.
Context {fmt : PyFormat} {str : PyStr}.
Local Open Scope string_scope.

Lemma get_float_input_refused (prompt : string) (default : npfloat)
    (line : string) (rest : list string) :
  refused line ->
  get_float_input prompt default (line :: rest)
  = let '(r, out, rest') := get_float_input prompt default rest in
    (r, (Prompted (float_prompt prompt default)
         :: Printed invalid_number :: out)%list, rest').
Proof.
  intros [Hne Hnone]. cbn [get_float_input].
  destruct (py_strip line) as [ | c s]; [contradiction | ].
  rewrite Hnone. reflexivity.
Qed.

(** X13. get_float_input asks again after every line that float() refuses,
    printing its message once per refused line, and returns at the first
    line that is blank (the default) or that parses (its value); the
    lines after that one are left unread. *)
Theorem get_float_input_returns_first_accepted (prompt : string)
    (default x : npfloat) (bad : list string) (good : string)
    (rest : list string) :
  (forall line, In line bad -> refused line) ->
  (py_strip good = "" /\ x = default)
  \/ (py_strip good <> "" /\ py_float (py_strip good) = Some x) ->
  get_float_input prompt default (bad ++ good :: rest)%list
  = (Some x,
     (flat_map (fun _ => [Prompted (float_prompt prompt default);
                          Printed invalid_number]) bad
      ++ [Prompted (float_prompt prompt default)])%list,
     rest).
Proof.
  intros Hbad Hgood. induction bad as [ | line bad IH].
  - cbn [app flat_map get_float_input].
    destruct Hgood as [[Hblank ->] | [Hne Hx]].
    + rewrite Hblank. reflexivity.
    + destruct (py_strip good) as [ | c s]; [contradiction | ].
      rewrite Hx. reflexivity.
  - cbn [app flat_map].
    rewrite get_float_input_refused by (apply Hbad; left; reflexivity).
    rewrite IH by (intros l0 Hl0; apply Hbad; right; exact Hl0).
    reflexivity.
Qed.

(** X14. When every line left is refused, get_float_input prints its message
    for each of them, prompts once more and is left by the EOFError of
    input(): no default is substituted. *)
Theorem get_float_input_propagates_end_of_input (prompt : string)
    (default : npfloat) (bad : list string) :
  (forall line, In line bad -> refused line) ->
  get_float_input prompt default bad
  = (None,
     (flat_map (fun _ => [Prompted (float_prompt prompt default);
                          Printed invalid_number]) bad
      ++ [Prompted (float_prompt prompt default)])%list,
     []).
Proof.
  intros Hbad. induction bad as [ | line bad IH]; [reflexivity | ].
  cbn [flat_map app].
  rewrite get_float_input_refused by (apply Hbad; left; reflexivity).
  rewrite IH by (intros l0 Hl0; apply Hbad; right; exact Hl0).
  reflexivity.
Qed.

End ReadingNumbers.

Section RecommendedSpeeds.
Context {fmt : PyFormat}.
Local Open Scope string_scope.
Variables (L B T CB : R) (CM LCB S V APP : option R).
Variable h : HullParameters.t.
Hypothesis constructed : HullParameters.__init__ L B T CB CM LCB S V APP = Ok h.

(* the largest Froude number recommended for the hull *)
Let fn_max : R := if Rltb CB 0.5 then 0.45 else 0.35.

Lemma recommendation_runs (language : string) :
  exists out,
    get_speed_range_recommendation h language
    = ret (2.0, Fin (fn_max * sqrt (9.81 * L) * 1.944), out)
    /\ List.length out = 4%nat.
Proof.
  destruct (constructed_dimensions _ _ _ _ _ _ _ _ _ _ constructed)
    as [(HL & HB & HT & HC) (EL & EB & ET & EC)].
  unfold get_speed_range_recommendation. rewrite EL, EC.
  unfold scalar1, scalar2, Config.GRAVITY.
  assert (0 < 9.81 * L) as Hg by lra.
  unfold Np.sqrt. rewrite Rsign_pos by exact Hg.
  cbn [bind ret fst snd report quiet fe_divide fe_invalid app Np.multiply].
  fold fn_max.
  destruct (String.eqb language "portuguese"); eexists; split; reflexivity.
Qed.

(** X15. For a constructed hull the recommendation never raises nor warns: it
    returns the minimum 2.0 knots and the maximum fn_max*sqrt(9.81*L)*1.944
    knots, fn_max being 0.45 for CB < 0.5 and 0.35 otherwise, and prints
    four lines.  The pair does not depend on the language, the maximum is
    positive, and converted back to m/s it has the Froude number fn_max. *)
Theorem recommended_range_of_a_hull (language : string) :
  let fn_max := if Rltb CB 0.5 then 0.45 else 0.35 in
  exists v_max out,
    get_speed_range_recommendation h language = ret (2.0, Fin v_max, out)
    /\ List.length out = 4%nat
    /\ v_max = fn_max * sqrt (9.81 * L) * 1.944
    /\ 0 < v_max
    /\ HoltropSpec.Fn L (v_max / 1.944) = fn_max
    /\ (CB < 0.5 -> fn_max = 0.45) /\ (0.5 <= CB -> fn_max = 0.35)
    /\ (forall language', exists out',
          get_speed_range_recommendation h language'
          = ret (2.0, Fin v_max, out')).
Proof.
  intros fn_max0.
  destruct (constructed_dimensions _ _ _ _ _ _ _ _ _ _ constructed)
    as [(HL & HB & HT & HC) _].
  destruct (recommendation_runs language) as (out & Hrun & Hlen).
  assert (0 < sqrt (9.81 * L)) as Hr by (apply sqrt_lt_R0; lra).
  assert (0 < fn_max0) as Hf
    by (unfold fn_max0; destruct (Rltb CB 0.5); lra).
  exists (fn_max0 * sqrt (9.81 * L) * 1.944), out.
  split; [exact Hrun | ]. split; [exact Hlen | ]. split; [reflexivity | ].
  split; [assert (0 < fn_max0 * sqrt (9.81 * L)) by (apply Rmult_lt_0_compat; assumption); lra | ].
  split; [unfold HoltropSpec.Fn; field; lra | ].
  split; [ | split].
  - intros Hlt. unfold fn_max0, Rltb.
    destruct (Rlt_dec CB 0.5); [reflexivity | contradiction].
  - intros Hge. unfold fn_max0, Rltb.
    destruct (Rlt_dec CB 0.5); [lra | reflexivity].
  - intros language'.
    destruct (recommendation_runs language') as (out' & Hrun' & _).
    exists out'. exact Hrun'.
Qed.

(** X16. The recommended range is not always a range: the maximum is at least
    the minimum of 2.0 knots exactly when 9.81*L*(fn_max*1.944)^2 >= 4.
    That holds for every hull of at least 1 m, and fails for every hull of
    at most 0.5 m, for which the maximum returned is below the minimum. *)
Theorem recommended_range_can_be_inverted (language : string) :
  let fn_max := if Rltb CB 0.5 then 0.45 else 0.35 in
  exists v_max out,
    get_speed_range_recommendation h language = ret (2.0, Fin v_max, out)
    /\ (2.0 <= v_max <-> 4 <= 9.81 * L * (fn_max * 1.944) ^ 2)
    /\ (1 <= L -> 2.0 <= v_max)
    /\ (L <= 0.5 -> v_max < 2.0).
Proof.
  intros fn_max0.
  destruct (constructed_dimensions _ _ _ _ _ _ _ _ _ _ constructed)
    as [(HL & HB & HT & HC) _].
  destruct (recommendation_runs language) as (out & Hrun & Hlen).
  exists (fn_max0 * sqrt (9.81 * L) * 1.944), out.
  split; [exact Hrun | ].
  assert (0 < sqrt (9.81 * L)) as Hr by (apply sqrt_lt_R0; lra).
  assert (sqrt (9.81 * L) * sqrt (9.81 * L) = 9.81 * L) as Hsq
    by (apply sqrt_sqrt; lra).
  assert (fn_max0 = 0.45 \/ fn_max0 = 0.35) as Hf
    by (unfold fn_max0; destruct (Rltb CB 0.5); [left | right]; reflexivity).
  set (r := sqrt (9.81 * L)) in *.
  set (c := fn_max0 * 1.944).
  assert (0 < c) as Hc by (unfold c; destruct Hf as [-> | ->]; lra).
  replace (fn_max0 * r * 1.944) with (c * r) by (unfold c; ring).
  assert (0 < c * r) as Hcr by (apply Rmult_lt_0_compat; assumption).
  assert ((c * r) ^ 2 = 9.81 * L * c ^ 2) as Hsq2.
  { replace ((c * r) ^ 2) with (c ^ 2 * (r * r)) by ring. rewrite Hsq. ring. }
  assert (2.0 <= c * r <-> 4 <= 9.81 * L * c ^ 2) as Hiff.
  { rewrite <- Hsq2. split; intros H.
    - nra.
    - destruct (Rle_dec 2.0 (c * r)) as [Hle | Hgt]; [exact Hle | exfalso].
      assert (c * r < 2.0) by lra. nra. }
  split; [exact Hiff | ].
  split.
  - intros H1. apply Hiff. unfold c. destruct Hf as [-> | ->]; nra.
  - intros H05.
    destruct (Rle_dec 2.0 (c * r)) as [Hle | Hgt]; [exfalso | lra].
    apply Hiff in Hle. unfold c in Hle. destruct Hf as [-> | ->]; nra.
Qed.

End RecommendedSpeeds.

(* ================================================================== *)
(** * Supplied volumes *)

(* the part of the wetted surface that does not depend on the volume *)
Lemma surface_regression_pos (L B T CB : R) :
  0 < L -> 0 < B -> 0 < T -> 0.3 <= CB <= 1.0 ->
  0 < L * (2 * T + B) * sqrt CB *
      (0.453 + 0.4425 * CB - 0.2862 * CB ^ 2 - 0.003467 * B / T
       + 0.3696 * CB * B / T).
Proof.
  intros HL HB HT HC.
  assert (0 < sqrt CB) as Hs by (apply sqrt_lt_R0; lra).
  assert (0 < B / T) as Hq by (apply Rdiv_lt_0_compat; assumption).
  replace (0.003467 * B / T) with (0.003467 * (B / T)) by (field; lra).
  replace (0.3696 * CB * B / T) with (0.3696 * CB * (B / T)) by (field; lra).
  set (q := B / T) in *.
  assert (0 < 0.453 + 0.4425 * CB - 0.2862 * CB ^ 2 - 0.003467 * q
              + 0.3696 * CB * q) as Hbr by nra.
  assert (0 < L * (2 * T + B)) as H1 by nra.
  assert (0 < L * (2 * T + B) * sqrt CB) as H2
    by (apply Rmult_lt_0_compat; assumption).
  apply Rmult_lt_0_compat; assumption.
Qed.

Section SuppliedVolume.
Context {fmt : PyFormat}.
Local Open Scope string_scope.
Variables (L B T CB : R) (CM LCB S APP : option R).

(** X17. When the caller gives V and leaves S out, the wetted surface is
    computed from the given V; it is positive whenever that V is not
    negative, zero included. *)
Theorem derived_surface_with_supplied_volume (v0 : R) (h : HullParameters.t) :
  HullParameters.__init__ L B T CB CM LCB None (Some v0) APP = Ok h ->
  0 <= v0 ->
  exists s,
    HullParameters.S h = Some s /\ HullParameters.V h = Some v0
    /\ s = wetted_surface L B T CB v0 /\ 0 < s.
Proof.
  intros Hh Hv0.
  destruct (constructed_dimensions _ _ _ _ _ _ _ _ _ _ Hh)
    as [(HL & HB & HT & HC) _].
  destruct (constructed_fields _ _ _ _ _ _ _ _ _ _ Hh)
    as (s & vol & lcb & Hs & Hvol & _ & _ & HV & HS & _).
  rewrite (HV v0 eq_refl) in *. rewrite (HS eq_refl) in *.
  exists (wetted_surface L B T CB v0).
  split; [exact Hs | ]. split; [exact Hvol | ]. split; [reflexivity | ].
  pose proof (surface_regression_pos L B T CB HL HB HT HC) as Hpos.
  unfold wetted_surface.
  assert (0 <= 2.38 * v0 / CB / L) as Hextra.
  { unfold Rdiv.
    assert (0 < / CB) by (apply Rinv_0_lt_compat; lra).
    assert (0 < / L) by (apply Rinv_0_lt_compat; lra).
    assert (0 <= 2.38 * v0 * / CB) by (apply Rmult_le_pos; nra).
    apply Rmult_le_pos; lra. }
  lra.
Qed.

(** X18. With a supplied volume of 0, which the constructor accepts,
    calculate_holtrop raises ZeroDivisionError for every list of speeds,
    the empty one included, and the calculator keeps the results it had;
    calculate_simple still returns a result set. *)
Theorem zero_volume_stops_only_holtrop (h : HullParameters.t)
    (old : option ResistanceCalculator.results_dict) (speeds : list R) :
  HullParameters.__init__ L B T CB CM LCB S (Some 0) APP = Ok h ->
  let self := ResistanceCalculator.Build_t h old in
  value_of (ResistanceCalculator.calculate_holtrop self speeds)
  = Raise (ZeroDivisionError "float division by zero")
  /\ ResistanceCalculator.after self
       (ResistanceCalculator.calculate_holtrop self speeds) = self
  /\ exists r,
       value_of (ResistanceCalculator.calculate_simple self speeds)
       = Ok (ResistanceCalculator.store self r, r).
Proof.
  intros Hh self.
  destruct (constructed_dimensions _ _ _ _ _ _ _ _ _ _ Hh)
    as [(HL & HB & HT & HC) (EL & EB & ET & EC)].
  destruct (constructed_fields _ _ _ _ _ _ _ _ _ _ Hh)
    as (s & vol & lcb & Hs & Hvol & Hlcb & _ & HV & _).
  rewrite (HV 0 eq_refl) in Hvol.
  assert (value_of (ResistanceCalculator.calculate_holtrop self speeds)
          = Raise (ZeroDivisionError "float division by zero")) as Hraise.
  { unfold ResistanceCalculator.calculate_holtrop. rewrite value_of_bind.
    rewrite (holtrop_zero_volume self speeds L B T s 0 lcb); try assumption;
      reflexivity. }
  split; [exact Hraise | ].
  split; [unfold ResistanceCalculator.after; rewrite Hraise; reflexivity | ].
  exists (simple_columns L s speeds).
  apply (simple_on_constructed _ _ _ _ _ _ _ _ _ _ Hh). exact Hs.
Qed.

End SuppliedVolume.

(* ================================================================== *)
(** * The further properties on the hull of the scenarios *)

Lemma simple_method_never_warns_witness :
  warnings_of (ResistanceCalculator.calculate_simple
                 (ResistanceCalculator.__init__ scenario_hull) [0; - (1); 7.5])
  = [].
Proof.
  destruct (simple_method_never_warns (fmt := spec_only_format)
              150 20 8 0.70 None None None None None
              scenario_hull None [0; - (1); 7.5] scenario_hull_constructed)
    as [W _].
  exact W.
Defined.

Lemma holtrop_warns_exactly_at_singular_speeds_witness :
  warnings_of (ResistanceCalculator.calculate_holtrop
                 (ResistanceCalculator.__init__ scenario_hull) [5; 7.5])
  = [].
Proof.
  apply (holtrop_warns_exactly_at_singular_speeds (fmt := spec_only_format)
           150 20 8 0.70 None None None None None
           scenario_hull None [5; 7.5] scenario_hull_constructed
           no_supplied_volume).
  intros v [<- | [<- | []]]; split; lra.
Defined.

Lemma result_columns_are_parallel_witness :
  exists rs rh,
    value_of (ResistanceCalculator.calculate_simple
                (ResistanceCalculator.__init__ scenario_hull) [5; 7.5])
    = Ok (ResistanceCalculator.store
            (ResistanceCalculator.__init__ scenario_hull) rs, rs)
    /\ value_of (ResistanceCalculator.calculate_holtrop
                   (ResistanceCalculator.__init__ scenario_hull) [5; 7.5])
       = Ok (ResistanceCalculator.store
               (ResistanceCalculator.__init__ scenario_hull) rh, rh)
    /\ NoDup (keys rs) /\ NoDup (keys rh).
Proof.
  destruct (result_columns_are_parallel (fmt := spec_only_format)
              150 20 8 0.70 None None None None None
              scenario_hull None [5; 7.5] scenario_hull_constructed
              no_supplied_volume)
    as (rs & rh & Hs & Hh & _ & Ds & Dh & _).
  exists rs, rh. repeat split; assumption.
Defined.

Lemma simple_method_ignores_direction_witness :
  exists r rt,
    value_of (ResistanceCalculator.calculate_simple
                (ResistanceCalculator.__init__ scenario_hull) [7.5; - (7.5)])
    = Ok (ResistanceCalculator.store
            (ResistanceCalculator.__init__ scenario_hull) r, r)
    /\ entry r "resistance_total_N" 0 = Some (Fin rt)
    /\ entry r "resistance_total_N" 1 = Some (Fin rt).
Proof.
  destruct (simple_method_ignores_direction (fmt := spec_only_format)
              150 20 8 0.70 None None None None None
              scenario_hull None [7.5; - (7.5)] scenario_hull_constructed
              0%nat 1%nat 7.5 eq_refl eq_refl)
    as (r & rt & p & Hrun & H1 & H2 & _).
  exists r, rt. repeat split; assumption.
Defined.

Lemma no_supplied_lcb : forall l0 : R, @None R = Some l0 -> 0 < 1 + 0.003 * l0.
Proof. intros l0 E. discriminate E. Qed.

Lemma residual_resistance_is_bounded_witness :
  exists r rr,
    value_of (ResistanceCalculator.calculate_holtrop
                (ResistanceCalculator.__init__ scenario_hull) [7.5])
    = Ok (ResistanceCalculator.store
            (ResistanceCalculator.__init__ scenario_hull) r, r)
    /\ entry r "residual_resistance_N" 0 = Some (Fin rr)
    /\ 0 <= rr.
Proof.
  destruct (residual_resistance_is_bounded (fmt := spec_only_format)
              150 20 8 0.70 None None None None None
              scenario_hull None [7.5] scenario_hull_constructed 0%nat 7.5
              no_supplied_volume no_supplied_lcb eq_refl ltac:(lra))
    as (r & vol & lcb & rr & _ & _ & Hrun & Hrr & Hpos & _).
  exists r, rr. repeat split; assumption.
Defined.

Lemma scenario_reynolds_above_100 : 100 < 5 * 150 / 1.1892e-6.
Proof.
  unfold Rdiv. apply Rmult_lt_reg_r with 1.1892e-6; [lra | ].
  rewrite Rmult_assoc, Rinv_l by lra. lra.
Qed.

Lemma friction_coefficient_decreases_witness :
  exists r cf1 cf2,
    value_of (ResistanceCalculator.calculate_holtrop
                (ResistanceCalculator.__init__ scenario_hull) [5; 7.5])
    = Ok (ResistanceCalculator.store
            (ResistanceCalculator.__init__ scenario_hull) r, r)
    /\ entry r "cf_coefficient" 0 = Some (Fin cf1)
    /\ entry r "cf_coefficient" 1 = Some (Fin cf2)
    /\ 0 < cf2 < cf1.
Proof.
  apply (friction_coefficient_decreases (fmt := spec_only_format)
           150 20 8 0.70 None None None None None
           scenario_hull None [5; 7.5] scenario_hull_constructed
           0%nat 1%nat 5 7.5 no_supplied_volume eq_refl eq_refl
           scenario_reynolds_above_100 ltac:(lra)).
Defined.

Lemma unknown_language_raises_only_in_plot_witness :
  exists r,
    value_of (ResistanceCalculator.calculate_holtrop
                (ResistanceCalculator.__init__ scenario_hull) [5; 7.5])
    = Ok (ResistanceCalculator.store
            (ResistanceCalculator.__init__ scenario_hull) r, r)
    /\ ResistanceCalculator.plot_results Config.initial
         (ResistanceCalculator.store
            (ResistanceCalculator.__init__ scenario_hull) r)
         None (Some "spanish"%string)
       = throw (KeyError "spanish").
Proof.
  destruct (unknown_language_raises_only_in_plot (fmt := spec_only_format)
              150 20 8 0.70 None None None None None
              scenario_hull None [5; 7.5] scenario_hull_constructed
              no_supplied_volume Config.initial "spanish"%string None
              ResistanceCalculator.calculate_holtrop (or_intror eq_refl)
              ltac:(discriminate) ltac:(discriminate) ltac:(discriminate))
    as (r & Hrun & _ & _ & Hplot).
  exists r. split; assumption.
Defined.

Lemma export_writes_the_stored_columns_witness :
  exists r,
    value_of (ResistanceCalculator.calculate_simple
                (ResistanceCalculator.__init__ scenario_hull) [5; 7.5])
    = Ok (ResistanceCalculator.store
            (ResistanceCalculator.__init__ scenario_hull) r, r)
    /\ ResistanceCalculator.export_results
         (ResistanceCalculator.store
            (ResistanceCalculator.__init__ scenario_hull) r)
         None "20250101_120000"
       = ret ("resistance_results_20250101_120000.csv"%string,
              [ToCsv "resistance_results_20250101_120000.csv" r "%.4f"]).
Proof.
  destruct (export_writes_the_stored_columns (fmt := spec_only_format)
              150 20 8 0.70 None None None None None
              scenario_hull None [5; 7.5] scenario_hull_constructed
              no_supplied_volume None "20250101_120000"%string
              ResistanceCalculator.calculate_simple (or_introl eq_refl))
    as (r & name & Hrun & Hexport & Hname & _).
  exists r. split; [exact Hrun | ].
  rewrite (Hname eq_refl) in Hexport. exact Hexport.
Defined.

Lemma plot_results_draws_the_breakdown_witness :
  exists rh axh,
    value_of (ResistanceCalculator.calculate_holtrop
                (ResistanceCalculator.__init__ scenario_hull) [5; 7.5])
    = Ok (ResistanceCalculator.store
            (ResistanceCalculator.__init__ scenario_hull) rh, rh)
    /\ ResistanceCalculator.plot_results Config.initial
         (ResistanceCalculator.store
            (ResistanceCalculator.__init__ scenario_hull) rh)
         None None
       = ret (axh, [PltShow])
    /\ map (fun ax => List.length (lines ax)) axh = [3; 1; 1]%nat.
Proof.
  destruct (plot_results_draws_the_breakdown (fmt := spec_only_format)
              150 20 8 0.70 None None None None None
              scenario_hull None [5; 7.5] scenario_hull_constructed
              no_supplied_volume Config.initial None None (or_introl eq_refl))
    as (s & vol & lcb & rs & rh & axs & axh & saved & _ & _ & _ & _ & Hrun
        & _ & Hplot & -> & _ & Hy & _).
  exists rh, axh. split; [exact Hrun | ]. split; [exact Hplot | ].
  apply (f_equal (map (@List.length value))) in Hy.
  rewrite map_map in Hy. cbn [map List.length] in Hy.
  rewrite <- Hy. apply map_ext. intros ax. symmetry. apply length_map.
Defined.

Lemma example_reader_refuses :
  forall line, In line ["abc"; "x"]%string -> refused (str := example_reader) line.
Proof.
  intros line [<- | [<- | []]]; split; cbn; [discriminate | reflexivity
                                            | discriminate | reflexivity].
Qed.

Lemma get_float_input_returns_first_accepted_witness :
  get_float_input (fmt := spec_only_format) (str := example_reader)
    "Beam (m)" (Fin 20) ["abc"; "x"; "7.5"; "9"]%string
  = (Some (Fin 7.5),
     [ Prompted (float_prompt (fmt := spec_only_format) "Beam (m)" (Fin 20));
       Printed invalid_number;
       Prompted (float_prompt (fmt := spec_only_format) "Beam (m)" (Fin 20));
       Printed invalid_number;
       Prompted (float_prompt (fmt := spec_only_format) "Beam (m)" (Fin 20)) ],
     ["9"%string]).
Proof.
  apply (get_float_input_returns_first_accepted (fmt := spec_only_format)
           (str := example_reader) "Beam (m)" (Fin 20) (Fin 7.5)
           ["abc"; "x"]%string "7.5" ["9"%string] example_reader_refuses).
  right. split; [cbn; discriminate | reflexivity].
Defined.

Lemma get_float_input_propagates_end_of_input_witness :
  fst (fst (get_float_input (fmt := spec_only_format) (str := example_reader)
              "Beam (m)" (Fin 20) ["abc"; "x"]%string))
  = None.
Proof.
  rewrite (get_float_input_propagates_end_of_input (fmt := spec_only_format)
             (str := example_reader) "Beam (m)" (Fin 20)
             ["abc"; "x"]%string example_reader_refuses).
  reflexivity.
Defined.

Lemma recommended_range_of_a_hull_witness :
  exists v_max out,
    get_speed_range_recommendation (fmt := spec_only_format)
      scenario_hull "english"
    = ret (2.0, Fin v_max, out)
    /\ v_max = 0.35 * sqrt (9.81 * 150) * 1.944.
Proof.
  pose proof (recommended_range_of_a_hull (fmt := spec_only_format)
                150 20 8 0.70 None None None None None
                scenario_hull scenario_hull_constructed "english"%string) as H.
  cbv zeta in H.
  destruct H as (v_max & out & Hrun & _ & Hv & _ & _ & _ & Hf & _).
  exists v_max, out. split; [exact Hrun | ].
  rewrite Hv, Hf by lra. reflexivity.
Defined.

Lemma recommended_range_can_be_inverted_witness :
  exists v_max out,
    get_speed_range_recommendation (fmt := spec_only_format)
      scenario_hull "english"
    = ret (2.0, Fin v_max, out)
    /\ 2.0 <= v_max.
Proof.
  pose proof (recommended_range_can_be_inverted (fmt := spec_only_format)
                150 20 8 0.70 None None None None None
                scenario_hull scenario_hull_constructed "english"%string) as H.
  cbv zeta in H.
  destruct H as (v_max & out & Hrun & _ & Hlong & _).
  exists v_max, out. split; [exact Hrun | apply Hlong; lra].
Defined.

Lemma derived_surface_with_supplied_volume_witness :
  exists h s,
    HullParameters.__init__ (fmt := spec_only_format)
      150 20 8 0.70 None None None (Some 0) None = Ok h
    /\ HullParameters.S h = Some s /\ 0 < s.
Proof.
  pose proof (init_accepts (fmt := spec_only_format)
                150 20 8 0.70 None None None (Some 0) None
                ltac:(lra) ltac:(lra) ltac:(lra) ltac:(lra)) as Hh.
  destruct (derived_surface_with_supplied_volume (fmt := spec_only_format)
              150 20 8 0.70 None None None 0 _ Hh ltac:(lra))
    as (s & Hs & _ & _ & Hpos).
  eexists _, s. split; [exact Hh | ]. split; assumption.
Defined.

Lemma zero_volume_stops_only_holtrop_witness :
  exists h,
    HullParameters.__init__ (fmt := spec_only_format)
      150 20 8 0.70 None None None (Some 0) None = Ok h
    /\ value_of (ResistanceCalculator.calculate_holtrop
                   (ResistanceCalculator.__init__ h) [])
       = Raise (ZeroDivisionError "float division by zero").
Proof.
  pose proof (init_accepts (fmt := spec_only_format)
                150 20 8 0.70 None None None (Some 0) None
                ltac:(lra) ltac:(lra) ltac:(lra) ltac:(lra)) as Hh.
  pose proof (zero_volume_stops_only_holtrop (fmt := spec_only_format)
                150 20 8 0.70 None None None None _ None [] Hh) as H.
  cbv zeta in H. destruct H as (Hraise & _).
  eexists. split; [exact Hh | exact Hraise].
Defined.


(* ================================================================== *)
(** * The methods on any array of samples *)

Lemma array_column (xs : list npfloat) : Array xs = column (fun x => x) xs.
Proof. unfold column. rewrite map_id. reflexivity. Qed.

Section ArrayRun.
Variable self : ResistanceCalculator.t.
Variable speeds : value.
Variables L B T S V LCB : R.
Hypothesis L_is : HullParameters.L (ResistanceCalculator.hull self) = L.
Hypothesis B_is : HullParameters.B (ResistanceCalculator.hull self) = B.
Hypothesis T_is : HullParameters.T (ResistanceCalculator.hull self) = T.
Hypothesis S_is : HullParameters.S (ResistanceCalculator.hull self) = Some S.
Hypothesis V_is : HullParameters.V (ResistanceCalculator.hull self) = Some V.
Hypothesis LCB_is : HullParameters.LCB (ResistanceCalculator.hull self) = Some LCB.
Hypothesis L_pos : 0 < L.
Hypothesis B_pos : 0 < B.
Hypothesis T_pos : 0 < T.

Lemma simple_array_value :
  value_of (ResistanceCalculator.simple_array self speeds)
  = Ok (simple_results L S speeds).
Proof.
  assert (0 < 9.81 * L) as Hg by lra.
  unfold ResistanceCalculator.simple_array. rewrite L_is, S_is.
  unfold Config.GRAVITY, Config.WATER_DENSITY.
  destruct speeds as [x | xs]; [ | rewrite array_column];
    np_value; rewrite !sqrt_fin by lra;
    unfold simple_results; rewrite ?vmap1_column; reflexivity.
Qed.

Lemma holtrop_array_value :
  0 < V ->
  value_of (ResistanceCalculator.holtrop_array self speeds)
  = Ok (holtrop_results L B T S V LCB speeds).
Proof.
  intros V_pos.
  assert (0 < 9.81 * L) as Hg by lra.
  assert (0 < B * T) as HBT by (apply Rmult_lt_0_compat; assumption).
  assert (0 < B / L) as HBL by (apply Rdiv_lt_0_compat; assumption).
  assert (0 < L ^ 3 / V) as Hc12
    by (apply Rdiv_lt_0_compat; [apply pow_lt; assumption | assumption]).
  pose proof (c1_pos L B) as Hc1.
  pose proof (c3_denominator_pos B T V T_pos V_pos) as Hden.
  unfold ResistanceCalculator.holtrop_array.
  rewrite L_is, B_is, T_is, S_is, V_is, LCB_is.
  replace (90 - 0.3) with 89.7 by lra.
  unfold Config.GRAVITY, Config.WATER_DENSITY, Config.KINEMATIC_VISCOSITY.
  destruct speeds as [x | xs]; [ | rewrite array_column];
    (np_value;
     rewrite value_of_truediv by lra; cbn [rbind];
     rewrite value_of_bind, value_of_pow by exact HBL; cbn [rbind];
     rewrite value_of_bind, value_of_pow by lra; cbn [rbind];
     fold (HoltropSpec.c1 L B);
     np_value;
     rewrite value_of_pow by exact HBT; cbn [rbind];
     np_value;
     rewrite value_of_truediv by lra; cbn [rbind];
     np_value;
     rewrite value_of_pow by exact Hc12;
     np_value;
     rewrite (sqrt_fin (9.81 * L)) by lra;
     rewrite (sqrt_fin (HoltropSpec.c1 L B)) by lra;
     rewrite (sqrt_fin (B * T)) by lra;
     cbn [Np.multiply Np.add fst];
     rewrite (divide_fin (0.56 * Rpower (B * T) 1.5)) by lra;
     unfold holtrop_results; rewrite ?vmap1_column; reflexivity).
Qed.

End ArrayRun.

(** The rows at the two zeros.  [Fin 0] is +0.0 and [NZero] is -0.0: the
    two are equal as floats, and the Holtrop method tells them apart when
    it divides by the Froude number. *)
Section RowsAtZero.
Variables L B T S V LCB : R.
Hypothesis L_pos : 0 < L.
Hypothesis B_pos : 0 < B.
Hypothesis T_pos : 0 < T.

Lemma sample_Fn_negative_zero : SampleSpec.Fn L NZero = NZero.
Proof.
  unfold SampleSpec.Fn, xdiv. cbn [Np.divide].
  rewrite Rsign_pos by (apply sqrt_lt_R0; lra). reflexivity.
Qed.

Lemma sample_Rn_negative_zero : SampleSpec.Rn L NZero = NZero.
Proof.
  unfold SampleSpec.Rn, xdiv, xmul. cbn [Np.multiply fst].
  rewrite Rsign_pos by exact L_pos. cbn [Np.divide].
  rewrite Rsign_pos by lra. reflexivity.
Qed.

Lemma sample_CF_negative_zero : SampleSpec.CF L NZero = Fin 0.
Proof.
  unfold SampleSpec.CF. rewrite sample_Rn_negative_zero. reflexivity.
Qed.

Lemma sample_RF_negative_zero : SampleSpec.RF L S NZero = Fin 0.
Proof.
  unfold SampleSpec.RF. rewrite sample_CF_negative_zero.
  unfold xmul, xsquare. cbn [Np.square Np.multiply fst]. f_equal. ring.
Qed.

Lemma sample_quotient_negative_zero :
  Np.divide (Fin (-0.9)) (SampleSpec.Fn L NZero) = (PInf, divide_by_zero).
Proof.
  rewrite sample_Fn_negative_zero. cbn [Np.divide].
  rewrite Rsign_neg by lra. reflexivity.
Qed.

Lemma sample_RR_negative_zero :
  0 < V -> 0 < HoltropSpec.c13 LCB ->
  SampleSpec.RR L B T V LCB NZero = PInf.
Proof.
  intros HV Hc. unfold SampleSpec.RR.
  unfold xdiv at 1. rewrite sample_quotient_negative_zero.
  unfold xexp, xmul. cbn [fst Np.exp Np.multiply]. unfold Np.scale_inf.
  rewrite Rsign_pos by (apply residual_factor_pos; assumption).
  cbn [fst Np.multiply]. unfold Np.scale_inf.
  rewrite Rsign_pos by exact Hc. reflexivity.
Qed.

Lemma sample_RT_negative_zero :
  0 < V -> 0 < HoltropSpec.c13 LCB ->
  SampleSpec.RT L B T S V LCB NZero = PInf
  /\ SampleSpec.RT_kN L B T S V LCB NZero = PInf
  /\ SampleSpec.P L B T S V LCB NZero = NaN.
Proof.
  intros HV Hc.
  assert (SampleSpec.RT L B T S V LCB NZero = PInf) as E.
  { unfold SampleSpec.RT.
    rewrite sample_RF_negative_zero, sample_RR_negative_zero by assumption.
    reflexivity. }
  split; [exact E | ].
  split.
  - unfold SampleSpec.RT_kN. rewrite E. unfold xdiv. cbn [Np.divide].
    rewrite Rsign_pos by lra. reflexivity.
  - unfold SampleSpec.P. rewrite E. reflexivity.
Qed.

Lemma sample_Fn_zero : SampleSpec.Fn L (Fin 0) = Fin 0.
Proof.
  unfold SampleSpec.Fn, xdiv.
  rewrite divide_fin by (apply Rgt_not_eq; apply sqrt_lt_R0; lra).
  f_equal. unfold Rdiv. ring.
Qed.

Lemma sample_Rn_zero : SampleSpec.Rn L (Fin 0) = Fin 0.
Proof.
  unfold SampleSpec.Rn, xdiv, xmul. cbn [Np.multiply fst].
  rewrite divide_fin by lra. f_equal. unfold Rdiv. ring.
Qed.

Lemma sample_CF_zero : SampleSpec.CF L (Fin 0) = Fin 0.
Proof.
  unfold SampleSpec.CF. rewrite sample_Rn_zero.
  unfold xlog10. rewrite log10_zero. reflexivity.
Qed.

Lemma sample_RF_zero : SampleSpec.RF L S (Fin 0) = Fin 0.
Proof.
  unfold SampleSpec.RF. rewrite sample_CF_zero.
  unfold xmul, xsquare. cbn [Np.square Np.multiply fst]. f_equal. ring.
Qed.

Lemma sample_RR_zero : SampleSpec.RR L B T V LCB (Fin 0) = Fin 0.
Proof.
  unfold SampleSpec.RR. rewrite sample_Fn_zero.
  unfold xdiv. rewrite divide_neg_zero by lra.
  unfold xexp, xmul. cbn [Np.exp Np.multiply fst]. f_equal. ring.
Qed.

Lemma sample_RT_zero :
  SampleSpec.RT L B T S V LCB (Fin 0) = Fin 0
  /\ SampleSpec.RT_kN L B T S V LCB (Fin 0) = Fin 0
  /\ SampleSpec.P L B T S V LCB (Fin 0) = Fin 0.
Proof.
  assert (SampleSpec.RT L B T S V LCB (Fin 0) = Fin 0) as E.
  { unfold SampleSpec.RT. rewrite sample_RF_zero, sample_RR_zero.
    unfold xadd. cbn [Np.add fst]. f_equal. ring. }
  split; [exact E | ].
  split.
  - unfold SampleSpec.RT_kN. rewrite E. unfold xdiv.
    rewrite divide_fin by lra. f_equal. unfold Rdiv. ring.
  - unfold SampleSpec.P. rewrite E. unfold xdiv, xmul.
    cbn [Np.multiply fst]. rewrite divide_fin by lra.
    f_equal. unfold Rdiv. ring.
Qed.

End RowsAtZero.

(* ================================================================== *)
(** * The methods of a constructed hull on any input *)

Lemma entry_of_samples (d : ResistanceCalculator.results_dict) (key : string)
    (f : npfloat -> npfloat) (xs : list npfloat) (i : nat) (x y : npfloat) :
  ResistanceCalculator.lookup key d = Some (vmap1 f (Array xs)) ->
  nth_error xs i = Some x -> f x = y -> entry d key i = Some y.
Proof.
  intros Hk Hx Hy. unfold entry. rewrite Hk. cbn [vmap1].
  rewrite nth_error_map, Hx. cbn [option_map]. rewrite Hy. reflexivity.
Qed.

Ltac entry_by_sample :=
  eapply entry_of_samples; [reflexivity | eassumption | ].

Section OnAnyInput.
Context {fmt : PyFormat}.
Variables (L B T CB : R) (CM LCB S V APP : option R).
Variable h : HullParameters.t.
Variable old : option ResistanceCalculator.results_dict.
Hypothesis constructed : HullParameters.__init__ L B T CB CM LCB S V APP = Ok h.

Let self := ResistanceCalculator.Build_t h old.

Lemma simple_array_on_constructed (speeds : value) :
  exists s,
    HullParameters.S h = Some s
    /\ value_of (ResistanceCalculator.calculate_simple_array self speeds)
       = Ok (ResistanceCalculator.store self (simple_results L s speeds),
             simple_results L s speeds).
Proof.
  destruct (constructed_dimensions _ _ _ _ _ _ _ _ _ _ constructed)
    as [(HL & HB & HT & HC) (EL & EB & ET & EC)].
  destruct (constructed_fields _ _ _ _ _ _ _ _ _ _ constructed)
    as (s & vol & lcb & Hs & Hvol & Hlcb & _).
  exists s. split; [exact Hs | ].
  unfold ResistanceCalculator.calculate_simple_array.
  rewrite value_of_bind.
  rewrite (simple_array_value self speeds L s); [reflexivity | | | ]; assumption.
Qed.

Lemma holtrop_array_on_constructed (speeds : value) :
  (forall v0, V = Some v0 -> 0 < v0) ->
  exists s vol lcb,
    HullParameters.S h = Some s /\ HullParameters.V h = Some vol
    /\ HullParameters.LCB h = Some lcb
    /\ 0 < L /\ 0 < B /\ 0 < T /\ 0 < vol
    /\ value_of (ResistanceCalculator.calculate_holtrop_array self speeds)
       = Ok (ResistanceCalculator.store self (holtrop_results L B T s vol lcb speeds),
             holtrop_results L B T s vol lcb speeds).
Proof.
  intros volume_pos.
  destruct (constructed_dimensions _ _ _ _ _ _ _ _ _ _ constructed)
    as [(HL & HB & HT & HC) (EL & EB & ET & EC)].
  destruct (constructed_fields _ _ _ _ _ _ _ _ _ _ constructed)
    as (s & vol & lcb & Hs & Hvol & Hlcb & _).
  pose proof (constructed_volume_pos _ _ _ _ _ _ _ _ _ _ _ constructed volume_pos Hvol)
    as Hpos.
  exists s, vol, lcb. repeat (split; [assumption | ]).
  unfold ResistanceCalculator.calculate_holtrop_array.
  rewrite value_of_bind.
  rewrite (holtrop_array_value self speeds L B T s vol lcb); try assumption.
  reflexivity.
Qed.

End OnAnyInput.

(* ================================================================== *)
(** * The warnings of a run at the speed -0.0 *)

Section NegativeZeroRun.
Variable self : ResistanceCalculator.t.
Variables L B T S V LCB : R.
Hypothesis L_is : HullParameters.L (ResistanceCalculator.hull self) = L.
Hypothesis B_is : HullParameters.B (ResistanceCalculator.hull self) = B.
Hypothesis T_is : HullParameters.T (ResistanceCalculator.hull self) = T.
Hypothesis S_is : HullParameters.S (ResistanceCalculator.hull self) = Some S.
Hypothesis V_is : HullParameters.V (ResistanceCalculator.hull self) = Some V.
Hypothesis LCB_is : HullParameters.LCB (ResistanceCalculator.hull self) = Some LCB.
Hypothesis L_pos : 0 < L.
Hypothesis B_pos : 0 < B.
Hypothesis T_pos : 0 < T.
Hypothesis V_pos : 0 < V.
Hypothesis c13_pos : 0 < 1 + 0.003 * LCB.

(** log10(-0.0) and [-0.9/Fn] divide by zero, and the power multiplies
    +inf by -0.0. *)
Lemma holtrop_negative_zero_warnings :
  warnings_of (ResistanceCalculator.holtrop_array self (Array [NZero]))
  = [RuntimeWarning DivideByZero "log10"; RuntimeWarning DivideByZero "divide";
     RuntimeWarning InvalidValue "multiply"].
Proof.
  assert (0 < L ^ 3 / V) as F7
    by (apply Rdiv_lt_0_compat; [apply pow_lt; assumption | assumption]).
  assert (0 < B / L) as F8 by (apply Rdiv_lt_0_compat; assumption).
  assert (0 < B * T) as F4 by (apply Rmult_lt_0_compat; assumption).
  assert (0 < Config.GRAVITY * L) as F1 by (unfold Config.GRAVITY; lra).
  assert (0 < sqrt (Config.GRAVITY * L)) as F2 by (apply sqrt_lt_R0; exact F1).
  assert (0 < Config.KINEMATIC_VISCOSITY) as F3
    by (unfold Config.KINEMATIC_VISCOSITY; lra).
  pose proof (c3_denominator_pos B T V T_pos V_pos) as F6.
  pose proof (c1_pos L B) as F.
  pose proof (residual_factor_pos L B T V T_pos V_pos) as F9.
  unfold HoltropSpec.c2, HoltropSpec.c3, HoltropSpec.c12, HoltropSpec.c1 in F9.
  unfold ResistanceCalculator.holtrop_array.
  rewrite L_is, B_is, T_is, S_is, V_is, LCB_is.
  replace (90 - 0.3) with 89.7 by lra.
  unfold Config.GRAVITY, Config.WATER_DENSITY, Config.KINEMATIC_VISCOSITY in *.
  unfold Py.truediv, Py.pow. unfold warnings_of. run_np.
  repeat (sign_facts; run_np).
  unfold Np.scale_inf. rewrite Rsign_pos by exact F9. run_np.
  repeat (sign_facts; run_np).
  unfold Np.scale_inf. rewrite Rsign_pos by exact c13_pos. run_np.
  repeat (sign_facts; run_np).
  reflexivity.
Qed.

End NegativeZeroRun.

Lemma warnings_of_calculate_holtrop_array (self : ResistanceCalculator.t)
    (speeds : value) :
  warnings_of (ResistanceCalculator.calculate_holtrop_array self speeds)
  = warnings_of (ResistanceCalculator.holtrop_array self speeds).
Proof.
  unfold ResistanceCalculator.calculate_holtrop_array. rewrite warnings_of_bind.
  destruct (value_of (ResistanceCalculator.holtrop_array self speeds)); cbn;
    apply app_nil_r.
Qed.

(* ================================================================== *)
(** * The Holtrop method at the two zero speeds *)

Section ClaimOnTheZeroSpeed.
Context {fmt : PyFormat}.
Local Open Scope string_scope.
Variables (L B T CB : R) (CM LCB S V APP : option R).
Variable h : HullParameters.t.
Variable old : option ResistanceCalculator.results_dict.
Variable speeds : list R.
Hypothesis constructed : HullParameters.__init__ L B T CB CM LCB S V APP = Ok h.
Hypothesis volume_pos : forall v0, V = Some v0 -> 0 < v0.

Let self := ResistanceCalculator.Build_t h old.

(** C5 (amended).  calculate_holtrop has no guard for a zero speed: it
    evaluates [-0.9/Fn] at Fn = 0, and what comes out depends on the sign
    of the zero.  For every constructed hull with a positive volume:
    at a sample +0.0 ([Some 0] in a list of reals, [Fin 0] in an array)
    the quotient is -inf with NumPy's warning of a division by zero,
    exp(-inf) is 0 and the residual resistance is 0; for the single speed
    +0.0 the call prints exactly two warnings, the division by zero in
    log10 (Rn = 0) and the one in [-0.9/Fn].  At a sample -0.0 ([NZero])
    the Froude number is -0.0, the quotient is +inf, again with the
    warning, exp(+inf) is +inf, and with 1 + 0.003 LCB > 0 the residual and
    the total resistance are +inf and the effective power, inf * -0.0,
    is nan; for the single speed -0.0 the call prints three warnings, the
    two divisions by zero and the invalid value in the product.  In both
    cases the method returns a result set and raises nothing. *)
Theorem zero_speed_residual_is_unguarded (i : nat) (xs : list npfloat) (j : nat) :
  nth_error speeds i = Some 0 ->
  exists lcb r ra,
    HullParameters.LCB h = Some lcb
    /\ value_of (ResistanceCalculator.calculate_holtrop self speeds)
       = Ok (ResistanceCalculator.store self r, r)
    /\ entry r "froude" i = Some (Fin 0)
    /\ entry r "residual_resistance_N" i = Some (Fin 0)
    /\ Np.divide (Fin (-0.9)) (Fin 0) = (NInf, divide_by_zero)
    /\ Np.exp NInf = (Fin 0, quiet)
    /\ In (RuntimeWarning DivideByZero "divide")
          (warnings_of (ResistanceCalculator.calculate_holtrop self speeds))
    /\ warnings_of (ResistanceCalculator.calculate_holtrop self [0])
       = [RuntimeWarning DivideByZero "log10"; RuntimeWarning DivideByZero "divide"]
    /\ value_of (ResistanceCalculator.calculate_holtrop_array self (Array xs))
       = Ok (ResistanceCalculator.store self ra, ra)
    /\ (nth_error xs j = Some (Fin 0) ->
        entry ra "froude" j = Some (Fin 0)
        /\ entry ra "residual_resistance_N" j = Some (Fin 0))
    /\ (nth_error xs j = Some NZero ->
        entry ra "froude" j = Some NZero
        /\ Np.divide (Fin (-0.9)) NZero = (PInf, divide_by_zero)
        /\ Np.exp PInf = (PInf, quiet)
        /\ (0 < 1 + 0.003 * lcb ->
            entry ra "residual_resistance_N" j = Some PInf
            /\ entry ra "resistance_total_N" j = Some PInf
            /\ entry ra "effective_power_kW" j = Some NaN))
    /\ (0 < 1 + 0.003 * lcb ->
        warnings_of (ResistanceCalculator.calculate_holtrop_array self
                       (Array [NZero]))
        = [RuntimeWarning DivideByZero "log10";
           RuntimeWarning DivideByZero "divide";
           RuntimeWarning InvalidValue "multiply"]).
Proof.
  intros Hi.
  destruct (constructed_calculator L B T CB CM LCB S V APP h old speeds
              constructed volume_pos)
    as (s & vol & lcb & EL & EB & ET & ES & EV & ELCB & HL & HB & HT & Hvol & Hrun).
  exists lcb, (holtrop_columns L B T s vol lcb speeds),
    (holtrop_results L B T s vol lcb (Array xs)).
  split; [exact ELCB | ].
  split; [exact Hrun | ].
  split.
  { entry_by_column. unfold HoltropSpec.Fn. f_equal. unfold Rdiv. ring. }
  split.
  { entry_by_column. apply RR_zero_speed. }
  split; [apply divide_neg_zero; lra | ].
  split; [reflexivity | ].
  split.
  { rewrite warnings_of_calculate_holtrop.
    apply (holtrop_divides_by_zero_froude _ speeds L B T s vol lcb);
      try assumption.
    apply (nth_error_In speeds i). exact Hi. }
  split.
  { rewrite warnings_of_calculate_holtrop.
    apply (holtrop_zero_speed_warnings _ L B T s vol lcb); assumption. }
  split.
  { unfold ResistanceCalculator.calculate_holtrop_array.
    rewrite value_of_bind.
    rewrite (holtrop_array_value _ (Array xs) L B T s vol lcb); try assumption.
    reflexivity. }
  split.
  { intros Hj. split; entry_by_sample.
    - apply sample_Fn_zero; assumption.
    - apply sample_RR_zero; assumption. }
  split.
  2: { intros Hc. rewrite warnings_of_calculate_holtrop_array.
       apply (holtrop_negative_zero_warnings _ L B T s vol lcb); assumption. }
  - intros Hj.
    split; [entry_by_sample; apply sample_Fn_negative_zero; assumption | ].
    split; [cbn [Np.divide]; rewrite Rsign_neg by lra; reflexivity | ].
    split; [reflexivity | ].
    intros Hc.
    destruct (sample_RT_negative_zero L B T s vol lcb HL HT Hvol Hc)
      as (ERT & _ & EP).
    split; [entry_by_sample; apply sample_RR_negative_zero; assumption | ].
    split; entry_by_sample; assumption.
Qed.

(** X4. For a constructed hull with a positive volume and
    1 + 0.003 LCB > 0, and any array of speeds.  At a sample +0.0
    calculate_holtrop stores 0 in every column: log10(0) is -inf, the
    friction coefficient 0.075/inf is 0, and the resistances and the
    power are 0.  At a sample -0.0 the speed, the knots, the Froude and
    the Reynolds number are -0.0, the friction coefficient and the
    frictional resistance are 0, the residual and the total resistance
    (in N and in kN) are +inf, and the effective power, inf * -0.0, is
    nan. *)
Theorem holtrop_row_at_rest (xs : list npfloat) (i : nat) :
  (forall l0, LCB = Some l0 -> 0 < 1 + 0.003 * l0) ->
  exists r,
    value_of (ResistanceCalculator.calculate_holtrop_array self (Array xs))
    = Ok (ResistanceCalculator.store self r, r)
    /\ (nth_error xs i = Some (Fin 0) ->
        forall key,
          In key [ "speed_mps"; "speed_knots"; "froude"; "reynolds";
                   "resistance_total_N"; "resistance_total_kN";
                   "resistance_friction_N"; "residual_resistance_N";
                   "cf_coefficient"; "effective_power_kW" ]%list ->
          entry r key i = Some (Fin 0))
    /\ (nth_error xs i = Some NZero ->
        entry r "speed_mps" i = Some NZero
        /\ entry r "speed_knots" i = Some NZero
        /\ entry r "froude" i = Some NZero
        /\ entry r "reynolds" i = Some NZero
        /\ entry r "cf_coefficient" i = Some (Fin 0)
        /\ entry r "resistance_friction_N" i = Some (Fin 0)
        /\ entry r "residual_resistance_N" i = Some PInf
        /\ entry r "resistance_total_N" i = Some PInf
        /\ entry r "resistance_total_kN" i = Some PInf
        /\ entry r "effective_power_kW" i = Some NaN).
Proof.
  intros lcb_ok.
  destruct (holtrop_array_on_constructed L B T CB CM LCB S V APP h old
              constructed (Array xs) volume_pos)
    as (s & vol & lcb & Hs & Hvol & Hlcb & HL & HB & HT & Hpos & Hrun).
  assert (0 < HoltropSpec.c13 lcb) as Hc.
  { unfold HoltropSpec.c13.
    destruct (constructed_fields _ _ _ _ _ _ _ _ _ _ constructed)
      as (s' & vol' & lcb' & _ & _ & Hlcb' & _ & _ & _ & _ & Hnone & Hsome).
    rewrite Hlcb in Hlcb'. injection Hlcb' as <-.
    destruct LCB as [l0 | ].
    - rewrite (Hsome l0 eq_refl). apply lcb_ok. reflexivity.
    - rewrite (Hnone eq_refl). lra. }
  exists (holtrop_results L B T s vol lcb (Array xs)).
  split; [exact Hrun | ].
  destruct (sample_RT_zero L B T s vol lcb HL) as (Z1 & Z2 & Z3).
  destruct (sample_RT_negative_zero L B T s vol lcb HL HT Hpos Hc)
    as (N1 & N2 & N3).
  split.
  - intros Hi key Hkey. cbn [In] in Hkey.
    destruct Hkey as [<- | Hkey].
    { unfold entry. cbn. exact Hi. }
    repeat (destruct Hkey as [<- | Hkey]); try contradiction; entry_by_sample.
    + unfold SampleSpec.speed_knots, xmul. cbn [Np.multiply fst]. f_equal. ring.
    + apply sample_Fn_zero; assumption.
    + apply sample_Rn_zero; assumption.
    + exact Z1.
    + exact Z2.
    + apply sample_RF_zero; assumption.
    + apply sample_RR_zero; assumption.
    + apply sample_CF_zero; assumption.
    + exact Z3.
  - intros Hi.
    split; [unfold entry; cbn; exact Hi | ].
    split.
    { entry_by_sample. unfold SampleSpec.speed_knots, xmul.
      cbn [Np.multiply fst]. rewrite Rsign_pos by lra. reflexivity. }
    split; [entry_by_sample; apply sample_Fn_negative_zero; assumption | ].
    split; [entry_by_sample; apply sample_Rn_negative_zero; assumption | ].
    split; [entry_by_sample; apply sample_CF_negative_zero; assumption | ].
    split; [entry_by_sample; apply sample_RF_negative_zero; assumption | ].
    split; [entry_by_sample; apply sample_RR_negative_zero; assumption | ].
    repeat split; entry_by_sample; assumption.
Qed.

(** X9. For a constructed hull with a positive volume, after either
    method.  When the speeds were given as a list or an array,
    print_summary does not raise: it prints three header lines and then
    one row for each of the first ten samples (all of them when there are
    fewer), in order, each row made of the sample's knots, m/s, Froude
    number, total resistance in kN and power.  When the speeds were given
    as a single float, which the methods accept, every column is a 0-d
    array and print_summary raises TypeError at [len]. *)
Theorem print_summary_prints_first_ten (cfg : Config.t)
    (language : option string)
    (compute : ResistanceCalculator.t -> value ->
               M (ResistanceCalculator.t * ResistanceCalculator.results_dict))
    (xs : list npfloat) (x : npfloat) :
  compute = ResistanceCalculator.calculate_simple_array
  \/ compute = ResistanceCalculator.calculate_holtrop_array ->
  (exists r header rows,
     value_of (compute self (Array xs)) = Ok (ResistanceCalculator.store self r, r)
     /\ ResistanceCalculator.print_summary cfg
          (ResistanceCalculator.store self r) language
        = ret (header ++ map Stdout rows)%list
     /\ List.length header = 3%nat
     /\ List.length rows = Nat.min 10 (List.length xs)
     /\ forall i text, nth_error rows i = Some text ->
          exists k m f t p,
            entry r "speed_knots" i = Some k
            /\ entry r "speed_mps" i = Some m
            /\ entry r "froude" i = Some f
            /\ entry r "resistance_total_kN" i = Some t
            /\ entry r "effective_power_kW" i = Some p
            /\ text = table_line k m f t p)
  /\ (exists r,
        value_of (compute self (Scalar x)) = Ok (ResistanceCalculator.store self r, r)
        /\ ResistanceCalculator.lookup "speed_mps" r = Some (Scalar x)
        /\ value_of (ResistanceCalculator.print_summary cfg
                       (ResistanceCalculator.store self r) language)
           = Raise (TypeError "len() of unsized object")).
Proof.
  intros Hcompute.
  destruct (simple_array_on_constructed L B T CB CM LCB S V APP h old
              constructed (Array xs)) as (s & Hs & Rs).
  destruct (simple_array_on_constructed L B T CB CM LCB S V APP h old
              constructed (Scalar x)) as (s1 & Hs1 & Rs1).
  destruct (holtrop_array_on_constructed L B T CB CM LCB S V APP h old
              constructed (Array xs) volume_pos)
    as (s2 & vol & lcb & _ & _ & _ & _ & _ & _ & _ & Rh).
  destruct (holtrop_array_on_constructed L B T CB CM LCB S V APP h old
              constructed (Scalar x) volume_pos)
    as (s3 & vol3 & lcb3 & _ & _ & _ & _ & _ & _ & _ & Rh1).
  destruct Hcompute as [-> | ->]; split.
  - destruct (print_summary_of_columns (simple_results L s (Array xs)) xs
                _ (fun v => v) _ _ _ eq_refl (f_equal Some (array_column xs))
                eq_refl eq_refl eq_refl cfg h language)
      as (header & Hlen & Hprint).
    eexists _, header, (map _ (firstn 10 xs)).
    split; [exact Rs | ].
    split; [rewrite map_map; exact Hprint | ].
    split; [exact Hlen | ].
    split; [rewrite length_map; apply length_firstn | ].
    intros i text E. rewrite nth_error_map in E.
    destruct (nth_error (firstn 10 xs) i) as [v | ] eqn:Ev; [ | discriminate E].
    apply nth_error_firstn_some in Ev. cbn [option_map] in E. injection E as <-.
    exists (SampleSpec.speed_knots v), v, (SampleSpec.Fn L v),
      (SampleSpec.simple_RT_kN L s v), (SampleSpec.simple_P L s v).
    split; [entry_by_sample; reflexivity | ].
    split; [unfold entry; cbn; exact Ev | ].
    repeat (split; [entry_by_sample; reflexivity | ]). reflexivity.
  - eexists. split; [exact Rs1 | ]. split; reflexivity.
  - destruct (print_summary_of_columns (holtrop_results L B T s2 vol lcb (Array xs)) xs
                _ (fun v => v) _ _ _ eq_refl (f_equal Some (array_column xs))
                eq_refl eq_refl eq_refl cfg h language)
      as (header & Hlen & Hprint).
    eexists _, header, (map _ (firstn 10 xs)).
    split; [exact Rh | ].
    split; [rewrite map_map; exact Hprint | ].
    split; [exact Hlen | ].
    split; [rewrite length_map; apply length_firstn | ].
    intros i text E. rewrite nth_error_map in E.
    destruct (nth_error (firstn 10 xs) i) as [v | ] eqn:Ev; [ | discriminate E].
    apply nth_error_firstn_some in Ev. cbn [option_map] in E. injection E as <-.
    exists (SampleSpec.speed_knots v), v, (SampleSpec.Fn L v),
      (SampleSpec.RT_kN L B T s2 vol lcb v), (SampleSpec.P L B T s2 vol lcb v).
    split; [entry_by_sample; reflexivity | ].
    split; [unfold entry; cbn; exact Ev | ].
    repeat (split; [entry_by_sample; reflexivity | ]). reflexivity.
  - eexists. split; [exact Rh1 | ]. split; reflexivity.
Qed.

End ClaimOnTheZeroSpeed.

Lemma zero_speed_residual_is_unguarded_witness :
  exists r ra,
    value_of (ResistanceCalculator.calculate_holtrop
                (ResistanceCalculator.__init__ scenario_hull) [0; 7.5])
    = Ok (ResistanceCalculator.store
            (ResistanceCalculator.__init__ scenario_hull) r, r)
    /\ entry r "residual_resistance_N" 0 = Some (Fin 0)
    /\ value_of (ResistanceCalculator.calculate_holtrop_array
                   (ResistanceCalculator.__init__ scenario_hull)
                   (Array [NZero; Fin 7.5]))
       = Ok (ResistanceCalculator.store
               (ResistanceCalculator.__init__ scenario_hull) ra, ra)
    /\ entry ra "froude" 0 = Some NZero
    /\ entry ra "residual_resistance_N" 0 = Some PInf
    /\ entry ra "effective_power_kW" 0 = Some NaN.
Proof.
  destruct (zero_speed_residual_is_unguarded (fmt := spec_only_format)
              150 20 8 0.70 None None None None None
              scenario_hull None [0; 7.5] scenario_hull_constructed
              no_supplied_volume 0%nat [NZero; Fin 7.5] 0%nat eq_refl)
    as (lcb & r & ra & Hlcb & Hrun & _ & HRR & _ & _ & _ & _ & Hra & _ & Hneg & _).
  cbn in Hlcb. injection Hlcb as <-.
  destruct (Hneg eq_refl) as (HFn & _ & _ & Hinf).
  destruct (Hinf ltac:(lra)) as (H1 & _ & H3).
  exists r, ra. repeat split; assumption.
Defined.

Lemma holtrop_row_at_rest_witness :
  exists r,
    value_of (ResistanceCalculator.calculate_holtrop_array
                (ResistanceCalculator.__init__ scenario_hull)
                (Array [Fin 0; NZero; Fin 7.5]))
    = Ok (ResistanceCalculator.store
            (ResistanceCalculator.__init__ scenario_hull) r, r)
    /\ entry r "cf_coefficient" 0 = Some (Fin 0)
    /\ entry r "resistance_total_N" 0 = Some (Fin 0)
    /\ entry r "reynolds" 1 = Some NZero
    /\ entry r "resistance_total_kN" 1 = Some PInf
    /\ entry r "effective_power_kW" 1 = Some NaN.
Proof.
  destruct (holtrop_row_at_rest (fmt := spec_only_format)
              150 20 8 0.70 None None None None None
              scenario_hull None scenario_hull_constructed
              no_supplied_volume [Fin 0; NZero; Fin 7.5] 0%nat
              ltac:(intros l0 E; discriminate E))
    as (r & Hrun & Hrow & _).
  destruct (holtrop_row_at_rest (fmt := spec_only_format)
              150 20 8 0.70 None None None None None
              scenario_hull None scenario_hull_constructed
              no_supplied_volume [Fin 0; NZero; Fin 7.5] 1%nat
              ltac:(intros l0 E; discriminate E))
    as (r' & Hrun' & _ & Hneg).
  rewrite Hrun in Hrun'. injection Hrun' as <-.
  destruct (Hneg eq_refl) as (_ & _ & _ & HRn & _ & _ & _ & _ & HkN & HP).
  exists r. split; [exact Hrun | ].
  split; [apply Hrow; [reflexivity | cbn; tauto] | ].
  split; [apply Hrow; [reflexivity | cbn; tauto] | ].
  repeat split; assumption.
Defined.

Lemma print_summary_prints_first_ten_witness :
  (exists r header rows,
     value_of (ResistanceCalculator.calculate_simple_array
                 (ResistanceCalculator.__init__ scenario_hull)
                 (Array (map Fin [1; 2; 3; 4; 5; 6; 7; 8; 9; 10; 11; 12])))
     = Ok (ResistanceCalculator.store
             (ResistanceCalculator.__init__ scenario_hull) r, r)
     /\ ResistanceCalculator.print_summary (fmt := spec_only_format)
          Config.initial
          (ResistanceCalculator.store
             (ResistanceCalculator.__init__ scenario_hull) r) None
        = ret (header ++ map Stdout rows)%list
     /\ List.length header = 3%nat /\ List.length rows = 10%nat)
  /\ (exists r,
        value_of (ResistanceCalculator.calculate_simple_array
                    (ResistanceCalculator.__init__ scenario_hull)
                    (Scalar (Fin 7.5)))
        = Ok (ResistanceCalculator.store
                (ResistanceCalculator.__init__ scenario_hull) r, r)
        /\ value_of (ResistanceCalculator.print_summary (fmt := spec_only_format)
                       Config.initial
                       (ResistanceCalculator.store
                          (ResistanceCalculator.__init__ scenario_hull) r) None)
           = Raise (TypeError "len() of unsized object")).
Proof.
  destruct (print_summary_prints_first_ten (fmt := spec_only_format)
              150 20 8 0.70 None None None None None
              scenario_hull None scenario_hull_constructed
              no_supplied_volume Config.initial None
              ResistanceCalculator.calculate_simple_array
              (map Fin [1; 2; 3; 4; 5; 6; 7; 8; 9; 10; 11; 12]) (Fin 7.5)
              (or_introl eq_refl))
    as ((r & header & rows & Hrun & Hprint & Hh & Hr & _) & (r1 & Hrun1 & _ & Hraise)).
  split.
  - exists r, header, rows. repeat split; assumption.
  - exists r1. split; assumption.
Defined.

(* ================================================================== *)
(** * HullParameters on any float: validation *)

Lemma fle_spec (x y : npfloat) : fle x y = true <-> xle x y.
Proof.
  destruct x, y; cbn; try apply Rleb_spec;
    split; intros H;
    first [exact I | reflexivity | discriminate H | contradiction].
Qed.

Lemma fle_false (x y : npfloat) : fle x y = false <-> ~ xle x y.
Proof.
  pose proof (fle_spec x y) as S. destruct (fle x y).
  - split; [intros E; discriminate E | intros N; exfalso; apply N, S; reflexivity].
  - split; [intros _ H; apply S in H; discriminate H | reflexivity].
Qed.

Lemma xlt_zero (x : npfloat) :
  xlt (Fin 0) x <-> match x with Fin r => 0 < r | PInf => True | _ => False end.
Proof.
  unfold xlt. destruct x; cbn; split; intros H;
    try tauto; try lra; try (split; lra); try (destruct H; lra).
Qed.

(** For a float that is not nan, the test [x <= 0] fails exactly when
    x > 0; nan is neither. *)
Lemma test_is_rule (x : npfloat) :
  x <> NaN -> (xle x (Fin 0) <-> ~ xlt (Fin 0) x).
Proof.
  intros N. rewrite xlt_zero. destruct x as [r | | | | ]; cbn.
  - split; [lra | ]. intros H. destruct (Rle_dec r 0); [assumption | ].
    exfalso. apply H. lra.
  - split; [tauto | lra].
  - tauto.
  - tauto.
  - exfalso. apply N. reflexivity.
Qed.

Lemma nan_passes_the_test : ~ xle NaN (Fin 0) /\ ~ xlt (Fin 0) NaN.
Proof. split; [intros [] | intros [[] _]]. Qed.

Lemma fle_false_nonzero (x : npfloat) :
  fle x (Fin 0) = false -> Py.is_zero x = false.
Proof.
  destruct x; cbn; try reflexivity; intros H.
  - unfold Rleb in H. destruct (Rle_dec r 0) as [ | N]; [discriminate H | ].
    rewrite Rsign_pos by lra. reflexivity.
  - unfold Rleb in H. destruct (Rle_dec 0 0) as [ | N]; [discriminate H | lra].
Qed.

Lemma string_app_nil_r (s : string) : (s ++ "")%string = s.
Proof. induction s as [ | c s IH]; cbn; [reflexivity | rewrite IH; reflexivity]. Qed.

Lemma string_app_assoc (a b c : string) :
  ((a ++ b) ++ c)%string = (a ++ b ++ c)%string.
Proof. induction a as [ | x a IH]; cbn; [reflexivity | rewrite IH; reflexivity]. Qed.

Lemma occurs_in_join (sep m : string) (l : list string) :
  In m l -> occurs_in m (join sep l).
Proof.
  induction l as [ | s l IH]; intros H; [contradiction | ].
  destruct H as [<- | H].
  - destruct l as [ | s' l'].
    + exists EmptyString, EmptyString. cbn [join].
      rewrite string_app_nil_r. reflexivity.
    + exists EmptyString, (sep ++ join sep (s' :: l'))%string. reflexivity.
  - destruct (IH H) as (pre & post & E).
    destruct l as [ | s' l']; [contradiction | ].
    exists (s ++ sep ++ pre)%string, post.
    change (join sep (s :: s' :: l'))
      with (s ++ sep ++ join sep (s' :: l'))%string.
    rewrite E. rewrite !string_app_assoc. reflexivity.
Qed.

Lemma occurs_in_error_msg (m : string) (errors : list string) :
  In m errors -> occurs_in m (HullParameters.error_msg errors).
Proof.
  intros H.
  destruct (occurs_in_join (nl ++ "- ")%string m errors H) as (pre & post & E).
  unfold HullParameters.error_msg. rewrite E.
  exists ("Erros de validação:" ++ nl ++ "- " ++ pre)%string, post.
  rewrite !string_app_assoc. reflexivity.
Qed.

Lemma one_le_float_max : 1 <= Py.float_max.
Proof.
  unfold Py.float_max.
  assert (1 <= 2 ^ 1023) as P by (apply pow_R1_Rle; lra).
  assert (0 < / 2 ^ 52) as Q by (apply Rinv_0_lt_compat, pow_lt; lra).
  assert (/ 2 ^ 52 <= 1) as Q'.
  { rewrite <- Rinv_1. apply Rinv_le_contravar; [lra | ].
    apply pow_R1_Rle; lra. }
  nra.
Qed.

Lemma thousand_le_float_max : 1000 <= Py.float_max.
Proof.
  unfold Py.float_max.
  assert (2 ^ 10 <= 2 ^ 1023) as P by (apply Rle_pow; [lra | lia]).
  replace (2 ^ 10) with 1024 in P by ring.
  assert (/ 2 ^ 52 <= 1) as Q'.
  { rewrite <- Rinv_1. apply Rinv_le_contravar; [lra | ].
    apply pow_R1_Rle; lra. }
  nra.
Qed.

Section FloatValidation.
Context {fmt : PyFormat}.
Import HullParametersIEEE.
Local Open Scope string_scope.
Local Open Scope list_scope.

Lemma float_validation_errors_cases (self : t) :
  validation_errors self =
    (if fle (L self) (Fin 0) then ["Comprimento deve ser positivo"] else [])
    ++ (if fle (B self) (Fin 0) then ["Boca deve ser positiva"] else [])
    ++ (if fle (T self) (Fin 0) then ["Calado deve ser positivo"] else [])
    ++ (if negb (fle (Fin 0.3) (CB self) && fle (CB self) (Fin 1.0))
        then [cb_error self; HullParameters.cb_hint] else []).
Proof.
  unfold validation_errors.
  destruct (fle (L self) (Fin 0)), (fle (B self) (Fin 0)), (fle (T self) (Fin 0)),
    (negb (fle (Fin 0.3) (CB self) && fle (CB self) (Fin 1.0))); reflexivity.
Qed.

Lemma float_cb_test (cb : npfloat) :
  negb (fle (Fin 0.3) cb && fle cb (Fin 1.0)) = true
  <-> ~ (xle (Fin 0.3) cb /\ xle cb (Fin 1.0)).
Proof.
  pose proof (fle_spec (Fin 0.3) cb) as S1.
  pose proof (fle_spec cb (Fin 1.0)) as S2.
  destruct (fle (Fin 0.3) cb), (fle cb (Fin 1.0)); cbn; split; intros H;
    try reflexivity; try discriminate H.
  - exfalso. apply H. split; [apply S1 | apply S2]; reflexivity.
  - intros [_ H2]. apply S2 in H2. discriminate H2.
  - intros [H1 _]. apply S1 in H1. discriminate H1.
  - intros [H1 _]. apply S1 in H1. discriminate H1.
Qed.

Lemma float_cb_error_head (self : t) :
  exists rest, cb_error self = String "C" (String "o" (String "e" rest)).
Proof. unfold cb_error. cbn. eexists. reflexivity. Qed.

Lemma float_In_errors (self : t) (m : string) :
  In m (validation_errors self) <->
    (m = "Comprimento deve ser positivo" /\ xle (L self) (Fin 0))
    \/ (m = "Boca deve ser positiva" /\ xle (B self) (Fin 0))
    \/ (m = "Calado deve ser positivo" /\ xle (T self) (Fin 0))
    \/ ((m = cb_error self \/ m = HullParameters.cb_hint)
        /\ ~ (xle (Fin 0.3) (CB self) /\ xle (CB self) (Fin 1.0))).
Proof.
  rewrite float_validation_errors_cases.
  pose proof (fle_spec (L self) (Fin 0)) as HL.
  pose proof (fle_spec (B self) (Fin 0)) as HB.
  pose proof (fle_spec (T self) (Fin 0)) as HT.
  pose proof (float_cb_test (CB self)) as HC.
  rewrite !in_app_iff.
  assert (forall (b : bool) (P : Prop) (x : string),
             (b = true <-> P) ->
             (In m (if b then [x] else []) <-> m = x /\ P)) as one.
  { intros b P x Hb. destruct b; cbn.
    - split; [intros [E | []]; split; [auto | apply Hb; reflexivity]
             | intros [E _]; auto].
    - split; [intros [] | intros [_ HP]; apply Hb in HP; discriminate HP]. }
  rewrite (one _ _ _ HL), (one _ _ _ HB), (one _ _ _ HT).
  assert (In m (if negb (fle (Fin 0.3) (CB self) && fle (CB self) (Fin 1.0))
                then [cb_error self; HullParameters.cb_hint] else [])
          <-> (m = cb_error self \/ m = HullParameters.cb_hint)
              /\ ~ (xle (Fin 0.3) (CB self) /\ xle (CB self) (Fin 1.0))) as two.
  { destruct (negb (fle (Fin 0.3) (CB self) && fle (CB self) (Fin 1.0))); cbn.
    - split.
      + intros [E | [E | []]]; (split; [auto | apply HC; reflexivity]).
      + intros [[E | E] _]; auto.
    - split; [intros [] | intros [_ HP]; apply HC in HP; discriminate HP]. }
  rewrite two. tauto.
Qed.

Lemma float_validation_errors_nil (self : t) :
  validation_errors self = [] <->
  ~ (xle (L self) (Fin 0) \/ xle (B self) (Fin 0) \/ xle (T self) (Fin 0)
     \/ ~ (xle (Fin 0.3) (CB self) /\ xle (CB self) (Fin 1.0))).
Proof.
  split.
  - intros E H.
    assert (exists m, In m (validation_errors self)) as (m & Hm).
    { destruct H as [H | [H | [H | H]]].
      + exists "Comprimento deve ser positivo". apply float_In_errors. tauto.
      + exists "Boca deve ser positiva". apply float_In_errors. tauto.
      + exists "Calado deve ser positivo". apply float_In_errors. tauto.
      + exists HullParameters.cb_hint. apply float_In_errors. tauto. }
    rewrite E in Hm. contradiction.
  - intros H. destruct (validation_errors self) as [ | m l] eqn:E; [reflexivity | ].
    exfalso. apply H.
    assert (In m (validation_errors self)) as Hm by (rewrite E; left; reflexivity).
    apply float_In_errors in Hm. tauto.
Qed.

(* what passing the four tests leaves of the dimensions *)
Lemma validated_fields (self : t) :
  validation_errors self = [] ->
  fle (L self) (Fin 0) = false /\ fle (B self) (Fin 0) = false
  /\ fle (T self) (Fin 0) = false
  /\ exists c, CB self = Fin c /\ 0.3 <= c <= 1.0.
Proof.
  intros E. apply float_validation_errors_nil in E.
  repeat split; try (apply fle_false; tauto).
  destruct (CB self) as [c | | | | ] eqn:EC; cbn in E.
  - exists c. split; [reflexivity | ].
    destruct (Rle_dec 0.3 c), (Rle_dec c 1.0); try lra; exfalso; apply E; tauto.
  - exfalso. apply E. right. right. right. intros [H _]. lra.
  - exfalso. apply E. tauto.
  - exfalso. apply E. tauto.
  - exfalso. apply E. tauto.
Qed.

Lemma init_raises_the_errors (L B T CB : npfloat) (CM LCB S V APP : option npfloat) :
  validation_errors (Build_t L B T CB CM LCB S V APP) <> [] ->
  __init__ L B T CB CM LCB S V APP
  = throw (ValueError (HullParameters.error_msg
             (validation_errors (Build_t L B T CB CM LCB S V APP)))).
Proof.
  intros NE. unfold __init__, __post_init__, _validate_parameters.
  destruct (validation_errors (Build_t L B T CB CM LCB S V APP));
    [contradiction | reflexivity].
Qed.

Lemma init_completes (L B T CB : npfloat) (CM LCB S V APP : option npfloat) :
  validation_errors (Build_t L B T CB CM LCB S V APP) = [] ->
  __init__ L B T CB CM LCB S V APP
  = _calculate_missing_parameters (Build_t L B T CB CM LCB S V APP).
Proof.
  intros E. unfold __init__, __post_init__, _validate_parameters.
  rewrite E. reflexivity.
Qed.

End FloatValidation.

(* ================================================================== *)
(** * HullParameters on any float: completion *)

Lemma fdiv_value (x y : npfloat) :
  Py.is_zero y = false -> Py.fdiv x y = ret (xdiv x y).
Proof. intros H. unfold Py.fdiv. rewrite H. reflexivity. Qed.

Lemma square_in_range (c : R) :
  0.3 <= c <= 1.0 -> Py.square (Fin c) = ret (Fin (c ^ 2)).
Proof.
  intros H. unfold Py.square. rewrite Rleb_true; [reflexivity | ].
  pose proof one_le_float_max. nra.
Qed.

Lemma is_zero_fin (r : R) : r <> 0 -> Py.is_zero (Fin r) = false.
Proof.
  intros H. cbn. pose proof (Rsign_nonzero r H) as N.
  destruct (Rsign r); [contradiction | reflexivity | reflexivity].
Qed.

Section FloatCompletion.
Context {fmt : PyFormat}.
Import HullParametersIEEE.

Ltac next_step :=
  rewrite value_of_bind; cbn [value_of scalar1 scalar2 ret fst rbind].

Lemma derived_S_runs (self : t) (v : npfloat) :
  validation_errors self = [] ->
  exists s, value_of (derived_S self v) = Ok s.
Proof.
  intros E. destruct (validated_fields self E) as (HL & HB & HT & c & EC & Hc).
  pose proof (fle_false_nonzero _ HL) as ZL.
  pose proof (fle_false_nonzero _ HT) as ZT.
  assert (Py.is_zero (Fin c) = false) as ZC by (apply is_zero_fin; lra).
  unfold derived_S. rewrite EC.
  do 2 next_step.
  rewrite (square_in_range c Hc). next_step.
  rewrite (fdiv_value _ _ ZT). next_step.
  rewrite (fdiv_value _ _ ZT). next_step.
  next_step.
  rewrite (fdiv_value _ _ ZC). next_step.
  rewrite (fdiv_value _ _ ZL). next_step.
  eexists. reflexivity.
Qed.

Lemma derived_APP_runs (self : t) :
  match T self with
  | Fin t =>
      if Rleb ((0.7 * t) ^ 2) Py.float_max
      then value_of (derived_APP self) = Ok (Fin (0.5 * PI * (0.7 * t) ^ 2))
      else value_of (derived_APP self) = Raise Py.overflow_error
  | _ => exists app, value_of (derived_APP self) = Ok app
  end.
Proof.
  unfold derived_APP. destruct (T self) as [t | | | | ] eqn:ET.
  - unfold xmul. cbn [Np.multiply fst]. unfold Py.square.
    destruct (Rleb ((0.7 * t) ^ 2) Py.float_max); reflexivity.
  - unfold xmul. cbn [Np.multiply fst]. rewrite Rsign_pos by lra.
    eexists. reflexivity.
  - unfold xmul. cbn [Np.multiply fst]. unfold Np.scale_inf.
    rewrite Rsign_pos by lra. eexists. reflexivity.
  - unfold xmul. cbn [Np.multiply fst]. unfold Np.scale_inf.
    rewrite Rsign_pos by lra. eexists. reflexivity.
  - eexists. reflexivity.
Qed.

(** After the four tests have passed, completion raises only where the
    square in the derived propeller area overflows; otherwise it returns
    the object, in which the four dimensions and every supplied optional
    value are the caller's. *)
Lemma completion_runs (self : t) :
  validation_errors self = [] ->
  if propeller_overflows self
  then value_of (_calculate_missing_parameters self) = Raise Py.overflow_error
  else exists s app,
    value_of (_calculate_missing_parameters self)
    = Ok {| L := L self; B := B self; T := T self; CB := CB self;
            CM := Some (match CM self with None => Fin 0.98 | Some cm => cm end);
            LCB := Some (match LCB self with None => Fin 0.5 | Some lcb => lcb end);
            S := Some s;
            V := Some (match V self with None => derived_V self | Some v => v end);
            APP := Some app |}
    /\ (forall x, S self = Some x -> s = x)
    /\ (forall x, APP self = Some x -> app = x).
Proof.
  intros E. unfold _calculate_missing_parameters, propeller_overflows.
  set (v := match V self with None => derived_V self | Some v => v end).
  assert (exists s, value_of (match S self with
                              | None => derived_S self v
                              | Some s => ret s
                              end) = Ok s
                    /\ forall x, S self = Some x -> s = x) as (s & Hs & Hkept).
  { destruct (S self) as [s0 | ].
    - exists s0. split; [reflexivity | ]. intros x Hx. injection Hx as <-. reflexivity.
    - destruct (derived_S_runs self v E) as (s & Hs). exists s.
      split; [exact Hs | ]. intros x Hx. discriminate Hx. }
  rewrite value_of_bind, Hs. cbn [rbind].
  rewrite value_of_bind.
  destruct (APP self) as [app | ] eqn:EA.
  - cbn [value_of ret fst rbind]. exists s, app.
    split; [reflexivity | ]. split; [exact Hkept | ].
    intros x Hx. injection Hx as <-. reflexivity.
  - pose proof (derived_APP_runs self) as HA.
    destruct (T self) as [t | | | | ] eqn:ET.
    + destruct (Rleb ((0.7 * t) ^ 2) Py.float_max); cbn [negb].
      * rewrite HA. cbn [rbind value_of ret fst]. eexists s, _.
        split; [reflexivity | ]. split; [exact Hkept | ].
        intros x Hx. discriminate Hx.
      * rewrite HA. reflexivity.
    + destruct HA as (app & HA). rewrite HA. cbn [rbind value_of ret fst].
      exists s, app. split; [reflexivity | ]. split; [exact Hkept | ].
      intros x Hx. discriminate Hx.
    + destruct HA as (app & HA). rewrite HA. cbn [rbind value_of ret fst].
      exists s, app. split; [reflexivity | ]. split; [exact Hkept | ].
      intros x Hx. discriminate Hx.
    + destruct HA as (app & HA). rewrite HA. cbn [rbind value_of ret fst].
      exists s, app. split; [reflexivity | ]. split; [exact Hkept | ].
      intros x Hx. discriminate Hx.
    + destruct HA as (app & HA). rewrite HA. cbn [rbind value_of ret fst].
      exists s, app. split; [reflexivity | ]. split; [exact Hkept | ].
      intros x Hx. discriminate Hx.
Qed.

End FloatCompletion.

(* ================================================================== *)
(** * The two embeddings of HullParameters agree on finite fields *)

Ltac float_step :=
  rewrite value_of_bind; cbn [value_of scalar1 scalar2 ret fst rbind].

Lemma np_multiply_fin (a b : R) : fst (Np.multiply (Fin a) (Fin b)) = Fin (a * b).
Proof. reflexivity. Qed.

Lemma np_add_fin (a b : R) : fst (Np.add (Fin a) (Fin b)) = Fin (a + b).
Proof. reflexivity. Qed.

Lemma np_subtract_fin (a b : R) : fst (Np.subtract (Fin a) (Fin b)) = Fin (a - b).
Proof. reflexivity. Qed.

Lemma derived_S_on_finite (h : HullParameters.t) (v : R) :
  0 < HullParameters.L h -> 0 < HullParameters.T h ->
  0.3 <= HullParameters.CB h <= 1.0 ->
  value_of (HullParametersIEEE.derived_S (HullParametersIEEE.of_finite h) (Fin v))
  = Ok (Fin (wetted_surface (HullParameters.L h) (HullParameters.B h)
               (HullParameters.T h) (HullParameters.CB h) v)).
Proof.
  intros HL HT HC.
  assert (Py.is_zero (Fin (HullParameters.L h)) = false) as ZL
    by (apply is_zero_fin; lra).
  assert (Py.is_zero (Fin (HullParameters.T h)) = false) as ZT
    by (apply is_zero_fin; lra).
  assert (Py.is_zero (Fin (HullParameters.CB h)) = false) as ZC
    by (apply is_zero_fin; lra).
  unfold HullParametersIEEE.derived_S, HullParametersIEEE.of_finite.
  cbn [HullParametersIEEE.L HullParametersIEEE.B HullParametersIEEE.T
       HullParametersIEEE.CB].
  do 2 float_step.
  rewrite (square_in_range _ HC). float_step.
  rewrite (fdiv_value _ _ ZT). float_step.
  rewrite (fdiv_value _ _ ZT). float_step.
  float_step.
  rewrite (fdiv_value _ _ ZC). float_step.
  rewrite (fdiv_value _ _ ZL). float_step.
  rewrite sqrt_fin by lra.
  unfold xmul, xadd, xsub, xdiv.
  repeat first [ rewrite np_multiply_fin | rewrite np_add_fin
               | rewrite np_subtract_fin | rewrite divide_fin by lra ].
  reflexivity.
Qed.

Section FiniteHulls.
Context {fmt : PyFormat}.

Lemma validation_errors_on_finite (h : HullParameters.t) :
  HullParametersIEEE.validation_errors (HullParametersIEEE.of_finite h)
  = HullParameters.validation_errors h.
Proof. reflexivity. Qed.

Lemma completion_on_finite (h : HullParameters.t) :
  0 < HullParameters.L h -> 0 < HullParameters.T h ->
  0.3 <= HullParameters.CB h <= 1.0 ->
  (HullParameters.APP h = None ->
   (0.7 * HullParameters.T h) ^ 2 <= Py.float_max) ->
  value_of (HullParametersIEEE._calculate_missing_parameters
              (HullParametersIEEE.of_finite h))
  = Ok (HullParametersIEEE.of_finite
          (HullParameters._calculate_missing_parameters h)).
Proof.
  intros HL HT HC Hfit.
  unfold HullParametersIEEE._calculate_missing_parameters.
  rewrite value_of_bind.
  set (v := match HullParameters.V h with
            | None => HullParameters.L h * HullParameters.B h
                      * HullParameters.T h * HullParameters.CB h
            | Some v => v
            end).
  assert (match HullParametersIEEE.V (HullParametersIEEE.of_finite h) with
          | None => HullParametersIEEE.derived_V (HullParametersIEEE.of_finite h)
          | Some v0 => v0
          end = Fin v) as EV.
  { unfold v. destruct h as [l b t cb cm lcb s [v0 | ] app]; reflexivity. }
  rewrite EV.
  assert (value_of
            match HullParametersIEEE.S (HullParametersIEEE.of_finite h) with
            | None => HullParametersIEEE.derived_S
                        (HullParametersIEEE.of_finite h) (Fin v)
            | Some s => ret s
            end
          = Ok (Fin match HullParameters.S h with
                    | None => wetted_surface (HullParameters.L h)
                                (HullParameters.B h) (HullParameters.T h)
                                (HullParameters.CB h) v
                    | Some s => s
                    end)) as ES.
  { destruct (HullParameters.S h) as [s | ] eqn:E.
    - unfold HullParametersIEEE.of_finite. cbn [HullParametersIEEE.S].
      rewrite E. reflexivity.
    - unfold HullParametersIEEE.of_finite at 1. cbn [HullParametersIEEE.S].
      rewrite E. cbn [option_map].
      apply derived_S_on_finite; assumption. }
  rewrite ES. cbn [rbind]. rewrite value_of_bind.
  assert (value_of
            match HullParametersIEEE.APP (HullParametersIEEE.of_finite h) with
            | None => HullParametersIEEE.derived_APP
                        (HullParametersIEEE.of_finite h)
            | Some app => ret app
            end
          = Ok (Fin match HullParameters.APP h with
                    | None => 0.5 * PI * (0.7 * HullParameters.T h) ^ 2
                    | Some app => app
                    end)) as EA.
  { destruct (HullParameters.APP h) as [app | ] eqn:E.
    - unfold HullParametersIEEE.of_finite. cbn [HullParametersIEEE.APP].
      rewrite E. reflexivity.
    - unfold HullParametersIEEE.of_finite at 1. cbn [HullParametersIEEE.APP].
      rewrite E. cbn [option_map].
      pose proof (derived_APP_runs (HullParametersIEEE.of_finite h)) as HA.
      cbn [HullParametersIEEE.of_finite HullParametersIEEE.T] in HA.
      rewrite (Rleb_true _ _ (Hfit eq_refl)) in HA. exact HA. }
  rewrite EA. cbn [rbind value_of ret fst].
  unfold HullParameters._calculate_missing_parameters, wetted_surface.
  fold v.
  destruct h as [l b t cb [cm | ] [lcb | ] s0 v0 app0]; reflexivity.
Qed.

(** On finite fields the construction on floats is the construction on
    reals, as long as the square in a derived propeller area stays
    within the floats. *)
Lemma init_on_finite (L B T CB : R) (CM LCB S V APP : option R) :
  (APP = None -> (0.7 * T) ^ 2 <= Py.float_max) ->
  value_of (HullParametersIEEE.__init__ (Fin L) (Fin B) (Fin T) (Fin CB)
              (option_map Fin CM) (option_map Fin LCB) (option_map Fin S)
              (option_map Fin V) (option_map Fin APP))
  = match HullParameters.__init__ L B T CB CM LCB S V APP with
    | Ok h => Ok (HullParametersIEEE.of_finite h)
    | Raise e => Raise e
    end.
Proof.
  intros Hfit.
  set (h0 := HullParameters.Build_t L B T CB CM LCB S V APP).
  change (HullParametersIEEE.__init__ (Fin L) (Fin B) (Fin T) (Fin CB)
            (option_map Fin CM) (option_map Fin LCB) (option_map Fin S)
            (option_map Fin V) (option_map Fin APP))
    with (HullParametersIEEE.__post_init__ (HullParametersIEEE.of_finite h0)).
  change (HullParameters.__init__ L B T CB CM LCB S V APP)
    with (HullParameters.__post_init__ h0).
  unfold HullParametersIEEE.__post_init__, HullParameters.__post_init__,
    HullParametersIEEE._validate_parameters, HullParameters._validate_parameters.
  rewrite validation_errors_on_finite.
  destruct (HullParameters.validation_errors h0) as [ | m l] eqn:E.
  - apply validation_errors_nil in E. cbn in E.
    destruct E as (HL & HB & HT & HC).
    apply completion_on_finite; assumption.
  - reflexivity.
Qed.

End FiniteHulls.

(* ================================================================== *)
(** * Claims on construction *)

Lemma passes_is_positive (x : npfloat) :
  x <> NaN -> fle x (Fin 0) = false -> xlt (Fin 0) x.
Proof.
  intros N H. apply xlt_zero. destruct x as [r | | | | ]; cbn in *.
  - unfold Rleb in H. destruct (Rle_dec r 0); [discriminate H | lra].
  - unfold Rleb in H. destruct (Rle_dec 0 0); [discriminate H | lra].
  - exact I.
  - discriminate H.
  - apply N. reflexivity.
Qed.

Section ClaimsOnConstruction.
Context {fmt : PyFormat}.
Import HullParametersIEEE.
Local Open Scope string_scope.
Local Open Scope list_scope.

Lemma made_of_errors (L B T CB : npfloat) (CM LCB S V APP : option npfloat) :
  let self := Build_t L B T CB CM LCB S V APP in
  let made := value_of (__init__ L B T CB CM LCB S V APP) in
  (validation_errors self <> [] ->
     made = Raise (ValueError (HullParameters.error_msg (validation_errors self))))
  /\ (validation_errors self = [] ->
      if propeller_overflows self then made = Raise Py.overflow_error
      else exists s app,
        made = Ok {| L := L; B := B; T := T; CB := CB;
                     CM := Some (match CM with None => Fin 0.98 | Some cm => cm end);
                     LCB := Some (match LCB with None => Fin 0.5 | Some lcb => lcb end);
                     S := Some s;
                     V := Some (match V with None => derived_V self | Some v => v end);
                     APP := Some app |}
        /\ (forall x, S = Some x -> s = x)
        /\ (forall x, APP = Some x -> app = x)).
Proof.
  intros self made. split.
  - intros NE. unfold made. rewrite init_raises_the_errors by exact NE.
    reflexivity.
  - intros E. unfold made. rewrite init_completes by exact E.
    exact (completion_runs self E).
Qed.

Lemma tests_are_rules (L B T CB : npfloat) :
  L <> NaN -> B <> NaN -> T <> NaN ->
  (tests_fire L B T CB <-> ~ rules_hold L B T CB).
Proof.
  intros NL NB NT. unfold tests_fire, rules_hold. split.
  - intros [H | [H | [H | H]]] (RL & RB & RT & RC).
    + apply (proj1 (test_is_rule L NL) H RL).
    + apply (proj1 (test_is_rule B NB) H RB).
    + apply (proj1 (test_is_rule T NT) H RT).
    + apply H. exact RC.
  - intros NR.
    destruct (fle L (Fin 0)) eqn:EL; [left; apply fle_spec; exact EL | ].
    destruct (fle B (Fin 0)) eqn:EB; [right; left; apply fle_spec; exact EB | ].
    destruct (fle T (Fin 0)) eqn:ET;
      [right; right; left; apply fle_spec; exact ET | ].
    right. right. right. intros RC. apply NR.
    repeat split; try (apply passes_is_positive; assumption); apply RC.
Qed.

Lemma positive_passes (x : npfloat) : xlt (Fin 0) x -> fle x (Fin 0) = false.
Proof.
  intros H. apply fle_false. intros Hle.
  assert (x <> NaN) as N by (intros ->; destruct H as [[] _]).
  apply (proj1 (test_is_rule x N) Hle H).
Qed.

End ClaimsOnConstruction.

Section ConstructionOnAnyFloat.
Context {fmt : PyFormat}.
Import HullParametersIEEE.
Local Open Scope string_scope.
Local Open Scope list_scope.

Lemma errors_iff_tests (self : t) :
  validation_errors self <> []
  <-> tests_fire (L self) (B self) (T self) (CB self).
Proof.
  unfold tests_fire. split.
  - intros NE. destruct (validation_errors self) as [ | m l] eqn:E;
      [contradiction | ].
    assert (In m (validation_errors self)) as Hm by (rewrite E; left; reflexivity).
    apply float_In_errors in Hm. tauto.
  - intros H E. apply float_validation_errors_nil in E. apply E. exact H.
Qed.

(** C2. Construction runs the four tests [L <= 0], [B <= 0], [T <= 0] and
    [not (0.3 <= CB <= 1.0)] and is not fail-fast: the list of errors
    holds, in this order, the message of each test that fires (and the
    guidance note after the CB message), nothing else; when the list is
    not empty the result is one ValueError whose text is the heading
    followed by every message of the list, and no object; when it is empty
    no ValueError is raised.  For a dimension that is a number (finite or
    infinite, -0.0 included) the test fires exactly when the rule
    "positive" is violated, and the CB test fires exactly when CB is
    outside [0.3, 1.0], a nan CB included.  CB = 0.3 and CB = 1.0 are
    accepted, CB = 0.2999 and CB = 1.0001 are rejected with the CB message
    in the text, and L = 0 with CB = 2.0 yields one error whose text lists
    the length message and the CB message.  A nan dimension violates its
    rule and passes its test: with L = nan and CB = 2.0 the error lists
    the CB message alone. *)
Theorem validation_reports_every_violation
    (L B T CB : npfloat) (CM LCB S V APP : option npfloat) :
  let self := Build_t L B T CB CM LCB S V APP in
  let errors := validation_errors self in
  let made := value_of (__init__ L B T CB CM LCB S V APP) in
  let hull l cb := Build_t l B T cb CM LCB S V APP in
  let make l cb := value_of (__init__ l B T cb CM LCB S V APP) in
  errors = (if fle L (Fin 0) then ["Comprimento deve ser positivo"] else [])
           ++ (if fle B (Fin 0) then ["Boca deve ser positiva"] else [])
           ++ (if fle T (Fin 0) then ["Calado deve ser positivo"] else [])
           ++ (if negb (fle (Fin 0.3) CB && fle CB (Fin 1.0))
               then [cb_error self; HullParameters.cb_hint] else [])
  /\ (In "Comprimento deve ser positivo" errors <-> xle L (Fin 0))
  /\ (In "Boca deve ser positiva" errors <-> xle B (Fin 0))
  /\ (In "Calado deve ser positivo" errors <-> xle T (Fin 0))
  /\ (In (cb_error self) errors <-> ~ (xle (Fin 0.3) CB /\ xle CB (Fin 1.0)))
  /\ (In HullParameters.cb_hint errors
      <-> ~ (xle (Fin 0.3) CB /\ xle CB (Fin 1.0)))
  /\ cb_error self
     = ("Coeficiente de bloco (CB=" ++ py_format CB ""
        ++ ") deve estar entre 0.3 e 1.0")%string
  /\ (L <> NaN -> (xle L (Fin 0) <-> ~ xlt (Fin 0) L))
  /\ (B <> NaN -> (xle B (Fin 0) <-> ~ xlt (Fin 0) B))
  /\ (T <> NaN -> (xle T (Fin 0) <-> ~ xlt (Fin 0) T))
  /\ (~ xlt (Fin 0) NaN /\ ~ xle NaN (Fin 0))
  /\ (errors <> [] ->
      made = Raise (ValueError (HullParameters.error_msg errors)))
  /\ HullParameters.error_msg errors
     = ("Erros de validação:" ++ nl ++ "- " ++ join (nl ++ "- ") errors)%string
  /\ (forall m, In m errors -> occurs_in m (HullParameters.error_msg errors))
  /\ (errors = [] -> forall msg, made <> Raise (ValueError msg))
  /\ (xlt (Fin 0) L -> xlt (Fin 0) B -> xlt (Fin 0) T ->
      validation_errors (hull L (Fin 0.3)) = []
      /\ validation_errors (hull L (Fin 1.0)) = []
      /\ (propeller_overflows self = false ->
          is_ok (make L (Fin 0.3)) = true /\ is_ok (make L (Fin 1.0)) = true)
      /\ make L (Fin 0.2999)
         = Raise (ValueError
             ("Erros de validação:" ++ nl
              ++ "- " ++ cb_error (hull L (Fin 0.2999)) ++ nl
              ++ "- " ++ HullParameters.cb_hint)%string)
      /\ make L (Fin 1.0001)
         = Raise (ValueError
             ("Erros de validação:" ++ nl
              ++ "- " ++ cb_error (hull L (Fin 1.0001)) ++ nl
              ++ "- " ++ HullParameters.cb_hint)%string))
  /\ (xlt (Fin 0) B -> xlt (Fin 0) T ->
      make (Fin 0) (Fin 2.0)
      = Raise (ValueError
          ("Erros de validação:" ++ nl
           ++ "- Comprimento deve ser positivo" ++ nl
           ++ "- " ++ cb_error (hull (Fin 0) (Fin 2.0)) ++ nl
           ++ "- " ++ HullParameters.cb_hint)%string)
      /\ make NaN (Fin 2.0)
         = Raise (ValueError
             ("Erros de validação:" ++ nl
              ++ "- " ++ cb_error (hull NaN (Fin 2.0)) ++ nl
              ++ "- " ++ HullParameters.cb_hint)%string)).
Proof.
  intros self errors made hull make.
  destruct (float_cb_error_head self) as [rest Hhead].
  pose proof (float_In_errors self) as HIn.
  unfold self in HIn.
  cbn [HullParametersIEEE.L HullParametersIEEE.B HullParametersIEEE.T
       HullParametersIEEE.CB] in HIn.
  fold self in HIn. fold errors in HIn.
  assert (forall l cb,
            validation_errors (hull l cb) <> [] ->
            make l cb
            = Raise (ValueError (HullParameters.error_msg
                                   (validation_errors (hull l cb))))) as Hraise.
  { intros l cb NE. unfold make.
    rewrite init_raises_the_errors by exact NE. reflexivity. }
  assert (forall l cb,
            validation_errors (hull l cb)
            = (if fle l (Fin 0) then ["Comprimento deve ser positivo"] else [])
              ++ (if fle B (Fin 0) then ["Boca deve ser positiva"] else [])
              ++ (if fle T (Fin 0) then ["Calado deve ser positivo"] else [])
              ++ (if negb (fle (Fin 0.3) cb && fle cb (Fin 1.0))
                  then [cb_error (hull l cb); HullParameters.cb_hint] else []))
    as Hcases by (intros; apply float_validation_errors_cases).
  split; [apply (Hcases L CB) | ].
  split.
  { split.
    - intros H. apply HIn in H.
      destruct H as [[_ H] | [[E _] | [[E _] | [[E | E] _]]]];
        [exact H | discriminate E | discriminate E | | discriminate E].
      rewrite Hhead in E. discriminate E.
    - intros H. apply HIn. left. split; [reflexivity | exact H]. }
  split.
  { split.
    - intros H. apply HIn in H.
      destruct H as [[E _] | [[_ H] | [[E _] | [[E | E] _]]]];
        [discriminate E | exact H | discriminate E | | discriminate E].
      rewrite Hhead in E. discriminate E.
    - intros H. apply HIn. right. left. split; [reflexivity | exact H]. }
  split.
  { split.
    - intros H. apply HIn in H.
      destruct H as [[E _] | [[E _] | [[_ H] | [[E | E] _]]]];
        [discriminate E | discriminate E | exact H | | discriminate E].
      rewrite Hhead in E. discriminate E.
    - intros H. apply HIn. right. right. left. split; [reflexivity | exact H]. }
  split.
  { split.
    - intros H. apply HIn in H.
      destruct H as [[E _] | [[E _] | [[E _] | [_ H]]]];
        [rewrite Hhead in E; discriminate E | rewrite Hhead in E; discriminate E
         | rewrite Hhead in E; discriminate E | exact H].
    - intros H. apply HIn. right. right. right.
      split; [left; reflexivity | exact H]. }
  split.
  { split.
    - intros H. apply HIn in H.
      destruct H as [[E _] | [[E _] | [[E _] | [_ H]]]];
        [discriminate E | discriminate E | discriminate E | exact H].
    - intros H. apply HIn. right. right. right.
      split; [right; reflexivity | exact H]. }
  split; [reflexivity | ].
  split; [apply test_is_rule | ].
  split; [apply test_is_rule | ].
  split; [apply test_is_rule | ].
  split; [split; apply nan_passes_the_test | ].
  destruct (made_of_errors L B T CB CM LCB S V APP) as [Hbad Hgood].
  split; [exact Hbad | ].
  split; [reflexivity | ].
  split; [intros m; apply occurs_in_error_msg | ].
  split.
  { intros E msg Hmsg. specialize (Hgood E). fold made in Hgood.
    destruct (propeller_overflows (Build_t L B T CB CM LCB S V APP)).
    - rewrite Hgood in Hmsg. discriminate Hmsg.
    - destruct Hgood as (s & app & Hok & _). rewrite Hok in Hmsg.
      discriminate Hmsg. }
  split.
  - intros PL PB PT.
    pose proof (positive_passes L PL) as FL.
    pose proof (positive_passes B PB) as FB.
    pose proof (positive_passes T PT) as FT.
    assert (validation_errors (hull L (Fin 0.3)) = []) as E3.
    { rewrite Hcases, FL, FB, FT. cbn [fle].
      rewrite (Rleb_true 0.3 0.3), (Rleb_true 0.3 1.0) by lra. reflexivity. }
    assert (validation_errors (hull L (Fin 1.0)) = []) as E1.
    { rewrite Hcases, FL, FB, FT. cbn [fle].
      rewrite (Rleb_true 0.3 1.0), (Rleb_true 1.0 1.0) by lra. reflexivity. }
    split; [exact E3 | ]. split; [exact E1 | ].
    split.
    { intros NO.
      destruct (made_of_errors L B T (Fin 0.3) CM LCB S V APP) as [_ H3].
      destruct (made_of_errors L B T (Fin 1.0) CM LCB S V APP) as [_ H1].
      specialize (H3 E3). specialize (H1 E1).
      change (propeller_overflows (Build_t L B T (Fin 0.3) CM LCB S V APP))
        with (propeller_overflows self) in H3.
      change (propeller_overflows (Build_t L B T (Fin 1.0) CM LCB S V APP))
        with (propeller_overflows self) in H1.
      rewrite NO in H3, H1.
      destruct H3 as (s3 & a3 & H3 & _). destruct H1 as (s1 & a1 & H1 & _).
      unfold make. rewrite H3, H1. split; reflexivity. }
    split.
    + rewrite Hraise.
      * rewrite Hcases, FL, FB, FT. cbn [fle].
        rewrite (Rleb_false 0.3 0.2999) by lra. reflexivity.
      * rewrite Hcases, FL, FB, FT. cbn [fle].
        rewrite (Rleb_false 0.3 0.2999) by lra. discriminate.
    + rewrite Hraise.
      * rewrite Hcases, FL, FB, FT. cbn [fle].
        rewrite (Rleb_false 1.0001 1.0) by lra.
        rewrite andb_false_r. reflexivity.
      * rewrite Hcases, FL, FB, FT. cbn [fle].
        rewrite (Rleb_false 1.0001 1.0) by lra.
        rewrite andb_false_r. discriminate.
  - intros PB PT.
    pose proof (positive_passes B PB) as FB.
    pose proof (positive_passes T PT) as FT.
    split.
    + rewrite Hraise.
      * rewrite Hcases, FB, FT. cbn [fle].
        rewrite (Rleb_true 0 0) by lra.
        rewrite (Rleb_false 2.0 1.0) by lra.
        rewrite andb_false_r. reflexivity.
      * rewrite Hcases, FB, FT. cbn [fle].
        rewrite (Rleb_true 0 0) by lra. discriminate.
    + rewrite Hraise.
      * rewrite Hcases, FB, FT. cbn [fle].
        rewrite (Rleb_false 2.0 1.0) by lra.
        rewrite andb_false_r. reflexivity.
      * rewrite Hcases, FB, FT. cbn [fle].
        rewrite (Rleb_false 2.0 1.0) by lra.
        rewrite andb_false_r. discriminate.
Qed.

(** C10. Construction raises ValueError exactly when one of the four
    tests of [_validate_parameters] fires; for dimensions that are
    numbers (not nan) that is exactly when one of the four rules L > 0,
    B > 0, T > 0, 0.3 <= CB <= 1.0 is violated, whereas a nan dimension
    violates its rule and is accepted.  Past the tests the only
    exception is the OverflowError of the square in a derived propeller
    area.  The optional values are not looked at: a given optional value
    is kept as given, whatever float it is, and a missing one receives
    its formula, so that a non-positive (or nan) V or S is accepted and
    stored. *)
Theorem optional_fields_unchecked_and_kept
    (L B T CB : npfloat) (CM LCB S V APP : option npfloat) :
  let self := Build_t L B T CB CM LCB S V APP in
  let made := value_of (__init__ L B T CB CM LCB S V APP) in
  ((exists msg, made = Raise (ValueError msg)) <-> tests_fire L B T CB)
  /\ (L <> NaN -> B <> NaN -> T <> NaN ->
      (tests_fire L B T CB <-> ~ rules_hold L B T CB))
  /\ (L = NaN \/ B = NaN \/ T = NaN -> ~ rules_hold L B T CB)
  /\ (~ tests_fire L B T CB -> propeller_overflows self = true ->
      made = Raise Py.overflow_error)
  /\ (~ tests_fire L B T CB -> propeller_overflows self = false ->
      exists h, made = Ok h)
  /\ (forall h, made = Ok h ->
      HullParametersIEEE.L h = L /\ HullParametersIEEE.B h = B
      /\ HullParametersIEEE.T h = T /\ HullParametersIEEE.CB h = CB
      /\ (forall x, CM = Some x -> HullParametersIEEE.CM h = Some x)
      /\ (forall x, LCB = Some x -> HullParametersIEEE.LCB h = Some x)
      /\ (forall x, S = Some x -> HullParametersIEEE.S h = Some x)
      /\ (forall x, V = Some x -> HullParametersIEEE.V h = Some x)
      /\ (forall x, APP = Some x -> HullParametersIEEE.APP h = Some x)
      /\ (CM = None -> HullParametersIEEE.CM h = Some (Fin 0.98))
      /\ (LCB = None -> HullParametersIEEE.LCB h = Some (Fin 0.5))
      /\ (V = None -> HullParametersIEEE.V h = Some (derived_V self)))
  /\ (~ tests_fire L B T CB -> propeller_overflows self = false ->
      forall s v, exists h,
        value_of (__init__ L B T CB CM LCB (Some s) (Some v) APP) = Ok h
        /\ HullParametersIEEE.S h = Some s /\ HullParametersIEEE.V h = Some v).
Proof.
  intros self made.
  destruct (made_of_errors L B T CB CM LCB S V APP) as [Hbad Hgood].
  fold self in Hbad, Hgood. fold made in Hbad, Hgood.
  pose proof (errors_iff_tests self) as Htests.
  unfold self in Htests at 2 3 4 5.
  cbn [HullParametersIEEE.L HullParametersIEEE.B HullParametersIEEE.T
       HullParametersIEEE.CB] in Htests.
  assert (~ tests_fire L B T CB -> validation_errors self = []) as Hnil.
  { intros NT. destruct (validation_errors self) as [ | m l] eqn:E;
      [reflexivity | ].
    exfalso. apply NT. apply Htests. discriminate. }
  split.
  { split.
    - intros (msg & Hmsg).
      destruct (validation_errors self) as [ | m l] eqn:E.
      + exfalso. specialize (Hgood eq_refl).
        destruct (propeller_overflows self).
        * rewrite Hgood in Hmsg. discriminate Hmsg.
        * destruct Hgood as (s & app & Hok & _). rewrite Hok in Hmsg.
          discriminate Hmsg.
      + apply Htests. discriminate.
    - intros H. apply Htests in H. eexists. apply Hbad. exact H. }
  split; [apply tests_are_rules | ].
  split.
  { intros [-> | [-> | ->]] (RL & RB & RT & _).
    - destruct RL as [[] _].
    - destruct RB as [[] _].
    - destruct RT as [[] _]. }
  split.
  { intros NT OV. specialize (Hgood (Hnil NT)). rewrite OV in Hgood.
    exact Hgood. }
  split.
  { intros NT OV. specialize (Hgood (Hnil NT)). rewrite OV in Hgood.
    destruct Hgood as (s & app & Hok & _). eexists. exact Hok. }
  split.
  { intros h Hh.
    destruct (validation_errors self) as [ | m l] eqn:E.
    - specialize (Hgood eq_refl). destruct (propeller_overflows self).
      + rewrite Hgood in Hh. discriminate Hh.
      + destruct Hgood as (s & app & Hok & Hs & Happ).
        rewrite Hok in Hh. injection Hh as <-.
        cbn [HullParametersIEEE.L HullParametersIEEE.B HullParametersIEEE.T
             HullParametersIEEE.CB HullParametersIEEE.CM HullParametersIEEE.LCB
             HullParametersIEEE.S HullParametersIEEE.V HullParametersIEEE.APP].
        repeat split; try reflexivity.
        * intros x ->. reflexivity.
        * intros x ->. reflexivity.
        * intros x Hx. rewrite (Hs x Hx). reflexivity.
        * intros x ->. reflexivity.
        * intros x Hx. rewrite (Happ x Hx). reflexivity.
        * intros ->. reflexivity.
        * intros ->. reflexivity.
        * intros ->. reflexivity.
    - rewrite Hbad in Hh by discriminate. discriminate Hh. }
  intros NT OV s v.
  destruct (made_of_errors L B T CB CM LCB (Some s) (Some v) APP) as [_ Hgood'].
  assert (validation_errors (Build_t L B T CB CM LCB (Some s) (Some v) APP) = [])
    as E' by (apply float_validation_errors_nil; exact NT).
  specialize (Hgood' E').
  change (propeller_overflows (Build_t L B T CB CM LCB (Some s) (Some v) APP))
    with (propeller_overflows self) in Hgood'.
  rewrite OV in Hgood'. destruct Hgood' as (s' & app & Hok & Hs & _).
  eexists. split; [exact Hok | ].
  cbn [HullParametersIEEE.S HullParametersIEEE.V].
  rewrite (Hs s eq_refl). split; reflexivity.
Qed.

End ConstructionOnAnyFloat.

Lemma scenario_draft_fits : (0.7 * 8) ^ 2 <= Py.float_max.
Proof. pose proof thousand_le_float_max. nra. Qed.

Lemma validation_reports_every_violation_witness :
  value_of (HullParametersIEEE.__init__ (fmt := spec_only_format)
              NaN (Fin 20) (Fin 8) (Fin 2.0) None None None None None)
  = Raise (ValueError
      ("Erros de validação:" ++ nl
       ++ "- " ++ HullParametersIEEE.cb_error (fmt := spec_only_format)
                    (HullParametersIEEE.Build_t NaN (Fin 20) (Fin 8) (Fin 2.0)
                       None None None None None) ++ nl
       ++ "- " ++ HullParameters.cb_hint)%string)
  /\ ~ xlt (Fin 0) NaN
  /\ value_of (HullParametersIEEE.__init__ (fmt := spec_only_format)
                 (Fin 0) (Fin 20) (Fin 8) (Fin 2.0) None None None None None)
     = Raise (ValueError
         ("Erros de validação:" ++ nl
          ++ "- Comprimento deve ser positivo" ++ nl
          ++ "- " ++ HullParametersIEEE.cb_error (fmt := spec_only_format)
                       (HullParametersIEEE.Build_t (Fin 0) (Fin 20) (Fin 8)
                          (Fin 2.0) None None None None None) ++ nl
          ++ "- " ++ HullParameters.cb_hint)%string).
Proof.
  pose proof (validation_reports_every_violation (fmt := spec_only_format)
                NaN (Fin 20) (Fin 8) (Fin 2.0) None None None None None) as H.
  cbv zeta in H.
  destruct H as (_ & _ & _ & _ & _ & _ & _ & _ & _ & _ & (Hnan & _) & _ & _ & _
                 & _ & _ & Hboth).
  destruct Hboth as (Hzero & Hmiss);
    [apply xlt_zero; cbn; lra | apply xlt_zero; cbn; lra | ].
  split; [exact Hmiss | ]. split; [exact Hnan | exact Hzero].
Defined.

Lemma optional_fields_unchecked_and_kept_witness :
  (exists h,
     value_of (HullParametersIEEE.__init__ (fmt := spec_only_format)
                 NaN (Fin 20) (Fin 8) (Fin 0.7) None None None None None) = Ok h
     /\ HullParametersIEEE.L h = NaN)
  /\ ~ rules_hold NaN (Fin 20) (Fin 8) (Fin 0.7)
  /\ (exists h,
        value_of (HullParametersIEEE.__init__ (fmt := spec_only_format)
                    (Fin 150) (Fin 20) (Fin 8) (Fin 0.7)
                    None None (Some (Fin (-1))) (Some NaN) None) = Ok h
        /\ HullParametersIEEE.S h = Some (Fin (-1))
        /\ HullParametersIEEE.V h = Some NaN).
Proof.
  assert (~ tests_fire NaN (Fin 20) (Fin 8) (Fin 0.7)) as NT1.
  { unfold tests_fire. cbn. intros [[] | [H | [H | H]]]; lra. }
  assert (~ tests_fire (Fin 150) (Fin 20) (Fin 8) (Fin 0.7)) as NT2.
  { unfold tests_fire. cbn. intros [H | [H | [H | H]]]; lra. }
  assert (forall l s v,
            HullParametersIEEE.propeller_overflows
              (HullParametersIEEE.Build_t l (Fin 20) (Fin 8) (Fin 0.7)
                 None None s v None) = false) as NO.
  { intros l s v. unfold HullParametersIEEE.propeller_overflows.
    cbn [HullParametersIEEE.APP HullParametersIEEE.T].
    rewrite (Rleb_true _ _ scenario_draft_fits). reflexivity. }
  pose proof (optional_fields_unchecked_and_kept (fmt := spec_only_format)
                NaN (Fin 20) (Fin 8) (Fin 0.7) None None None None None) as H1.
  cbv zeta in H1.
  destruct H1 as (_ & _ & Hnan & _ & Hmade & Hkept & _).
  destruct (Hmade NT1 (NO _ _ _)) as (h & Hh).
  destruct (Hkept h Hh) as (HL & _).
  pose proof (optional_fields_unchecked_and_kept (fmt := spec_only_format)
                (Fin 150) (Fin 20) (Fin 8) (Fin 0.7) None None None None None)
    as H2.
  cbv zeta in H2.
  destruct H2 as (_ & _ & _ & _ & _ & _ & Hany).
  split; [exists h; split; [exact Hh | exact HL] | ].
  split; [apply Hnan; left; reflexivity | ].
  apply (Hany NT2 (NO _ _ _)).
Defined.

(* ================================================================== *)
(** * The inputs of the examples in binary64 *)

Module Binary64Facts.
Import PrimFloat.

(** With L = 100 the speed 1.1892e-6 has a Reynolds number of exactly 100
    in binary64 too: the two roundings cancel. *)
Lemma binary64_reynolds_100 :
  Binary64.reynolds 1.1892e-6%float 100%float = 100%float.
Proof. vm_compute. reflexivity. Qed.

Lemma binary64_scenario_volume :
  Binary64.volume 150%float 20%float 8%float 0.70%float = 16800%float.
Proof. vm_compute. reflexivity. Qed.

Lemma binary64_c1_base : Binary64.c1_base = 89.7%float.
Proof. vm_compute. reflexivity. Qed.

End Binary64Facts.
